(** * between-the-lines: scrapers, currency normalizers and the CSV merger

    A shallow embedding of the scripts of the repository

      - articles/myfyf-10x-rule/imdb_scraper.py   (module [Imdb])
      - articles/pay-to-lose/scrape.py            (module [Salary])
      - articles/prem-home-invasion/merge_files.py (module [Merge])

    with [scrape_with_beautifulsoup] of the second in [SalarySoup] and the
    run of the first ([scrape_all_years], [save_to_csv], [main]) in
    [ImdbRun].

    Python values are modelled as the interpreter has them: a [str] is a
    sequence of Unicode code points, an [int] is an unbounded integer,
    a call either returns or raises, and the outside world (HTTP session,
    browser driver, file system, clock, log) is an explicit state that every
    call threads.

    What the world answers is a parameter of each script: the network by
    the number of the request, the browser by the number of the session,
    the file system by the path. [time.sleep], [print] and the logger
    return; they are recorded in the trace with the values they are given.
    Of pandas, the parser of [to_datetime] and the order that [sort_values]
    gives to rows are parameters, and so are [min] and [max] of a column;
    frames are rows of cells under column labels. A frame handed to
    [to_csv] is recorded in the trace before the call is answered. The
    table that BeautifulSoup parses is the one the browser shows, except
    that it may lack a [tbody]. Loops are written as recursive functions over the sequence
    they iterate, a [return] inside a loop as a [control] value. *)

From Stdlib Require Import ZArith NArith List String Ascii Bool Lia.
From Stdlib Require Import Permutation DecimalString.
Import ListNotations.
Open Scope Z_scope.

(* ===================================================================== *)
(** * Python runtime                                                      *)
(* ===================================================================== *)

Module Py.

(** ** Strings *)

(** A Python [str]: the sequence of its code points. *)
Definition str := list N.

(** An ASCII literal of the source. *)
Definition lit (s : string) : str := map N_of_ascii (list_ascii_of_string s).

(** U+00A3 POUND SIGN, the only non-ASCII character of the sources. *)
Definition pound : N := 163%N.

Fixpoint str_eqb (a b : str) : bool :=
  match a, b with
  | [], [] => true
  | x :: a', y :: b' => N.eqb x y && str_eqb a' b'
  | _, _ => false
  end.

Fixpoint startswith (p s : str) : bool :=
  match p, s with
  | [], _ => true
  | x :: p', y :: s' => N.eqb x y && startswith p' s'
  | _ :: _, [] => false
  end.

(** [sub in s]. *)
Fixpoint contains (sub s : str) : bool :=
  startswith sub s ||
  match s with
  | [] => false
  | _ :: s' => contains sub s'
  end.

(** [s.endswith(suffix)]. *)
Definition endswith (suffix s : str) : bool :=
  startswith (rev suffix) (rev s).

(** [str.isspace] on one character ([Py_UNICODE_ISSPACE]); it is also the
    class [\s] of [re] on [str] patterns. *)
Definition isspace (c : N) : bool :=
  ((9 <=? c) && (c <=? 13) || (28 <=? c) && (c <=? 32) ||
   (c =? 133) || (c =? 160) || (c =? 5760) ||
   (8192 <=? c) && (c <=? 8202) ||
   (c =? 8232) || (c =? 8233) || (c =? 8239) || (c =? 8287) ||
   (c =? 12288))%N.

(** The C-locale [isspace] of [pyctype.h] ([Py_ISSPACE]). *)
Definition Py_ISSPACE (c : N) : bool :=
  ((9 <=? c) && (c <=? 13) || (c =? 32))%N.

Fixpoint lstrip_by (sp : N -> bool) (s : str) : str :=
  match s with
  | c :: s' => if sp c then lstrip_by sp s' else s
  | [] => []
  end.

Definition rstrip_by (sp : N -> bool) (s : str) : str :=
  rev (lstrip_by sp (rev s)).

(** [s.strip()]. *)
Definition strip (s : str) : str := rstrip_by isspace (lstrip_by isspace s).

(** [s.replace(old, '')] for a one-character [old]. *)
Definition remove_char (old : N) (s : str) : str :=
  filter (fun c => negb (N.eqb c old)) s.

(** [str(n)] and [f"{n}"] for an [int]. *)
Definition str_of_int (n : Z) : str := lit (NilZero.string_of_int (Z.to_int n)).

(** ** Exceptions and results *)

Inductive request_error :=
| ConnectionError
| Timeout
| HTTPError (status : Z)
| InvalidURL.

Inductive exn :=
| RequestException (why : request_error)  (* requests.RequestException and its subclasses *)
| ValueError
| KeyError (key : str)
| AttributeError
| FileNotFoundError
| TimeoutException       (* selenium: the awaited element never appeared *)
| JavascriptException    (* selenium: the injected script threw *)
| WebDriverException     (* selenium: any other driver failure *)
| OtherException (tag : nat)  (* any other subclass of Exception *)
| KeyboardInterrupt.     (* a BaseException that is not an Exception *)

(** [isinstance(e, Exception)]. *)
Definition is_Exception (e : exn) : bool :=
  match e with KeyboardInterrupt => false | _ => true end.

(** [isinstance(e, requests.RequestException)]. *)
Definition is_RequestException (e : exn) : bool :=
  match e with RequestException _ => true | _ => false end.

(** [isinstance(e, ValueError)]. *)
Definition is_ValueError (e : exn) : bool :=
  match e with ValueError => true | _ => false end.

(** What a call does: it returns a value or raises. *)
Inductive result (A : Type) :=
| Ret (a : A)
| Raise (e : exn).
Arguments Ret {A} a.
Arguments Raise {A} e.

(** ** Effectful code: a state and exception monad *)

Definition M (S A : Type) : Type := S -> result A * S.

Definition ret {S A} (a : A) : M S A := fun s => (Ret a, s).

Definition raise {S A} (e : exn) : M S A := fun s => (Raise e, s).

Definition bind {S A B} (m : M S A) (k : A -> M S B) : M S B :=
  fun s =>
    match m s with
    | (Ret a, s') => k a s'
    | (Raise e, s') => (Raise e, s')
    end.

(** What an external call does is decided by the world. *)
Definition lift {S A} (r : result A) : M S A := fun s => (r, s).

(** [try: body / except C as e: handler(e)] where [catches] is
    [isinstance(e, C)]. *)
Definition try_except {S A} (body : M S A) (catches : exn -> bool)
    (handler : exn -> M S A) : M S A :=
  fun s =>
    match body s with
    | (Ret a, s') => (Ret a, s')
    | (Raise e, s') => if catches e then handler e s' else (Raise e, s')
    end.

(** [try: body / finally: final]: [final] runs on every exit of [body]; an
    exception of [final] replaces the outcome of [body]. *)
Definition try_finally {S A} (body : M S A) (final : M S unit) : M S A :=
  fun s =>
    match body s with
    | (r, s') =>
        match final s' with
        | (Ret _, s'') => (r, s'')
        | (Raise e, s'') => (Raise e, s'')
        end
    end.

Module Notations.
  Notation "x <- m ;; k" := (bind m (fun x => k))
    (at level 61, m at next level, right associativity).
  Notation "m ;;; k" := (bind m (fun _ => k))
    (at level 61, right associativity).
End Notations.

(** ** Values and dictionaries *)

Inductive value :=
| VNone
| VStr (s : str)
| VInt (n : Z).

(** A [dict] with [str] keys, in insertion order. *)
Definition dict := list (str * value).

(** [d.get(key)]. *)
Fixpoint dict_get (d : dict) (key : str) : option value :=
  match d with
  | [] => None
  | (k, v) :: d' => if str_eqb k key then Some v else dict_get d' key
  end.

(** [d[key] = v]: an existing key keeps its place, a new key goes last. *)
Fixpoint dict_set (d : dict) (key : str) (v : value) : dict :=
  match d with
  | [] => [(key, v)]
  | (k, w) :: d' =>
      if str_eqb k key then (k, v) :: d' else (k, w) :: dict_set d' key v
  end.

(** [range(n)]. *)
Definition range (n : Z) : list Z := map Z.of_nat (seq 0 (Z.to_nat n)).

(** [range(a, b)]. *)
Definition range2 (a b : Z) : list Z := map (fun k => a + k) (range (b - a)).

(** What one pass through the body of a loop inside a function asks for:
    leave the function with a value, or go on with the next iteration. *)
Inductive control (A : Type) :=
| Return (a : A)
| Next.
Arguments Return {A} a.
Arguments Next {A}.

(** ** [int(s)] for a [str]

    [PyLong_FromUnicodeObject]: the string is first brought to ASCII
    ([_PyUnicode_TransformDecimalAndSpaceToASCII]), then read in base 10
    by [PyLong_FromString]. *)

Section Int.

(** [Py_UNICODE_TODECIMAL] on the characters outside ASCII: the decimal
    value of a character of the Unicode category Nd. The table belongs to
    the interpreter's Unicode database. *)
Variable todecimal : N -> option N.

(** [sys.get_int_max_str_digits()], the default of CPython. *)
Definition int_max_str_digits : nat := 4300.

Definition ascii_question : N := 63%N.
Definition ascii_space : N := 32%N.

Fixpoint transform_chars (s : str) : str :=
  match s with
  | [] => []
  | c :: s' =>
      if (c <? 127)%N then c :: transform_chars s'
      else if isspace c then ascii_space :: transform_chars s'
      else match todecimal c with
           | Some d => (48 + d)%N :: transform_chars s'
           | None => [ascii_question]   (* the rest is dropped *)
           end
  end.

Definition transform_decimal_and_space_to_ascii (s : str) : str :=
  if forallb (fun c => (c <? 128)%N) s then s else transform_chars s.

Definition digit_value (c : N) : option Z :=
  if ((48 <=? c) && (c <=? 57))%N then Some (Z.of_N c - 48) else None.

Definition underscore : N := 95%N.

(** The digit loop of [long_from_string_base]: [prev_us] tells whether the
    previous character was an underscore; the result is the value read, the
    number of digits and the unread rest, or [None] for a doubled or
    trailing underscore. *)
Fixpoint scan_digits (prev_us : bool) (acc : Z) (digits : nat) (s : str)
    : option (Z * nat * str) :=
  match s with
  | [] => if prev_us then None else Some (acc, digits, [])
  | c :: s' =>
      if N.eqb c underscore then
        if prev_us then None else scan_digits true acc digits s'
      else
        match digit_value c with
        | Some d => scan_digits false (10 * acc + d) (S digits) s'
        | None => if prev_us then None else Some (acc, digits, s)
        end
  end.

(** [PyLong_FromString(s, base=10)]; [None] is [ValueError]. *)
Definition long_from_string (s : str) : option Z :=
  let s1 := lstrip_by Py_ISSPACE s in
  let '(sign, s2) :=
    match s1 with
    | c :: r => if N.eqb c 43 then (1, r)          (* '+' *)
                else if N.eqb c 45 then (-1, r)    (* '-' *)
                else (1, s1)
    | [] => (1, s1)
    end in
  match s2 with
  | c :: _ =>
      if N.eqb c underscore then None
      else
        match scan_digits false 0 0 s2 with
        | Some (v, digits, rest) =>
            match digits with
            | O => None
            | S _ =>
                if Nat.ltb int_max_str_digits digits then None
                else
                  match lstrip_by Py_ISSPACE rest with
                  | [] => Some (sign * v)
                  | _ :: _ => None
                  end
            end
        | None => None
        end
  | [] => None
  end.

(** [int(s)]. *)
Definition int (s : str) : result Z :=
  match long_from_string (transform_decimal_and_space_to_ascii s) with
  | Some n => Ret n
  | None => Raise ValueError
  end.

End Int.

End Py.

(* ===================================================================== *)
(** * articles/myfyf-10x-rule/imdb_scraper.py                             *)
(* ===================================================================== *)

Module Imdb.
Import Py Py.Notations.

(** ** The pages, as BeautifulSoup shows them to the scraper *)

(** An [<a>] element: [link.get('href')] and [link.text]. *)
Record Anchor := { href : option str; text : str }.

(** A [<div>] of the box office summary:
    [section.find('div', class_='a-column a-span5 a-text-right a-span-last')]
    and the [.text] of what is found. *)
Record Section_ := { value_div : option str }.

(** [soup.find('div', id='box_office_summary')]: the element answers
    [find('div', class_=c)] for every class [c]. *)
Record BoxOffice := { find_div : str -> option Section_ }.

Record Soup := {
  a_link_normal : list Anchor;    (* soup.find_all('a', class_='a-link-normal') *)
  box_office_summary : option BoxOffice
}.

(** [requests.Response]; [content] is read through [BeautifulSoup]. *)
Record Response := { status_code : Z; content : Soup }.

(** [response.ok], which is also [bool(response)]. *)
Definition ok (r : Response) : bool :=
  negb ((400 <=? status_code r) && (status_code r <? 600)).

(** ** Log, clock and network *)

Inductive level := INFO | WARNING | ERROR.

(** One constructor per logging call of the script, with the values its
    f-string interpolates. *)
Inductive message :=
| AttemptFailed (attempt : Z) (url : str) (e : exn)
| FailedToFetch (url : str) (max_retries : Z)
| ScrapingYearPage (year_url : str)
| FoundMovie (movie_title : str)
| ExtractingDataFor (movie_title : str)
| NoBoxOfficeSection (movie_title : str)
| Metric (data_key : str) (value_text : str)
| ErrorProcessing (movie_title : str) (e : exn)
| CompletedYear (year : Z) (scraped : Z).

Inductive event :=
| Get (url : str)             (* self.session.get(url, timeout=10) *)
| Sleep (seconds : Z)         (* time.sleep(seconds) *)
| Log (l : level) (m : message).

(** The scraper object and its surroundings: the number of requests sent so
    far, what has happened so far (oldest first) and [self.data]. *)
Record state := {
  requests : nat;
  events : list event;
  data : list dict
}.

Definition emit (e : event) : M state unit :=
  fun s => (Ret tt, {| requests := requests s;
                       events := events s ++ [e];
                       data := data s |}).

Definition log (l : level) (m : message) : M state unit := emit (Log l m).

Definition sleep (seconds : Z) : M state unit := emit (Sleep seconds).

Section Scraper.

(** [Py_UNICODE_TODECIMAL] outside ASCII, for [int]. *)
Variable todecimal : N -> option N.

(** The network: what [self.session.get(url, timeout=10)] does when it is
    the [n]-th request of the run (counting from 0). *)
Variable session_get : nat -> str -> result Response.

(** [urllib.parse.urljoin]. *)
Variable urljoin : str -> str -> str.

Definition get (url : str) : M state Response :=
  fun s =>
    (session_get (requests s) url,
     {| requests := S (requests s);
        events := events s ++ [Get url];
        data := data s |}).

(** [response.raise_for_status()]. *)
Definition raise_for_status (r : Response) : M state unit :=
  if ok r then ret tt
  else raise (RequestException (HTTPError (status_code r))).

Definition base_url : str := lit "https://pro.imdb.com".

(** The iterations [attempts] of [for attempt in range(max_retries)]. *)
Fixpoint get_page_loop (url : str) (max_retries : Z) (attempts : list Z)
    : M state (option Response) :=
  match attempts with
  | [] => ret None           (* the loop ends: the function returns None *)
  | attempt :: rest =>
      c <- try_except
             (response <- get url ;;
              raise_for_status response ;;;
              ret (Return (Some response)))
             is_RequestException
             (fun e =>
                log WARNING (AttemptFailed (attempt + 1) url e) ;;;
                if attempt <? max_retries - 1 then
                  sleep (2 ^ attempt) ;;;
                  ret Next
                else
                  log ERROR (FailedToFetch url max_retries) ;;;
                  ret (Return None)) ;;
      match c with
      | Return r => ret r
      | Next => get_page_loop url max_retries rest
      end
  end.

Definition get_page (url : str) (max_retries : Z) : M state (option Response) :=
  get_page_loop url max_retries (range max_retries).

Definition default_max_retries : Z := 3.

(** [re.sub(r'[,$\s]', '', s)]. *)
Definition sub_comma_dollar_space (s : str) : str :=
  filter (fun c => negb ((c =? 44)%N || (c =? 36)%N || isspace c)) s.

Definition clean_currency {S} (text : str) : M S (option Z) :=
  match text with
  | [] => ret None
  | _ :: _ =>
      let cleaned := sub_comma_dollar_space (strip text) in
      try_except
        (n <- lift (int todecimal cleaned) ;; ret (Some n))
        is_ValueError
        (fun _ => ret None)
  end.

(** [not response] for what [get_page] gave. *)
Definition not_response (r : option Response) : bool :=
  match r with
  | None => true
  | Some resp => negb (ok resp)
  end.

Definition releasegroup : str := lit "/releasegroup/".

(** The loop [for link in links] of [extract_movie_links]. *)
Fixpoint movie_links_loop (links : list Anchor) (movie_links : list (str * str))
    : M state (list (str * str)) :=
  match links with
  | [] => ret movie_links
  | link :: rest =>
      match href link with
      | Some (c :: h) =>
          if contains releasegroup (c :: h) then
            let full_url := urljoin base_url (c :: h) in
            let movie_title := strip (text link) in
            log INFO (FoundMovie movie_title) ;;;
            movie_links_loop rest (movie_links ++ [(movie_title, full_url)])
          else movie_links_loop rest movie_links
      | _ => movie_links_loop rest movie_links
      end
  end.

Definition extract_movie_links (year_url : str) : M state (list (str * str)) :=
  log INFO (ScrapingYearPage year_url) ;;;
  response <- get_page year_url default_max_retries ;;
  match response with
  | Some resp =>
      if not_response response then ret []
      else movie_links_loop (a_link_normal (content resp)) []
  | None => ret []
  end.

Definition sections : list (str * str) :=
  [ (lit "opening_wknd_summary", lit "opening_weekend");
    (lit "gross_world_summary", lit "gross_world");
    (lit "budget_summary", lit "budget");
    (lit "gross_usa_summary", lit "gross_usa_canada") ].

Definition value_of_option_int (o : option Z) : value :=
  match o with
  | Some n => VInt n
  | None => VNone
  end.

(** The loop [for section_class, data_key in sections.items()]. *)
Fixpoint sections_loop (box_office_section : BoxOffice)
    (todo : list (str * str)) (data_ : dict) : M state dict :=
  match todo with
  | [] => ret data_
  | (section_class, data_key) :: rest =>
      match find_div box_office_section section_class with
      | Some section =>
          match value_div section with
          | Some t =>
              let value_text := strip t in
              v <- clean_currency value_text ;;
              log INFO (Metric data_key value_text) ;;;
              sections_loop box_office_section rest
                (dict_set data_ data_key (value_of_option_int v))
          | None => sections_loop box_office_section rest data_
          end
      | None => sections_loop box_office_section rest data_
      end
  end.

Definition extract_box_office_data (movie_url movie_title : str)
    : M state (option dict) :=
  log INFO (ExtractingDataFor movie_title) ;;;
  response <- get_page movie_url default_max_retries ;;
  match response with
  | Some resp =>
      if not_response response then ret None
      else
        match box_office_summary (content resp) with
        | None =>
            log WARNING (NoBoxOfficeSection movie_title) ;;;
            ret None
        | Some box_office_section =>
            let data_ :=
              [ (lit "title", VStr movie_title);
                (lit "url", VStr movie_url);
                (lit "opening_weekend", VNone);
                (lit "gross_world", VNone);
                (lit "budget", VNone);
                (lit "gross_usa_canada", VNone) ] in
            d <- sections_loop box_office_section sections data_ ;;
            ret (Some d)
        end
  | None => ret None
  end.

(** [self.data.append(movie_data)]. *)
Definition self_data_append (movie_data : dict) : M state unit :=
  fun s => (Ret tt, {| requests := requests s;
                       events := events s;
                       data := data s ++ [movie_data] |}).

(** [if movie_data:] for what [extract_box_office_data] gave. *)
Definition truthy (movie_data : option dict) : bool :=
  match movie_data with
  | Some (_ :: _) => true
  | _ => false
  end.

(** The loop [for movie_title, movie_url in movie_links] of [scrape_year],
    with the local [year_data]. *)
Fixpoint scrape_year_loop (year : Z) (movie_links : list (str * str))
    (year_data : list dict) : M state (list dict) :=
  match movie_links with
  | [] => ret year_data
  | (movie_title, movie_url) :: rest =>
      year_data' <-
        try_except
          (movie_data <- extract_box_office_data movie_url movie_title ;;
           year_data' <-
             match movie_data with
             | Some d =>
                 if truthy movie_data then
                   let d' := dict_set d (lit "year") (VInt year) in
                   self_data_append d' ;;;
                   ret (year_data ++ [d'])
                 else ret year_data
             | None => ret year_data
             end ;;
           sleep 1 ;;;
           ret year_data')
          is_Exception
          (fun e =>
             log ERROR (ErrorProcessing movie_title e) ;;;
             ret year_data) ;;
      scrape_year_loop year rest year_data'
  end.

Definition year_url_of (year : Z) : str :=
  base_url ++ lit "/boxoffice/year/world/" ++ str_of_int year ++ lit "/".

Definition scrape_year (year : Z) : M state (list dict) :=
  let year_url := year_url_of year in
  movie_links <- extract_movie_links year_url ;;
  year_data <- scrape_year_loop year movie_links [] ;;
  log INFO (CompletedYear year (Z.of_nat (List.length year_data))) ;;;
  ret year_data.

End Scraper.

(** ** Reading a trace *)

(** The request fails for [get_page]: [session.get] raises a
    [RequestException], or the response has an error status and
    [raise_for_status] raises; [failure] is the exception caught. *)
Definition failure (r : result Response) : option exn :=
  match r with
  | Raise e => if is_RequestException e then Some e else None
  | Ret resp =>
      if ok resp then None
      else Some (RequestException (HTTPError (status_code resp)))
  end.

(** The requests and the waits of a trace, without the log lines. *)
Definition is_action (e : event) : bool :=
  match e with
  | Log _ _ => false
  | _ => true
  end.

Definition actions (trace : list event) : list event := filter is_action trace.

(** The number of requests sent for [url]. *)
Definition attempts (url : str) (trace : list event) : Z :=
  Z.of_nat (List.length
    (filter (fun e => match e with Get u => str_eqb u url | _ => false end) trace)).

(** The waits of a trace, in order. *)
Fixpoint delays (trace : list event) : list Z :=
  match trace with
  | [] => []
  | Sleep t :: rest => t :: delays rest
  | _ :: rest => delays rest
  end.

(** The numbers of units that the closing lines of the run report. *)
Fixpoint reported_counts (trace : list event) : list Z :=
  match trace with
  | [] => []
  | Log _ (CompletedYear _ scraped) :: rest => scraped :: reported_counts rest
  | _ :: rest => reported_counts rest
  end.

(** The run reports having processed [units] units with [failures]
    failures. *)
Definition reports_units_and_failures (trace : list event)
    (units failures : Z) : Prop :=
  In units (reported_counts trace) /\ In failures (reported_counts trace).

(** What the log of a trace says, in order. *)
Fixpoint logged (trace : list event) : list (level * message) :=
  match trace with
  | [] => []
  | Log l m :: rest => (l, m) :: logged rest
  | _ :: rest => logged rest
  end.

End Imdb.

(* ===================================================================== *)
(** * articles/pay-to-lose/scrape.py                                      *)
(* ===================================================================== *)

Module Salary.
Import Py Py.Notations.

(** ** The table, as the injected script sees it *)

(** A [<td>]: [cell.querySelector('a.firstcol')] (the [textContent] of the
    link, when there is one) and [cell.textContent]. *)
Record Cell := { firstcol : option str; textContent : str }.

(** A row of [table.querySelectorAll('tbody tr')]: its
    [querySelectorAll('td')]. *)
Definition Row := list Cell.

(** What one browser session does when the script drives it. *)
Record browser := {
  (* webdriver.Chrome(options=chrome_options) *)
  start : result unit;
  (* driver.get(url) *)
  navigate : str -> result unit;
  (* wait.until(EC.presence_of_element_located((By.ID, "table"))) *)
  table_located : str -> result unit;
  (* the document when the script runs: the rows of
     document.getElementById('table'), None when there is no such element;
     or the driver fails before the script runs *)
  document : str -> result (option (list Row));
  (* driver.quit() *)
  stop : result unit
}.

(** One constructor per [print] of the functions below. *)
Inductive message :=
| ErrorScrapingData (e : exn)
| ScrapingSeason (season : str)
| Url (season_url : str)
| SuccessfullyScraped (teams : Z) (season : str)
| ErrorScrapingSeason (season : str) (e : exn)
| ErrorScraping (url : str) (e : exn).

Inductive event :=
| Chrome (driver : nat)               (* webdriver.Chrome(...) *)
| DriverGet (driver : nat) (url : str)
| WaitUntil (driver : nat)
| ExecuteScript (driver : nat)
| Quit (driver : nat)
| Sleep (seconds : Z)
| Print (m : message).

(** The number of browser sessions asked for so far, and what has happened
    so far (oldest first). *)
Record state := { sessions : nat; events : list event }.

Definition emit (e : event) : M state unit :=
  fun s => (Ret tt, {| sessions := sessions s; events := events s ++ [e] |}).

Definition print (m : message) : M state unit := emit (Print m).

Definition sleep (seconds : Z) : M state unit := emit (Sleep seconds).

(** [String.prototype.trim]: WhiteSpace and LineTerminator of ECMAScript. *)
Definition js_space (c : N) : bool :=
  ((9 <=? c) && (c <=? 13) || (c =? 32) || (c =? 160) || (c =? 5760) ||
   (8192 <=? c) && (c <=? 8202) ||
   (c =? 8232) || (c =? 8233) || (c =? 8239) || (c =? 8287) ||
   (c =? 12288) || (c =? 65279))%N.

Definition trim (s : str) : str := rstrip_by js_space (lstrip_by js_space s).

Definition NA : str := lit "N/A".

(** [teamLink ? teamLink.textContent.trim() : 'N/A'] for [cells[0]]. *)
Definition teamName (cell0 : Cell) : str :=
  match firstcol cell0 with
  | Some t => trim t
  | None => NA
  end.

(** [cells[i].textContent.trim()] where the script has checked the length. *)
Definition cell_text (cells : Row) (i : nat) : value :=
  VStr (trim (textContent (nth i cells {| firstcol := None; textContent := [] |}))).

(** The script of [scrape_team_salary_data], from [rows] on. *)
Fixpoint script_team_salary (rows : list Row) : list dict :=
  match rows with
  | [] => []
  | cells :: rest =>
      if Nat.leb 5 (List.length cells) then
        match cells with
        | cell0 :: _ =>
            [ (lit "team_name", VStr (teamName cell0));
              (lit "adj_gross_gbp", cell_text cells 4) ]
            :: script_team_salary rest
        | [] => script_team_salary rest
        end
      else script_team_salary rest
  end.

(** The script of [scrape_all_columns], from [rows] on. *)
Fixpoint script_all_columns (rows : list Row) : list dict :=
  match rows with
  | [] => []
  | cells :: rest =>
      if Nat.leb 9 (List.length cells) then
        match cells with
        | cell0 :: _ =>
            [ (lit "team_name", VStr (teamName cell0));
              (lit "club_code", cell_text cells 1);
              (lit "weekly_gross_gbp", cell_text cells 2);
              (lit "annual_gross_gbp", cell_text cells 3);
              (lit "adj_gross_gbp", cell_text cells 4);
              (lit "keeper_gbp", cell_text cells 5);
              (lit "defense_gbp", cell_text cells 6);
              (lit "midfield_gbp", cell_text cells 7);
              (lit "forward_gbp", cell_text cells 8) ]
            :: script_all_columns rest
        | [] => script_all_columns rest
        end
      else script_all_columns rest
  end.

Section Scraper.

(** [Py_UNICODE_TODECIMAL] outside ASCII, for [int]. *)
Variable todecimal : N -> option N.

(** The browser: what the [n]-th session of the run does (from 0). *)
Variable chrome : nat -> browser.

(** [base_url.format(season)]. *)
Variable format : str -> str -> result str.

(** [webdriver.Chrome(options=chrome_options)]: the new driver. *)
Definition webdriver_Chrome : M state nat :=
  fun s =>
    let driver := sessions s in
    (match start (chrome driver) with
     | Ret _ => Ret driver
     | Raise e => Raise e
     end,
     {| sessions := S (sessions s); events := events s ++ [Chrome driver] |}).

Definition driver_get (driver : nat) (url : str) : M state unit :=
  emit (DriverGet driver url) ;;; lift (navigate (chrome driver) url).

Definition wait_until_table (driver : nat) (url : str) : M state unit :=
  emit (WaitUntil driver) ;;; lift (table_located (chrome driver) url).

(** [driver.execute_script(script)]: a script that throws (here, on
    [table.querySelectorAll] when [table] is null) raises in Python. *)
Definition execute_script (driver : nat) (url : str)
    (script : list Row -> list dict) : M state (list dict) :=
  emit (ExecuteScript driver) ;;;
  doc <- lift (document (chrome driver) url) ;;
  match doc with
  | Some rows => ret (script rows)
  | None => raise JavascriptException
  end.

Definition driver_quit (driver : nat) : M state unit :=
  emit (Quit driver) ;;; lift (stop (chrome driver)).

Definition scrape_team_salary_data (url : str) : M state (list dict) :=
  driver <- webdriver_Chrome ;;
  try_finally
    (try_except
       (driver_get driver url ;;;
        wait_until_table driver url ;;;
        sleep 2 ;;;
        rows_data <- execute_script driver url script_team_salary ;;
        ret rows_data)
       is_Exception
       (fun e => print (ErrorScrapingData e) ;;; ret []))
    (driver_quit driver).

Definition scrape_all_columns (url : str) : M state (list dict) :=
  driver <- webdriver_Chrome ;;
  try_finally
    (try_except
       (driver_get driver url ;;;
        wait_until_table driver url ;;;
        sleep 2 ;;;
        complete_data <- execute_script driver url script_all_columns ;;
        ret complete_data)
       is_Exception
       (fun e => print (ErrorScrapingData e) ;;; ret []))
    (driver_quit driver).

(** [money_str.replace('£', '').replace(' ', '').replace(',', '')]. *)
Definition remove_pound_space_comma (money_str : str) : str :=
  remove_char 44 (remove_char 32 (remove_char pound money_str)).

Definition clean_money_value {S} (money_str : value) : M S Z :=
  match money_str with
  | VNone => ret 0                      (* not None *)
  | VInt n =>
      if n =? 0 then ret 0              (* not 0 *)
      else raise AttributeError         (* an int has no replace *)
  | VStr s =>
      if match s with [] => true | _ :: _ => false end || str_eqb s NA
      then ret 0
      else
        let cleaned := remove_pound_space_comma s in
        try_except (lift (int todecimal cleaned)) is_ValueError
          (fun _ => ret 0)
  end.

Definition money_columns : list str :=
  [ lit "weekly_gross_gbp"; lit "annual_gross_gbp"; lit "adj_gross_gbp";
    lit "keeper_gbp"; lit "defense_gbp"; lit "midfield_gbp";
    lit "forward_gbp" ].

(** The loop [for col in money_columns] on one record. *)
Fixpoint clean_record {S} (cols : list str) (record : dict) : M S dict :=
  match cols with
  | [] => ret record
  | col :: rest =>
      match dict_get record col with
      | Some v =>
          n <- clean_money_value v ;;
          clean_record rest (dict_set record col (VInt n))
      | None => clean_record rest record
      end
  end.

Fixpoint clean_data_money_columns {S} (data : list dict) : M S (list dict) :=
  match data with
  | [] => ret []
  | record :: rest =>
      record' <- clean_record money_columns record ;;
      rest' <- clean_data_money_columns rest ;;
      ret (record' :: rest')
  end.

(** The loop [for season in seasons] of [scrape_multiple_seasons], with the
    local [all_data]. *)
Fixpoint seasons_loop (base_url : str) (seasons : list str)
    (all_data : list dict) : M state (list dict) :=
  match seasons with
  | [] => ret all_data
  | season :: rest =>
      print (ScrapingSeason season) ;;;
      season_url <- lift (format base_url season) ;;
      print (Url season_url) ;;;
      all_data' <-
        try_except
          (season_data <- scrape_all_columns season_url ;;
           season_data <- clean_data_money_columns season_data ;;
           let season_data :=
             map (fun record => dict_set record (lit "season") (VStr season))
                 season_data in
           print (SuccessfullyScraped (Z.of_nat (List.length season_data)) season) ;;;
           sleep 2 ;;;
           ret (all_data ++ season_data))
          is_Exception
          (fun e => print (ErrorScrapingSeason season e) ;;; ret all_data) ;;
      seasons_loop base_url rest all_data'
  end.

Definition scrape_multiple_seasons (base_url : str) (seasons : list str)
    : M state (list dict) :=
  seasons_loop base_url seasons [].

Definition scrape_single_season (url : str) : M state (list dict) :=
  try_except
    (data <- scrape_all_columns url ;;
     ret data)
    is_Exception
    (fun e => print (ErrorScraping url e) ;;; ret []).

End Scraper.

(** The loop [for year in range(start_year, end_year)] of
    [generate_season_list], with the local [seasons]. *)
Fixpoint generate_season_loop (years : list Z) (seasons : list str) : list str :=
  match years with
  | [] => seasons
  | year :: rest =>
      let season := str_of_int year ++ lit "-" ++ str_of_int (year + 1) in
      generate_season_loop rest (seasons ++ [season])
  end.

Definition generate_season_list (start_year end_year : Z) : list str :=
  generate_season_loop (range2 start_year end_year) [].

(** ** Reading a trace *)

(** The events that acquire or release a browser session. *)
Definition is_session_event (e : event) : bool :=
  match e with
  | Chrome _ | Quit _ => true
  | _ => false
  end.

(** Between the traces [before] and [after] the session [driver] was
    acquired, then used, and released as the last thing done. *)
Definition acquired_and_released (driver : nat) (before after : list event)
    : Prop :=
  exists used,
    after = before ++ [Chrome driver] ++ used ++ [Quit driver] /\
    Forall (fun e => is_session_event e = false) used.

(** What the run printed, in order. *)
Fixpoint printed (trace : list event) : list message :=
  match trace with
  | [] => []
  | Print m :: rest => m :: printed rest
  | _ :: rest => printed rest
  end.

End Salary.

(* ===================================================================== *)
(** * articles/prem-home-invasion/merge_files.py                          *)
(* ===================================================================== *)

Module Merge.
Import Py Py.Notations.

(** ** pandas *)

(** [pandas.Timestamp]: the calendar date and the time of day. *)
Record Timestamp := { year : Z; month : Z; day : Z; nanosecond_of_day : Z }.

(** A cell of a frame. A float read from a CSV file is carried by its
    text: the merger never computes on one. *)
Inductive cell :=
| NaN
| Obj (s : str)
| Int (n : Z)
| Datetime (t : Timestamp)
| NaT.

(** A [DataFrame] with a default index: the column labels and the rows,
    every row holding one cell per column. *)
Record DataFrame := { columns : list str; rows : list (list cell) }.

(** [len(df)]. *)
Definition len (df : DataFrame) : Z := Z.of_nat (List.length (rows df)).

Definition isna (c : cell) : bool :=
  match c with
  | NaN | NaT => true
  | _ => false
  end.

Definition notna (c : cell) : bool := negb (isna c).

(** The position of the first column labelled [label]. *)
Fixpoint index_of (label : str) (cols : list str) : option nat :=
  match cols with
  | [] => None
  | c :: cols' =>
      if str_eqb c label then Some O
      else match index_of label cols' with
           | Some i => Some (S i)
           | None => None
           end
  end.

Definition cell_at (i : nat) (row : list cell) : cell := nth i row NaN.

Fixpoint set_at (i : nat) (v : cell) (row : list cell) : list cell :=
  match i, row with
  | O, _ :: r => v :: r
  | O, [] => [v]
  | S i', c :: r => c :: set_at i' v r
  | S i', [] => NaN :: set_at i' v []
  end.

(** [df[label]]. *)
Definition getitem (df : DataFrame) (label : str) : result (list cell) :=
  match index_of label (columns df) with
  | Some i => Ret (map (cell_at i) (rows df))
  | None => Raise (KeyError label)
  end.

Fixpoint zip_rows (f : cell -> list cell -> list cell)
    (values : list cell) (rs : list (list cell)) : list (list cell) :=
  match values, rs with
  | v :: values', r :: rs' => f v r :: zip_rows f values' rs'
  | _, _ => []
  end.

(** [df[label] = values]: an existing column is replaced where it stands,
    a new one is added last; the lengths must agree. *)
Definition setitem (df : DataFrame) (label : str) (values : list cell)
    : result DataFrame :=
  if negb (Nat.eqb (List.length values) (List.length (rows df))) then
    Raise ValueError
  else
    match index_of label (columns df) with
    | Some i =>
        Ret {| columns := columns df;
               rows := zip_rows (set_at i) values (rows df) |}
    | None =>
        Ret {| columns := columns df ++ [label];
               rows := zip_rows (fun v r => r ++ [v]) values (rows df) |}
    end.

(** The labels of [more] that [cols] lacks, in their order. *)
Fixpoint new_labels (cols more : list str) : list str :=
  match more with
  | [] => []
  | c :: more' =>
      if existsb (str_eqb c) cols then new_labels cols more'
      else c :: new_labels (cols ++ [c]) more'
  end.

Fixpoint union_columns (cols : list str) (dfs : list DataFrame) : list str :=
  match dfs with
  | [] => cols
  | df :: dfs' => union_columns (cols ++ new_labels cols (columns df)) dfs'
  end.

(** A row of a frame with columns [src], laid out on the columns [cols]. *)
Definition reindex (src cols : list str) (row : list cell) : list cell :=
  map (fun c => match index_of c src with
                | Some i => cell_at i row
                | None => NaN
                end) cols.

(** [pd.concat(dfs, ignore_index=True)] for a non-empty [dfs]. *)
Definition concat (dfs : list DataFrame) : DataFrame :=
  let cols := union_columns [] dfs in
  {| columns := cols;
     rows := flat_map (fun df => map (reindex (columns df) cols) (rows df)) dfs |}.

Definition Date : str := lit "Date".
Definition Season : str := lit "Season".

(** [df.dropna(subset=[label])] when [label] is the [i]-th column. *)
Definition dropna_at (i : nat) (df : DataFrame) : DataFrame :=
  {| columns := columns df;
     rows := filter (fun r => notna (cell_at i r)) (rows df) |}.

(** [lambda x: x.year + 1 if x.month >= 8 else x.year] on a cell of the
    [Date] column. *)
Definition season_of (x : cell) : result cell :=
  match x with
  | Datetime t => Ret (Int (if 8 <=? month t then year t + 1 else year t))
  | _ => Raise AttributeError
  end.

(** [series.apply(f)]. *)
Fixpoint apply (f : cell -> result cell) (series : list cell)
    : result (list cell) :=
  match series with
  | [] => Ret []
  | x :: series' =>
      match f x with
      | Ret y =>
          match apply f series' with
          | Ret ys => Ret (y :: ys)
          | Raise e => Raise e
          end
      | Raise e => Raise e
      end
  end.

(** ** Console and file system *)

(** The [print] calls that show a value of the run. *)
Inductive message :=
| DateParsingFailed (sample : list cell)
| FilesInDirectory (data_dir : str) (all_files : list str)
| Reading (filename : str)
| SuccessfullyRead (filename : str) (n : Z)
| ErrorReading (filename : str) (e : exn)
| NotFound (filename : str)
| NoDataFilesLoaded
| Merged (total : Z)
| Dropping (invalid_dates : Z)
| AddedSeason
| Saved (output_path : str).

Inductive event :=
| Print (m : message)
| ReadCsv (path : str)                       (* pd.read_csv(path) *)
| ToCsv (path : str) (df : DataFrame).       (* df.to_csv(path, index=False) *)

(** What has happened so far, oldest first. *)
Definition state := list event.

Definition emit (e : event) : M state unit := fun s => (Ret tt, s ++ [e]).

Definition print (m : message) : M state unit := emit (Print m).

Section Merger.

(** [pd.to_datetime(x, format=fmt, errors='coerce')] on one entry: [None]
    is [NaT]. *)
Variable to_datetime_format : str -> cell -> option Timestamp.

(** [pd.to_datetime(column, errors='coerce', dayfirst=True)] on the entry
    [x] of [column]. *)
Variable to_datetime_dayfirst : list cell -> cell -> option Timestamp.

(** [df.sort_values('Date')] on the rows, [Date] being the [i]-th column. *)
Variable sort_values : nat -> list (list cell) -> list (list cell).

(** The file system. *)
Variable listdir : str -> result (list str).
Variable path_join : str -> str -> str.
Variable path_exists : str -> bool.
Variable read_csv : str -> result DataFrame.
Variable to_csv : str -> DataFrame -> result unit.

Definition stamp (o : option Timestamp) : cell :=
  match o with
  | Some t => Datetime t
  | None => NaT
  end.

Definition formats_to_try : list str :=
  [ lit "%d/%m/%Y"; lit "%d/%m/%y"; lit "%Y-%m-%d"; lit "%d-%m-%Y";
    lit "%d %b %Y" ].

(** [parsed.notna().sum()]. *)
Definition notna_sum (parsed : list cell) : Z :=
  Z.of_nat (List.length (filter notna parsed)).

(** [success_count >= len(df) * 0.9]. The product is a binary64 float; for
    a frame of fewer than 10^14 rows it is on the same side of every
    integer as the exact [9 * len(df) / 10], so the test is the one on
    integers below. *)
Definition at_least_90_percent (success_count n : Z) : bool :=
  9 * n <=? 10 * success_count.

(** The loop [for fmt in formats_to_try]: [Some] is the frame returned from
    inside the loop. *)
Fixpoint formats_loop (df : DataFrame) (dates : list cell) (fmts : list str)
    : result (option DataFrame) :=
  match fmts with
  | [] => Ret None
  | fmt :: rest =>
      let parsed := map (fun x => stamp (to_datetime_format fmt x)) dates in
      let success_count := notna_sum parsed in
      if (0 <? success_count) && at_least_90_percent success_count (len df)
      then
        match setitem df Date parsed with
        | Ret df' => Ret (Some df')
        | Raise e => Raise e
        end
      else formats_loop df dates rest
  end.

Definition parse_date_column (df : DataFrame) : M state DataFrame :=
  original_dates <- lift (getitem df Date) ;;
  found <- lift (formats_loop df original_dates formats_to_try) ;;
  match found with
  | Some df' => ret df'
  | None =>
      let parsed :=
        map (fun x => stamp (to_datetime_dayfirst original_dates x))
            original_dates in
      df' <- lift (setitem df Date parsed) ;;
      (if forallb isna parsed
       then print (DateParsingFailed (firstn 5 original_dates))
       else ret tt) ;;;
      ret df'
  end.

(** [f"E0 ({i}).csv"]. *)
Definition filename_of (i : Z) : str :=
  lit "E0 (" ++ str_of_int i ++ lit ").csv".

(** The loop [for i in range(4, 37)], with the local [dataframes]. *)
Fixpoint files_loop (data_dir : str) (ids : list Z)
    (dataframes : list DataFrame) : M state (list DataFrame) :=
  match ids with
  | [] => ret dataframes
  | i :: rest =>
      let filename := filename_of i in
      let path := path_join data_dir filename in
      dataframes' <-
        (if path_exists path then
           print (Reading filename) ;;;
           try_except
             (emit (ReadCsv path) ;;;
              df <- lift (read_csv path) ;;
              df <- parse_date_column df ;;
              print (SuccessfullyRead filename (len df)) ;;;
              ret (dataframes ++ [df]))
             is_Exception
             (fun e => print (ErrorReading filename e) ;;; ret dataframes)
         else
           print (NotFound filename) ;;;
           ret dataframes) ;;
      files_loop data_dir rest dataframes'
  end.

Definition dot_csv : str := lit ".csv".

Definition merge_premier_league_data (data_dir : str)
    : M state (option DataFrame) :=
  listed <- lift (listdir data_dir) ;;
  let all_files := filter (endswith dot_csv) listed in
  print (FilesInDirectory data_dir all_files) ;;;
  dataframes <- files_loop data_dir (range2 4 37) [] ;;
  match dataframes with
  | [] =>
      print NoDataFilesLoaded ;;;
      ret None
  | _ :: _ =>
      let merged_df := concat dataframes in
      print (Merged (len merged_df)) ;;;
      dates <- lift (getitem merged_df Date) ;;
      let invalid_dates := Z.of_nat (List.length (filter isna dates)) in
      merged_df <-
        (if 0 <? invalid_dates then
           print (Dropping invalid_dates) ;;;
           match index_of Date (columns merged_df) with
           | Some i => ret (dropna_at i merged_df)
           | None => raise (KeyError Date)
           end
         else ret merged_df) ;;
      dates <- lift (getitem merged_df Date) ;;
      seasons <- lift (apply season_of dates) ;;
      merged_df <- lift (setitem merged_df Season seasons) ;;
      merged_df <-
        match index_of Date (columns merged_df) with
        | Some i =>
            ret {| columns := columns merged_df;
                   rows := sort_values i (rows merged_df) |}
        | None => raise (KeyError Date)
        end ;;
      print AddedSeason ;;;
      let output_path := path_join data_dir (lit "premier_league_merged.csv") in
      emit (ToCsv output_path merged_df) ;;;
      lift (to_csv output_path merged_df) ;;;
      print (Saved output_path) ;;;
      ret (Some merged_df)
  end.

End Merger.

(** ** Reading a trace *)

(** The files that [pd.read_csv] was asked for, in order. *)
Fixpoint files_read (trace : list event) : list str :=
  match trace with
  | [] => []
  | ReadCsv path :: rest => path :: files_read rest
  | _ :: rest => files_read rest
  end.

End Merge.

(* ===================================================================== *)
(** * articles/pay-to-lose/scrape.py: the BeautifulSoup variant          *)
(* ===================================================================== *)

Module SalarySoup.
Import Py Py.Notations.

(** [soup.find('table', id='table')], and in it [table.find('tbody')] with
    its [find_all('tr')]; a row is its [find_all('td')], a cell is read as
    in the browser: [find('a', class_='firstcol')] and [.text]. *)
Record Table := { tbody : option (list Salary.Row) }.

Record Soup := { table : option Table }.

Inductive message :=
| TableNotFound.

(** What was printed, oldest first. *)
Definition state := list message.

Definition print (m : message) : M state unit := fun s => (Ret tt, s ++ [m]).

(** [team_link.text.strip() if team_link else 'N/A']. *)
Definition team_name (cell0 : Salary.Cell) : str :=
  match Salary.firstcol cell0 with
  | Some t => strip t
  | None => Salary.NA
  end.

(** The loop [for row in rows], with the local [data]. *)
Fixpoint rows_loop (rows : list Salary.Row) (data : list dict) : list dict :=
  match rows with
  | [] => data
  | cells :: rest =>
      if Nat.leb 5 (List.length cells) then
        match cells with
        | cell0 :: _ =>
            let adj_gross_value :=
              strip (Salary.textContent
                       (nth 4 cells {| Salary.firstcol := None;
                                       Salary.textContent := [] |})) in
            rows_loop rest
              (data ++ [[ (lit "team_name", VStr (team_name cell0));
                          (lit "adj_gross_gbp", VStr adj_gross_value) ]])
        | [] => rows_loop rest data
        end
      else rows_loop rest data
  end.

Definition scrape_with_beautifulsoup (html_content : Soup) : M state (list dict) :=
  match table html_content with
  | None =>
      print TableNotFound ;;;
      ret []
  | Some t =>
      match tbody t with
      | None => raise AttributeError    (* None has no find_all *)
      | Some rows => ret (rows_loop rows [])
      end
  end.

End SalarySoup.

(* ===================================================================== *)
(** * articles/myfyf-10x-rule/imdb_scraper.py: the whole run             *)
(* ===================================================================== *)

Module ImdbRun.
Import Py Py.Notations.

(** The log lines of [scrape_all_years] and [save_to_csv]. *)
Inductive message :=
| StartingScrape (start_year end_year : Z)
| ErrorScrapingYear (year : Z) (e : exn)
| ScrapingCompleted (total : Z)
| NoDataToSave
| DataSavedTo (filename : str).

(** A cell of the frame of [save_to_csv]: what the record holds under the
    column, [None] when it has no such key. *)
Definition cell := option value.

Record DataFrame := { columns : list str; rows : list (list cell) }.

(** The [print] calls of [save_to_csv] and [main]. *)
Inductive line :=
| ScrapingSummary
| TotalMoviesScraped (n : Z)
| YearsCovered (first last : cell)
| WithOpeningWeekend (n : Z)
| WithWorldwideGross (n : Z)
| TestingWithYear2000
| FirstFewRows
| Head (first_rows : list (list cell)).

Inductive event :=
| Log (l : Imdb.level) (m : message)
| Print (p : line)
| ToCsv (filename : str) (df : DataFrame).   (* df.to_csv(filename, index=False) *)

(** The scraper with its own trace, and what the functions of this part
    log, print and write, oldest first. *)
Record state := { scraper : Imdb.state; journal : list event }.

(** A method of the scraper, run on the scraper. *)
Definition on_scraper {A} (m : M Imdb.state A) : M state A :=
  fun s =>
    match m (scraper s) with
    | (r, scraper') => (r, {| scraper := scraper'; journal := journal s |})
    end.

Definition emit (e : event) : M state unit :=
  fun s => (Ret tt, {| scraper := scraper s; journal := journal s ++ [e] |}).

Definition log (l : Imdb.level) (m : message) : M state unit := emit (Log l m).

Definition print (p : line) : M state unit := emit (Print p).

(** [self.data]. *)
Definition self_data : M state (list dict) :=
  fun s => (Ret (Imdb.data (scraper s)), s).

(** [IMDBBoxOfficeScraper()]: a scraper without data. *)
Definition new_scraper : M state unit :=
  fun s =>
    (Ret tt,
     {| scraper := {| Imdb.requests := Imdb.requests (scraper s);
                      Imdb.events := Imdb.events (scraper s);
                      Imdb.data := [] |};
        journal := journal s |}).

(** [pd.DataFrame(data).reindex(columns=columns)]. *)
Definition frame_of_records (data : list dict) (cols : list str) : DataFrame :=
  {| columns := cols;
     rows := map (fun record => map (dict_get record) cols) data |}.

Definition notna (c : cell) : bool :=
  match c with
  | Some (VInt _) | Some (VStr _) => true
  | Some VNone | None => false
  end.

(** [df[label]] for a label among the columns. *)
Fixpoint position (label : str) (cols : list str) : nat :=
  match cols with
  | [] => O
  | c :: cols' => if str_eqb c label then O else S (position label cols')
  end.

Definition column (df : DataFrame) (label : str) : list cell :=
  map (fun row => nth (position label (columns df)) row None) (rows df).

(** [series.notna().sum()]. *)
Definition notna_sum (series : list cell) : Z :=
  Z.of_nat (List.length (filter notna series)).

Definition csv_columns : list str :=
  [ lit "year"; lit "title"; lit "opening_weekend"; lit "gross_world";
    lit "gross_usa_canada"; lit "budget"; lit "url" ].

Section Run.

Variable todecimal : N -> option N.
Variable session_get : nat -> str -> result Imdb.Response.
Variable urljoin : str -> str -> str.

(** The file system: [df.to_csv(filename, index=False)]. *)
Variable to_csv : str -> DataFrame -> result unit.

(** [series.min()] and [series.max()]. *)
Variable series_min : list cell -> result cell.
Variable series_max : list cell -> result cell.

(** The loop [for year in range(start_year, end_year + 1)]. *)
Fixpoint years_loop (years : list Z) : M state unit :=
  match years with
  | [] => ret tt
  | year :: rest =>
      try_except
        (on_scraper (Imdb.scrape_year todecimal session_get urljoin year) ;;;
         on_scraper (Imdb.sleep 2))
        is_Exception
        (fun e => log Imdb.ERROR (ErrorScrapingYear year e)) ;;;
      years_loop rest
  end.

Definition scrape_all_years (start_year end_year : Z) : M state unit :=
  log Imdb.INFO (StartingScrape start_year end_year) ;;;
  years_loop (range2 start_year (end_year + 1)) ;;;
  data <- self_data ;;
  log Imdb.INFO (ScrapingCompleted (Z.of_nat (List.length data))).

Definition save_to_csv (filename : str) : M state (option DataFrame) :=
  data <- self_data ;;
  match data with
  | [] =>
      log Imdb.WARNING NoDataToSave ;;;
      ret None
  | _ :: _ =>
      let df := frame_of_records data csv_columns in
      emit (ToCsv filename df) ;;;
      lift (to_csv filename df) ;;;
      log Imdb.INFO (DataSavedTo filename) ;;;
      print ScrapingSummary ;;;
      print (TotalMoviesScraped (Z.of_nat (List.length (rows df)))) ;;;
      first <- lift (series_min (column df (lit "year"))) ;;
      last <- lift (series_max (column df (lit "year"))) ;;
      print (YearsCovered first last) ;;;
      print (WithOpeningWeekend (notna_sum (column df (lit "opening_weekend")))) ;;;
      print (WithWorldwideGross (notna_sum (column df (lit "gross_world")))) ;;;
      ret (Some df)
  end.

(** [df.empty]. *)
Definition empty (df : DataFrame) : bool :=
  match columns df, rows df with
  | [], _ | _, [] => true
  | _ :: _, _ :: _ => false
  end.

Definition main : M state unit :=
  new_scraper ;;;
  print TestingWithYear2000 ;;;
  test_data <- on_scraper (Imdb.scrape_year todecimal session_get urljoin 2000) ;;
  df <- save_to_csv (lit "imdb_test_data.csv") ;;
  match df with
  | None => raise AttributeError          (* None has no attribute empty *)
  | Some d =>
      if negb (empty d) then
        print FirstFewRows ;;;
        print (Head (firstn 5 (rows d)))
      else ret tt
  end.

End Run.

(** ** Reading a journal *)

(** The frames handed to [to_csv], in order. *)
Fixpoint written (trace : list event) : list (str * DataFrame) :=
  match trace with
  | [] => []
  | ToCsv filename df :: rest => (filename, df) :: written rest
  | _ :: rest => written rest
  end.

End ImdbRun.

(* ===================================================================== *)
(** * Vocabulary of the properties                                       *)
(* ===================================================================== *)

Import Py Py.Notations.

(** ** Sessions, pages and rows *)

(** A computation that neither acquires nor releases a session: it only
    adds events of other kinds to the trace. *)
Definition quiet {A : Type} (m : M Salary.state A) : Prop :=
  forall st, exists new,
    Salary.events (snd (m st)) = Salary.events st ++ new /\
    Salary.sessions (snd (m st)) = Salary.sessions st /\
    Forall (fun e => Salary.is_session_event e = false) new.

Definition title_key : str := lit "title".

(** The movie page at [movie_url], asked for in the state [st], is fetched
    and holds the box office container. *)
Definition page_usable (session_get : nat -> str -> result Imdb.Response)
    (movie_url : str) (st : Imdb.state) : Prop :=
  exists resp st1 box,
    Imdb.get_page session_get movie_url Imdb.default_max_retries st
      = (Ret (Some resp), st1) /\
    Imdb.ok resp = true /\
    Imdb.box_office_summary (Imdb.content resp) = Some box.


Definition season_key : str := lit "season".

Definition say (m : Salary.message) (st : Salary.state) : Salary.state :=
  {| Salary.sessions := Salary.sessions st;
     Salary.events := Salary.events st ++ [Salary.Print m] |}.

Definition nap (seconds : Z) (st : Salary.state) : Salary.state :=
  {| Salary.sessions := Salary.sessions st;
     Salary.events := Salary.events st ++ [Salary.Sleep seconds] |}.

Definition with_season (season : str) (data : list dict) : list dict :=
  map (fun record => dict_set record season_key (VStr season)) data.

(** ** Dates and frames *)

(** The column as the pattern [fmt] reads it: a timestamp where the entry
    parses, [NaT] where it does not. *)
Definition parsed_with
    (to_datetime_format : str -> Merge.cell -> option Merge.Timestamp)
    (fmt : str) (dates : list Merge.cell) : list Merge.cell :=
  map (fun x => Merge.stamp (to_datetime_format fmt x)) dates.

(** The number of entries that [fmt] parses. *)
Definition successes
    (to_datetime_format : str -> Merge.cell -> option Merge.Timestamp)
    (fmt : str) (dates : list Merge.cell) : Z :=
  Merge.notna_sum (parsed_with to_datetime_format fmt dates).

(** The test of the loop: some entry parses, and at least 90% do. *)
Definition accepts
    (to_datetime_format : str -> Merge.cell -> option Merge.Timestamp)
    (fmt : str) (dates : list Merge.cell) (n : Z) : bool :=
  (0 <? successes to_datetime_format fmt dates) &&
  Merge.at_least_90_percent (successes to_datetime_format fmt dates) n.

(** The frame with its [Date] column replaced by [values]. *)
Definition with_dates (df : Merge.DataFrame) (i : nat)
    (values : list Merge.cell) : Merge.DataFrame :=
  {| Merge.columns := Merge.columns df;
     Merge.rows := Merge.zip_rows (Merge.set_at i) values (Merge.rows df) |}.

(** A cell of a parsed [Date] column, or the [NaN] that concatenation puts
    where a frame has no such column. *)
Definition stampish (c : Merge.cell) : Prop :=
  Merge.isna c = true \/ exists t, c = Merge.Datetime t.

Definition is_datetime (c : Merge.cell) : Prop := exists t, c = Merge.Datetime t.

(** The season label of a cell of the [Date] column: [year + 1] from August
    on, [year] before. *)
Definition season_label (c : Merge.cell) : Merge.cell :=
  match c with
  | Merge.Datetime t =>
      Merge.Int (if 8 <=? Merge.month t then Merge.year t + 1 else Merge.year t)
  | _ => Merge.NaN
  end.

(** A frame as [parse_date_column] leaves it. *)
Definition frame_ok (f : Merge.DataFrame) : Prop :=
  exists k,
    Merge.index_of Merge.Date (Merge.columns f) = Some k /\
    Forall (fun row => stampish (Merge.cell_at k row)) (Merge.rows f).

(** What [parse_date_column] makes of a frame that has a [Date] column. *)
Definition normalize
    (to_datetime_format : str -> Merge.cell -> option Merge.Timestamp)
    (to_datetime_dayfirst : list Merge.cell -> Merge.cell -> option Merge.Timestamp)
    (d : Merge.DataFrame) : Merge.DataFrame :=
  match fst (Merge.parse_date_column to_datetime_format to_datetime_dayfirst
               d []) with
  | Ret f => f
  | Raise _ => d
  end.

Definition empty_frame : Merge.DataFrame :=
  {| Merge.columns := []; Merge.rows := [] |}.

(** The frame that the file numbered [id] gives. *)
Definition frame_of
    (to_datetime_format : str -> Merge.cell -> option Merge.Timestamp)
    (to_datetime_dayfirst : list Merge.cell -> Merge.cell -> option Merge.Timestamp)
    (path_join : str -> str -> str) (read_csv : str -> result Merge.DataFrame)
    (data_dir : str) (id : Z) : Merge.DataFrame :=
  match read_csv (path_join data_dir (Merge.filename_of id)) with
  | Ret d => normalize to_datetime_format to_datetime_dayfirst d
  | Raise _ => empty_frame
  end.

(** The rows of a frame whose date is not missing. A frame without a
    [Date] column has none: laid out on the columns of the concatenation,
    its rows have [NaN] there. *)
Definition dated_rows (f : Merge.DataFrame) : list (list Merge.cell) :=
  match Merge.index_of Merge.Date (Merge.columns f) with
  | Some k => filter (fun r => Merge.notna (Merge.cell_at k r)) (Merge.rows f)
  | None => []
  end.

(** The dated rows of a frame, in order, each with the labels of the
    frame's columns. *)
Definition sources (f : Merge.DataFrame) : list (list str * list Merge.cell) :=
  map (pair (Merge.columns f)) (dated_rows f).

(** The row [m] of a table with the columns [cols] carries the row
    [snd src] of a table with the columns [fst src]: it has one cell per
    column, and under every label but [Season] the cell that the source row
    has under that label, or [NaN] when the source table has no such
    column. *)
Definition carries (cols : list str) (src : list str * list Merge.cell)
    (m : list Merge.cell) : Prop :=
  List.length m = List.length cols /\
  forall label q,
    label <> Merge.Season ->
    Merge.index_of label cols = Some q ->
    Merge.cell_at q m =
      match Merge.index_of label (fst src) with
      | Some p => Merge.cell_at p (snd src)
      | None => Merge.NaN
      end.

(** [f] is the table [d] with its [Date] column, the [k]-th, read as
    dates: the same columns, the same rows in the same order with every
    other cell as it was, and a timestamp or [NaT] for a date. *)
Definition normalized_from (d : Merge.DataFrame) (k : nat)
    (f : Merge.DataFrame) : Prop :=
  Merge.columns f = Merge.columns d /\
  Forall2 (fun row row' =>
             forall q, q <> k -> Merge.cell_at q row' = Merge.cell_at q row)
          (Merge.rows d) (Merge.rows f) /\
  Forall (fun row' =>
            Merge.cell_at k row' = Merge.NaT \/
            exists t, Merge.cell_at k row' = Merge.Datetime t)
         (Merge.rows f).

(** ** Records of the IMDb scraper *)

(** The keys of a record of [extract_box_office_data], in order. *)
Definition box_office_keys : list str :=
  [ lit "title"; lit "url"; lit "opening_weekend"; lit "gross_world";
    lit "budget"; lit "gross_usa_canada" ].

(** The keys under which a figure is stored. *)
Definition figure_keys : list str :=
  [ lit "opening_weekend"; lit "gross_world"; lit "budget";
    lit "gross_usa_canada" ].

(** A figure is unknown or an integer. *)
Definition unknown_or_int (v : value) : Prop :=
  v = VNone \/ exists n, v = VInt n.

(** The shape of a record that [extract_box_office_data] gives for the
    movie [movie_title] at [movie_url]. *)
Definition box_office_record (movie_title movie_url : str) (d : dict) : Prop :=
  map fst d = box_office_keys /\
  dict_get d (lit "title") = Some (VStr movie_title) /\
  dict_get d (lit "url") = Some (VStr movie_url) /\
  forall key, In key figure_keys ->
    exists v, dict_get d key = Some v /\ unknown_or_int v.

(** The shape of a record that [scrape_year] keeps for [year]. *)
Definition year_record (year : Z) (d : dict) : Prop :=
  map fst d = box_office_keys ++ [lit "year"] /\
  dict_get d (lit "year") = Some (VInt year) /\
  (exists movie_title, dict_get d (lit "title") = Some (VStr movie_title)) /\
  (exists movie_url, dict_get d (lit "url") = Some (VStr movie_url)) /\
  forall key, In key figure_keys ->
    exists v, dict_get d key = Some v /\ unknown_or_int v.

(** A row of the frame of [save_to_csv] that has no gap: the year, the
    title, the four figures (unknown or an integer) and the url. *)
Definition csv_row (row : list ImdbRun.cell) : Prop :=
  exists year movie_title opening_weekend gross_world gross_usa_canada budget
         movie_url,
    row = [ Some (VInt year); Some (VStr movie_title); Some opening_weekend;
            Some gross_world; Some gross_usa_canada; Some budget;
            Some (VStr movie_url) ] /\
    unknown_or_int opening_weekend /\ unknown_or_int gross_world /\
    unknown_or_int gross_usa_canada /\ unknown_or_int budget.

(** ** Texts of the salary table *)

(** The characters on which [str.strip] of Python and [trim] of JavaScript
    disagree: the separators U+001C to U+001F and U+0085 are white space
    for Python only, U+FEFF for JavaScript only. *)
Definition strips_differ (c : N) : bool :=
  ((28 <=? c) && (c <=? 31) || (c =? 133) || (c =? 65279))%N.

Definition plain_text (s : str) : Prop :=
  Forall (fun c => strips_differ c = false) s.

(** A cell whose text and whose team link hold none of those characters. *)
Definition plain_cell (c : Salary.Cell) : Prop :=
  plain_text (Salary.textContent c) /\
  forall t, Salary.firstcol c = Some t -> plain_text t.

(** The keys of a record of [scrape_all_columns], in order. *)
Definition salary_keys : list str :=
  [ lit "team_name"; lit "club_code"; lit "weekly_gross_gbp";
    lit "annual_gross_gbp"; lit "adj_gross_gbp"; lit "keeper_gbp";
    lit "defense_gbp"; lit "midfield_gbp"; lit "forward_gbp" ].

(** What a record holds under a key is a string, or the key is absent. *)
Definition str_or_absent (o : option value) : Prop :=
  o = None \/ exists s, o = Some (VStr s).

(** What a record holds under a key is an integer, or the key is absent. *)
Definition int_or_absent (o : option value) : Prop :=
  o = None \/ exists n, o = Some (VInt n).

(** ** Amounts *)

Definition is_digit (c : N) : bool := ((48 <=? c) && (c <=? 57))%N.

(** The number that a string of digits writes in base 10. *)
Definition decimal (digits : str) : Z :=
  fold_left (fun acc c => 10 * acc + (Z.of_N c - 48)) digits 0.

(** The ASCII characters that [int] can read past: a digit, the white
    space of the C locale, a sign, an underscore. *)
Definition int_char (c : N) : bool :=
  (is_digit c || Py_ISSPACE c || (c =? 43) || (c =? 45) || (c =? 95))%N.

(** ** Files of the merger *)

(** The frames handed to [to_csv] in a trace of the merger, in order. *)
Fixpoint files_written (trace : list Merge.event)
    : list (str * Merge.DataFrame) :=
  match trace with
  | [] => []
  | Merge.ToCsv path df :: rest => (path, df) :: files_written rest
  | _ :: rest => files_written rest
  end.

(** A candidate file that gives no frame: it does not exist, or reading it
    raises an [Exception], or what is read has no [Date] column. *)
Definition unloadable (path_exists : str -> bool)
    (read_csv : str -> result Merge.DataFrame) (path : str) : Prop :=
  path_exists path = false \/
  (exists e, read_csv path = Raise e /\ is_Exception e = true) \/
  (exists d, read_csv path = Ret d /\
             Merge.index_of Merge.Date (Merge.columns d) = None).

(** ** Links of a year page *)



(** ** Requests and sessions of a run *)

(** The addresses requested in a trace, in order. *)
Fixpoint requested (trace : list Imdb.event) : list str :=
  match trace with
  | [] => []
  | Imdb.Get url :: rest => url :: requested rest
  | _ :: rest => requested rest
  end.


(** In a run that started in the state [st] and added the events [new] to
    the trace, the page at [movie_url] was fetched and holds the box office
    container: some request of the run, the [k]-th, went to [movie_url],
    and the network answered it (it was request number [requests st + k])
    with a good response whose page has the container. *)
Definition fetched (session_get : nat -> str -> result Imdb.Response)
    (st : Imdb.state) (new : list Imdb.event) (movie_url : str) : Prop :=
  exists k resp box,
    nth_error (requested new) k = Some movie_url /\
    session_get (Imdb.requests st + k)%nat movie_url = Ret resp /\
    Imdb.ok resp = true /\
    Imdb.box_office_summary (Imdb.content resp) = Some box.




(* ===================================================================== *)
(** * Sample worlds                                                    *)
(* ===================================================================== *)

(** Concrete networks, browsers and directories, on which the scripts are
    run in the examples below. *)

(** ** The IMDb scraper *)

(** A bare scraper: nothing requested, nothing logged, nothing scraped. *)
Definition fresh_scraper : Imdb.state :=
  {| Imdb.requests := 0; Imdb.events := []; Imdb.data := [] |}.

(** A network on which every request times out. *)
Definition network_down (n : nat) (url : str) : result Imdb.Response :=
  Raise (RequestException Timeout).

Definition empty_soup : Imdb.Soup :=
  {| Imdb.a_link_normal := []; Imdb.box_office_summary := None |}.

(** A server that answers 503 twice, then 200 with an empty page. *)
Definition network_recovers (n : nat) (url : str) : result Imdb.Response :=
  if Nat.ltb n 2 then Ret {| Imdb.status_code := 503; Imdb.content := empty_soup |}
  else Ret {| Imdb.status_code := 200; Imdb.content := empty_soup |}.

(** No character outside ASCII is a decimal digit. *)
Definition ascii_digits_only (c : N) : option N := None.

Definition join_urls (base href : str) : str := base ++ href.

Definition sample_year_page : Imdb.Soup :=
  {| Imdb.a_link_normal :=
       [ {| Imdb.href := Some (lit "/releasegroup/gr1/"); Imdb.text := lit " Alpha " |};
         {| Imdb.href := Some (lit "/releasegroup/gr2/"); Imdb.text := lit "Beta" |};
         {| Imdb.href := Some (lit "/releasegroup/gr3/"); Imdb.text := lit "Gamma" |} ];
     Imdb.box_office_summary := None |}.

Definition sample_movie_page : Imdb.Soup :=
  {| Imdb.a_link_normal := [];
     Imdb.box_office_summary :=
       Some {| Imdb.find_div := fun c =>
                 if str_eqb c (lit "gross_world_summary")
                 then Some {| Imdb.value_div := Some (lit " $1,000 ") |}
                 else None |} |}.

(** The year page and the first and third movie pages are served; the
    request for the second movie page fails with an error that is not a
    [RequestException]. *)
Definition second_movie_breaks (n : nat) (url : str) : result Imdb.Response :=
  match n with
  | 0%nat => Ret {| Imdb.status_code := 200; Imdb.content := sample_year_page |}
  | 2%nat => Raise (OtherException 0)
  | _ => Ret {| Imdb.status_code := 200; Imdb.content := sample_movie_page |}
  end.

Definition sample_record (title url : str) (year : Z) : dict :=
  [ (lit "title", VStr title);
    (lit "url", VStr url);
    (lit "opening_weekend", VNone);
    (lit "gross_world", VInt 1000);
    (lit "budget", VNone);
    (lit "gross_usa_canada", VNone);
    (lit "year", VInt year) ].

(** ** The salary scraper *)

(** A browser that starts, then is interrupted from the keyboard while the
    page loads, and whose [quit] works. *)
Definition interrupted_browser (n : nat) : Salary.browser :=
  {| Salary.start := Ret tt;
     Salary.navigate := fun _ => Raise KeyboardInterrupt;
     Salary.table_located := fun _ => Ret tt;
     Salary.document := fun _ => Ret (Some []);
     Salary.stop := Ret tt |}.

Definition no_session_yet : Salary.state :=
  {| Salary.sessions := 0; Salary.events := [] |}.

Definition text_cell (t : str) : Salary.Cell :=
  {| Salary.firstcol := None; Salary.textContent := t |}.

Definition team_cell (t : str) : Salary.Cell :=
  {| Salary.firstcol := Some t; Salary.textContent := t |}.

Definition money_cells : list Salary.Cell :=
  [ text_cell (lit "ARS"); text_cell (pound :: lit " 1,000");
    text_cell (pound :: lit " 52,000"); text_cell (pound :: lit " 47,070,570");
    text_cell (lit "N/A"); text_cell (lit ""); text_cell (pound :: lit "7");
    text_cell (pound :: lit " 8") ].

(** A row of nine cells whose first cell holds no team link. *)
Definition row_without_link : Salary.Row := text_cell (lit "Arsenal") :: money_cells.

Definition row_with_link : Salary.Row := team_cell (lit " Arsenal ") :: money_cells.

Definition serves (rows : list Salary.Row) : Salary.browser :=
  {| Salary.start := Ret tt;
     Salary.navigate := fun _ => Ret tt;
     Salary.table_located := fun _ => Ret tt;
     Salary.document := fun _ => Ret (Some rows);
     Salary.stop := Ret tt |}.

(** Every session shows a table whose only row has no team link. *)
Definition linkless_browser (n : nat) : Salary.browser := serves [row_without_link].

(** [base_url.format(season)] for a base that ends with its placeholder. *)
Definition format_sample (base_url season : str) : result str :=
  Ret (base_url ++ season ++ lit "/").

Definition cleaned_record (team season : str) : dict :=
  [ (lit "team_name", VStr team);
    (lit "club_code", VStr (lit "ARS"));
    (lit "weekly_gross_gbp", VInt 1000);
    (lit "annual_gross_gbp", VInt 52000);
    (lit "adj_gross_gbp", VInt 47070570);
    (lit "keeper_gbp", VInt 0);
    (lit "defense_gbp", VInt 0);
    (lit "midfield_gbp", VInt 7);
    (lit "forward_gbp", VInt 8);
    (lit "season", VStr season) ].

(** The second session cannot be started; the others show a table with one
    row and its team link. *)
Definition second_session_breaks (n : nat) : Salary.browser :=
  match n with
  | 1%nat =>
      {| Salary.start := Raise WebDriverException;
         Salary.navigate := fun _ => Ret tt;
         Salary.table_located := fun _ => Ret tt;
         Salary.document := fun _ => Ret (Some []);
         Salary.stop := Ret tt |}
  | _ => serves [row_with_link]
  end.

(** ** The merger *)

Definition digit_of (c : N) : option Z :=
  if ((48 <=? c) && (c <=? 57))%N then Some (Z.of_N c - 48) else None.

(** A reader of ["%d/%m/%Y"] that wants two digits for the day, two for
    the month and four for the year; it knows no other pattern. *)
Definition read_dmy (fmt : str) (x : Merge.cell) : option Merge.Timestamp :=
  if str_eqb fmt (lit "%d/%m/%Y") then
    match x with
    | Merge.Obj [d1; d2; s1; m1; m2; s2; y1; y2; y3; y4] =>
        match digit_of d1, digit_of d2, digit_of m1, digit_of m2,
              digit_of y1, digit_of y2, digit_of y3, digit_of y4 with
        | Some a, Some b, Some c, Some d, Some e, Some f, Some g, Some h =>
            let dd := 10 * a + b in
            let mm := 10 * c + d in
            if (s1 =? 47)%N && (s2 =? 47)%N &&
               (1 <=? dd) && (dd <=? 31) && (1 <=? mm) && (mm <=? 12)
            then Some {| Merge.year := 1000 * e + 100 * f + 10 * g + h;
                         Merge.month := mm; Merge.day := dd;
                         Merge.nanosecond_of_day := 0 |}
            else None
        | _, _, _, _, _, _, _, _ => None
        end
    | _ => None
    end
  else None.

(** An inference that reads day/month/year and nothing else. *)
Definition infer_dmy (column : list Merge.cell) (x : Merge.cell)
    : option Merge.Timestamp :=
  read_dmy (lit "%d/%m/%Y") x.

Definition date_key (i : nat) (row : list Merge.cell) : Z :=
  match Merge.cell_at i row with
  | Merge.Datetime t =>
      (Merge.year t * 13 + Merge.month t) * 32 + Merge.day t
  | _ => 0
  end.

Fixpoint insert_row (i : nat) (row : list Merge.cell)
    (sorted : list (list Merge.cell)) : list (list Merge.cell) :=
  match sorted with
  | [] => [row]
  | r :: rest =>
      if date_key i row <=? date_key i r then row :: sorted
      else r :: insert_row i row rest
  end.

(** A stable sort of the rows on the date of the [i]-th column. *)
Fixpoint sort_by_date (i : nat) (rows : list (list Merge.cell))
    : list (list Merge.cell) :=
  match rows with
  | [] => []
  | row :: rest => insert_row i row (sort_by_date i rest)
  end.

Definition slash_join (directory name : str) : str :=
  directory ++ lit "/" ++ name.

Definition sample_dir : str := lit "data".

Definition sample_path (id : Z) : str :=
  slash_join sample_dir (Merge.filename_of id).

Definition sample_exists (path : str) : bool :=
  existsb (str_eqb path) [sample_path 7; sample_path 15; sample_path 30].

Definition table_7 : Merge.DataFrame :=
  {| Merge.columns := [lit "Date"; lit "HomeTeam"];
     Merge.rows := [ [Merge.Obj (lit "14/08/2004"); Merge.Obj (lit "Arsenal")];
                     [Merge.Obj (lit "01/02/2005"); Merge.Obj (lit "Leeds")] ] |}.

Definition table_15 : Merge.DataFrame :=
  {| Merge.columns := [lit "Div"; lit "Date"];
     Merge.rows := [ [Merge.Obj (lit "E0"); Merge.Obj (lit "20/08/2011")] ] |}.

Definition table_30 : Merge.DataFrame :=
  {| Merge.columns := [lit "Date"; lit "HomeTeam"];
     Merge.rows := [ [Merge.Obj (lit "postponed"); Merge.Obj (lit "Hull")];
                     [Merge.Obj (lit "31/07/2020"); Merge.Obj (lit "Fulham")] ] |}.

Definition sample_read_csv (path : str) : result Merge.DataFrame :=
  if str_eqb path (sample_path 7) then Ret table_7
  else if str_eqb path (sample_path 15) then Ret table_15
  else if str_eqb path (sample_path 30) then Ret table_30
  else Raise FileNotFoundError.

Definition sample_listdir (directory : str) : result (list str) :=
  Ret [Merge.filename_of 7; lit "notes.txt"; Merge.filename_of 15;
       Merge.filename_of 30].

Definition sample_to_csv (path : str) (d : Merge.DataFrame) : result unit :=
  Ret tt.

Definition at_midnight (y m d : Z) : Merge.cell :=
  Merge.Datetime {| Merge.year := y; Merge.month := m; Merge.day := d;
                    Merge.nanosecond_of_day := 0 |}.

(** Nineteen August fixtures and one entry that is no date. *)
Definition fixtures : Merge.DataFrame :=
  {| Merge.columns := [lit "Date"; lit "HomeTeam"];
     Merge.rows :=
       map (fun k => [Merge.Obj ((if k <? 10 then lit "0" else []) ++ str_of_int k
                                 ++ lit "/08/2003");
                      Merge.Obj (lit "Arsenal")])
           (range2 1 20)
       ++ [ [Merge.Obj (lit "postponed"); Merge.Obj (lit "Leeds")] ] |}.

(* ===================================================================== *)
(** * Properties                                                          *)
(* ===================================================================== *)

(** ** The currency normalizers *)

Lemma int_returns_or_ValueError todecimal (s : str) :
  (exists n, int todecimal s = Ret n) \/ int todecimal s = Raise ValueError.
Proof.
  unfold int. destruct (long_from_string _); [left; eauto | right; reflexivity].
Qed.

Example clean_currency_dollars :
  Imdb.clean_currency (fun _ => None) (lit "$1,234,567 ") tt = (Ret (Some 1234567), tt).
Proof. reflexivity. Qed.

Example clean_currency_pounds_unknown :
  Imdb.clean_currency (fun _ => None) (pound :: lit "5") tt = (Ret None, tt).
Proof. reflexivity. Qed.

Example clean_money_value_underscore :
  Salary.clean_money_value (fun _ => None) (VStr (lit "1_000")) tt = (Ret 1000, tt).
Proof. reflexivity. Qed.

Example clean_money_value_dollars :
  Salary.clean_money_value (fun _ => None) (VStr (lit "$5")) tt = (Ret 0, tt).
Proof. reflexivity. Qed.

(** C5. In the salary scraper, [clean_money_value] takes both
    ["£ 47,070,570"] and ["£47,070,570"] to the integer 47070570, and
    ["N/A"] to 0; it returns, and touches nothing. *)
Theorem clean_money_value_calibration :
  forall (todecimal : N -> option N) (S : Type) (st : S),
    Salary.clean_money_value todecimal (VStr (pound :: lit " 47,070,570")) st
      = (Ret 47070570, st) /\
    Salary.clean_money_value todecimal (VStr (pound :: lit "47,070,570")) st
      = (Ret 47070570, st) /\
    Salary.clean_money_value todecimal (VStr (lit "N/A")) st = (Ret 0, st).
Proof.
  intros todecimal S st. repeat split; reflexivity.
Qed.

(** C6. Currency normalization never raises, whatever the string:
    [clean_currency] and [clean_money_value] always return and leave the
    state alone; on the empty string, and on every string whose remainder
    after stripping [int] rejects, [clean_currency] returns [None] and
    [clean_money_value] returns 0. *)
Theorem currency_normalization_never_raises :
  forall (todecimal : N -> option N) (S : Type) (st : S) (text : str),
    (exists v, Imdb.clean_currency todecimal text st = (Ret v, st)) /\
    (exists n, Salary.clean_money_value todecimal (VStr text) st = (Ret n, st)) /\
    Imdb.clean_currency todecimal [] st = (Ret None, st) /\
    Salary.clean_money_value todecimal (VStr []) st = (Ret 0, st) /\
    (int todecimal (Imdb.sub_comma_dollar_space (strip text)) = Raise ValueError ->
     Imdb.clean_currency todecimal text st = (Ret None, st)) /\
    (int todecimal (Salary.remove_pound_space_comma text) = Raise ValueError ->
     Salary.clean_money_value todecimal (VStr text) st = (Ret 0, st)).
Proof.
  intros todecimal S st text.
  assert (Hc : forall s,
             int todecimal s = Raise ValueError ->
             try_except (n <- lift (int todecimal s) ;; ret (Some n))
               is_ValueError (fun _ => ret None) st = (Ret None, st)).
  { intros s H. unfold try_except, bind, lift, ret. rewrite H. reflexivity. }
  assert (Hm : forall s,
             int todecimal s = Raise ValueError ->
             try_except (lift (int todecimal s)) is_ValueError
               (fun _ => ret 0) st = (Ret 0, st)).
  { intros s H. unfold try_except, lift, ret. rewrite H. reflexivity. }
  repeat split.
  - destruct text as [|c text']; [exists None; reflexivity|].
    unfold Imdb.clean_currency.
    destruct (int_returns_or_ValueError todecimal
                (Imdb.sub_comma_dollar_space (strip (c :: text')))) as [[n H]|H].
    + exists (Some n). unfold try_except, bind, lift, ret. rewrite H. reflexivity.
    + exists None. apply Hc, H.
  - unfold Salary.clean_money_value.
    destruct (_ || _); [exists 0; reflexivity|].
    destruct (int_returns_or_ValueError todecimal
                (Salary.remove_pound_space_comma text)) as [[n H]|H].
    + exists n. unfold try_except, lift. rewrite H. reflexivity.
    + exists 0. apply Hm, H.
  - intros H. destruct text as [|c text']; [reflexivity|].
    unfold Imdb.clean_currency. apply Hc, H.
  - intros H. unfold Salary.clean_money_value.
    destruct (_ || _); [reflexivity|]. apply Hm, H.
Qed.

Lemma currency_normalization_never_raises_witness :
  Imdb.clean_currency (fun _ => None) (lit "12.5 million") tt = (Ret None, tt) /\
  Salary.clean_money_value (fun _ => None) (VStr (lit "12.5 million")) tt
    = (Ret 0, tt).
Proof.
  destruct (currency_normalization_never_raises
              (fun _ => None) unit tt (lit "12.5 million"))
    as (_ & _ & _ & _ & Hc & Hm).
  split; [apply Hc | apply Hm]; reflexivity.
Defined.

(** ** The retry loop of [get_page] *)

Section GetPage.

Variable session_get : nat -> str -> result Imdb.Response.
Variable url : str.
Variable max_retries : Z.

Let iteration (attempt : Z) : M Imdb.state (control (option Imdb.Response)) :=
  try_except
    (response <- Imdb.get session_get url ;;
     Imdb.raise_for_status response ;;;
     ret (Return (Some response)))
    is_RequestException
    (fun e =>
       Imdb.log Imdb.WARNING (Imdb.AttemptFailed (attempt + 1) url e) ;;;
       if attempt <? max_retries - 1 then
         Imdb.sleep (2 ^ attempt) ;;;
         ret Next
       else
         Imdb.log Imdb.ERROR (Imdb.FailedToFetch url max_retries) ;;;
         ret (Return None)).

Lemma get_page_loop_cons attempt rest st :
  Imdb.get_page_loop session_get url max_retries (attempt :: rest) st =
  match iteration attempt st with
  | (Ret (Return r), st') => (Ret r, st')
  | (Ret Next, st') => Imdb.get_page_loop session_get url max_retries rest st'
  | (Raise e, st') => (Raise e, st')
  end.
Proof.
  simpl. unfold bind at 1. fold (iteration attempt).
  destruct (iteration attempt st) as [[[r|]|e] st']; reflexivity.
Qed.

(** A failing attempt that is not the last: a request, a warning, a wait. *)
Lemma iteration_fails_and_waits attempt st e :
  Imdb.failure (session_get (Imdb.requests st) url) = Some e ->
  (attempt <? max_retries - 1) = true ->
  iteration attempt st =
    (Ret Next,
     {| Imdb.requests := S (Imdb.requests st);
        Imdb.events := Imdb.events st ++
          [Imdb.Get url;
           Imdb.Log Imdb.WARNING (Imdb.AttemptFailed (attempt + 1) url e);
           Imdb.Sleep (2 ^ attempt)];
        Imdb.data := Imdb.data st |}).
Proof.
  intros Hf Hlt. unfold iteration, try_except, bind, Imdb.get, Imdb.failure in *.
  destruct (session_get (Imdb.requests st) url) as [resp|e0].
  - unfold Imdb.raise_for_status.
    destruct (Imdb.ok resp); [discriminate|]. injection Hf as <-.
    unfold raise. cbn. rewrite Hlt. cbn. rewrite <- !app_assoc. reflexivity.
  - destruct (is_RequestException e0); [|discriminate]. injection Hf as <-.
    cbn. rewrite Hlt. cbn. rewrite <- !app_assoc. reflexivity.
Qed.

(** The failing last attempt: a request, a warning, an error line. *)
Lemma iteration_fails_and_gives_up attempt st e :
  Imdb.failure (session_get (Imdb.requests st) url) = Some e ->
  (attempt <? max_retries - 1) = false ->
  iteration attempt st =
    (Ret (Return None),
     {| Imdb.requests := S (Imdb.requests st);
        Imdb.events := Imdb.events st ++
          [Imdb.Get url;
           Imdb.Log Imdb.WARNING (Imdb.AttemptFailed (attempt + 1) url e);
           Imdb.Log Imdb.ERROR (Imdb.FailedToFetch url max_retries)];
        Imdb.data := Imdb.data st |}).
Proof.
  intros Hf Hlt. unfold iteration, try_except, bind, Imdb.get, Imdb.failure in *.
  destruct (session_get (Imdb.requests st) url) as [resp|e0].
  - unfold Imdb.raise_for_status.
    destruct (Imdb.ok resp); [discriminate|]. injection Hf as <-.
    unfold raise. cbn. rewrite Hlt. cbn. rewrite <- !app_assoc. reflexivity.
  - destruct (is_RequestException e0); [|discriminate]. injection Hf as <-.
    cbn. rewrite Hlt. cbn. rewrite <- !app_assoc. reflexivity.
Qed.

(** A successful attempt: a request, and the function returns. *)
Lemma iteration_succeeds attempt st resp :
  session_get (Imdb.requests st) url = Ret resp ->
  Imdb.ok resp = true ->
  iteration attempt st =
    (Ret (Return (Some resp)),
     {| Imdb.requests := S (Imdb.requests st);
        Imdb.events := Imdb.events st ++ [Imdb.Get url];
        Imdb.data := Imdb.data st |}).
Proof.
  intros Hg Hok. unfold iteration, try_except, bind, Imdb.get.
  rewrite Hg. unfold Imdb.raise_for_status. rewrite Hok. reflexivity.
Qed.

Let round (k : Z) : list Imdb.event := [Imdb.Get url; Imdb.Sleep (2 ^ k)].

Lemma str_eqb_refl (s : str) : str_eqb s s = true.
Proof.
  induction s as [|c s IH]; [reflexivity|].
  simpl. rewrite N.eqb_refl. exact IH.
Qed.

Lemma attempts_app (t1 t2 : list Imdb.event) :
  Imdb.attempts url (t1 ++ t2) = Imdb.attempts url t1 + Imdb.attempts url t2.
Proof.
  unfold Imdb.attempts. rewrite filter_app, length_app. lia.
Qed.

Lemma attempts_round_waits (l : Imdb.level) (m : Imdb.message) (t : Z) :
  Imdb.attempts url [Imdb.Get url; Imdb.Log l m; Imdb.Sleep t] = 1.
Proof.
  unfold Imdb.attempts. cbn [filter]. rewrite str_eqb_refl. reflexivity.
Qed.

Lemma attempts_round_gives_up (l1 l2 : Imdb.level) (m1 m2 : Imdb.message) :
  Imdb.attempts url [Imdb.Get url; Imdb.Log l1 m1; Imdb.Log l2 m2] = 1.
Proof.
  unfold Imdb.attempts. cbn [filter]. rewrite str_eqb_refl. reflexivity.
Qed.

Lemma delays_app (t1 t2 : list Imdb.event) :
  Imdb.delays (t1 ++ t2) = Imdb.delays t1 ++ Imdb.delays t2.
Proof.
  induction t1 as [|[u|t|l m] t1 IH]; simpl; [reflexivity| | |]; rewrite IH; reflexivity.
Qed.

Lemma actions_app (t1 t2 : list Imdb.event) :
  Imdb.actions (t1 ++ t2) = Imdb.actions t1 ++ Imdb.actions t2.
Proof. apply filter_app. Qed.

(** The loop from attempt [a] on, when the [S n] attempts left all fail. *)
Lemma get_page_loop_all_fail (n a : nat) :
  forall st,
    max_retries = Z.of_nat (a + S n) ->
    (forall i, (i <= n)%nat ->
       Imdb.failure (session_get (Imdb.requests st + i) url) <> None) ->
    exists st' new,
      Imdb.get_page_loop session_get url max_retries
        (map Z.of_nat (seq a (S n))) st = (Ret None, st') /\
      Imdb.requests st' = (Imdb.requests st + S n)%nat /\
      Imdb.data st' = Imdb.data st /\
      Imdb.events st' = Imdb.events st ++ new /\
      Imdb.attempts url new = Z.of_nat (S n) /\
      Imdb.delays new = map (fun k => 2 ^ k) (map Z.of_nat (seq a n)) /\
      Imdb.actions new =
        flat_map round (map Z.of_nat (seq a n)) ++ [Imdb.Get url].
Proof.
  revert a. induction n as [|n IH]; intros a st HN Hfail.
  - destruct (Imdb.failure (session_get (Imdb.requests st) url)) as [e|] eqn:He.
    2:{ exfalso. apply (Hfail O); [lia|]. rewrite Nat.add_0_r. exact He. }
    cbn [seq map]. rewrite get_page_loop_cons.
    rewrite (iteration_fails_and_gives_up _ _ e He) by (apply Z.ltb_ge; lia).
    eexists. eexists. repeat split; cbn [Imdb.requests Imdb.events Imdb.data].
    + lia.
    + apply attempts_round_gives_up.
  - destruct (Imdb.failure (session_get (Imdb.requests st) url)) as [e|] eqn:He.
    2:{ exfalso. apply (Hfail O); [lia|]. rewrite Nat.add_0_r. exact He. }
    change (seq a (S (S n))) with (a :: seq (S a) (S n)).
    cbn [map]. rewrite get_page_loop_cons.
    rewrite (iteration_fails_and_waits _ _ e He) by (apply Z.ltb_lt; lia).
    edestruct (IH (S a)) as (st' & new & Hrun & Hreq & Hdata & Hev & Hatt & Hdel & Hact);
      [ | | rewrite Hrun ].
    + lia.
    + intros i Hi. cbn [Imdb.requests].
      replace (S (Imdb.requests st) + i)%nat with (Imdb.requests st + S i)%nat by lia.
      apply Hfail. lia.
    + cbn [Imdb.requests Imdb.data Imdb.events] in *.
      exists st'.
      exists ([Imdb.Get url;
               Imdb.Log Imdb.WARNING (Imdb.AttemptFailed (Z.of_nat a + 1) url e);
               Imdb.Sleep (2 ^ Z.of_nat a)] ++ new).
      repeat split.
      * lia.
      * exact Hdata.
      * rewrite Hev, <- app_assoc. reflexivity.
      * rewrite attempts_app, Hatt.
        rewrite attempts_round_waits. lia.
      * rewrite delays_app, Hdel. reflexivity.
      * rewrite actions_app, Hact. reflexivity.
Qed.

(** The loop from attempt [a] on, when [k] attempts fail and the next one
    succeeds: whatever attempts [rest] holds are never made. *)
Lemma get_page_loop_success (k a : nat) :
  forall st rest resp,
    Z.of_nat (a + k) < max_retries ->
    (forall i, (i < k)%nat ->
       Imdb.failure (session_get (Imdb.requests st + i) url) <> None) ->
    session_get (Imdb.requests st + k) url = Ret resp ->
    Imdb.ok resp = true ->
    exists st' before,
      Imdb.get_page_loop session_get url max_retries
        (map Z.of_nat (seq a (S k)) ++ rest) st = (Ret (Some resp), st') /\
      Imdb.requests st' = (Imdb.requests st + S k)%nat /\
      Imdb.data st' = Imdb.data st /\
      Imdb.events st' = Imdb.events st ++ before ++ [Imdb.Get url] /\
      Imdb.attempts url before = Z.of_nat k /\
      Imdb.delays before = map (fun j => 2 ^ j) (map Z.of_nat (seq a k)) /\
      Imdb.actions before = flat_map round (map Z.of_nat (seq a k)).
Proof.
  revert a. induction k as [|k IH]; intros a st rest resp HN Hfail Hget Hok.
  - rewrite Nat.add_0_r in Hget.
    cbn [seq map app]. rewrite get_page_loop_cons.
    rewrite (iteration_succeeds _ _ resp Hget Hok).
    eexists. exists []. repeat split; cbn. lia.
  - destruct (Imdb.failure (session_get (Imdb.requests st) url)) as [e|] eqn:He.
    2:{ exfalso. apply (Hfail O); [lia|]. rewrite Nat.add_0_r. exact He. }
    change (seq a (S (S k))) with (a :: seq (S a) (S k)).
    cbn [map app]. rewrite get_page_loop_cons.
    rewrite (iteration_fails_and_waits _ _ e He) by (apply Z.ltb_lt; lia).
    edestruct (IH (S a)) with (rest := rest) (resp := resp)
      as (st' & before & Hrun & Hreq & Hdata & Hev & Hatt & Hdel & Hact);
      [ | | | exact Hok | rewrite Hrun ].
    + lia.
    + intros i Hi. cbn [Imdb.requests].
      replace (S (Imdb.requests st) + i)%nat with (Imdb.requests st + S i)%nat by lia.
      apply Hfail. lia.
    + cbn [Imdb.requests]. rewrite <- Hget. f_equal. lia.
    + cbn [Imdb.requests Imdb.data Imdb.events] in *.
      exists st'.
      exists ([Imdb.Get url;
               Imdb.Log Imdb.WARNING (Imdb.AttemptFailed (Z.of_nat a + 1) url e);
               Imdb.Sleep (2 ^ Z.of_nat a)] ++ before).
      repeat split.
      * lia.
      * exact Hdata.
      * rewrite Hev, <- !app_assoc. reflexivity.
      * rewrite attempts_app, Hatt.
        rewrite attempts_round_waits. lia.
      * rewrite delays_app, Hdel. reflexivity.
      * rewrite actions_app, Hact. reflexivity.
Qed.

End GetPage.

Example get_page_three_timeouts :
  let '(r, st) := Imdb.get_page network_down (lit "u") 3 fresh_scraper in
  r = Ret None /\
  Imdb.actions (Imdb.events st) =
    [Imdb.Get (lit "u"); Imdb.Sleep 1; Imdb.Get (lit "u"); Imdb.Sleep 2;
     Imdb.Get (lit "u")].
Proof. split; reflexivity. Qed.

Example get_page_no_attempt_allowed :
  Imdb.get_page network_down (lit "u") 0 fresh_scraper = (Ret None, fresh_scraper).
Proof. reflexivity. Qed.

Example get_page_third_attempt_succeeds :
  let '(r, st) := Imdb.get_page network_recovers (lit "u") 5 fresh_scraper in
  r = Ret (Some {| Imdb.status_code := 200; Imdb.content := empty_soup |}) /\
  Imdb.actions (Imdb.events st) =
    [Imdb.Get (lit "u"); Imdb.Sleep 1; Imdb.Get (lit "u"); Imdb.Sleep 2;
     Imdb.Get (lit "u")].
Proof. split; reflexivity. Qed.

(** C1. When every one of the [N > 0] attempts fails, [get_page] sends
    exactly [N] requests, waits 1, 2, 4, ..., 2^(N-2) between consecutive
    requests and not after the last, and returns [None] without raising. *)
Theorem get_page_exhausts_attempts :
  forall (session_get : nat -> str -> result Imdb.Response) (url : str)
         (N : Z) (st : Imdb.state),
    0 < N ->
    (forall i, (i < Z.to_nat N)%nat ->
       Imdb.failure (session_get (Imdb.requests st + i)%nat url) <> None) ->
    exists st' new,
      Imdb.get_page session_get url N st = (Ret None, st') /\
      Imdb.events st' = Imdb.events st ++ new /\
      Imdb.requests st' = (Imdb.requests st + Z.to_nat N)%nat /\
      Imdb.attempts url new = N /\
      Imdb.delays new = map (fun k => 2 ^ k) (range (N - 1)) /\
      Imdb.actions new =
        flat_map (fun k => [Imdb.Get url; Imdb.Sleep (2 ^ k)]) (range (N - 1))
        ++ [Imdb.Get url].
Proof.
  intros session_get url N st HN Hfail.
  destruct (Z.to_nat N) as [|n] eqn:En; [lia|].
  destruct (get_page_loop_all_fail session_get url N n 0 st)
    as (st' & new & Hrun & Hreq & _ & Hev & Hatt & Hdel & Hact).
  - lia.
  - intros i Hi. apply Hfail. lia.
  - exists st', new. unfold Imdb.get_page, range. rewrite En.
    replace (Z.to_nat (N - 1)) with n by lia.
    repeat split; try assumption. lia.
Qed.

Lemma get_page_exhausts_attempts_witness :
  exists st' new,
    Imdb.get_page network_down (lit "https://pro.imdb.com/title") 4 fresh_scraper
      = (Ret None, st') /\
    Imdb.events st' = new /\
    Imdb.attempts (lit "https://pro.imdb.com/title") new = 4 /\
    Imdb.delays new = [1; 2; 4].
Proof.
  destruct (get_page_exhausts_attempts network_down
              (lit "https://pro.imdb.com/title") 4 fresh_scraper)
    as (st' & new & Hrun & Hev & _ & Hatt & Hdel & _).
  - lia.
  - intros i _. discriminate.
  - exists st', new. repeat split; assumption.
Defined.

(** C2. When attempt [k < N] is the first to succeed, [get_page] returns
    its response right after that request: [k + 1] requests are sent in
    all, the waits are those of the [k] failures before it, and nothing
    happens after the successful request. *)
Theorem get_page_returns_first_success :
  forall (session_get : nat -> str -> result Imdb.Response) (url : str)
         (N : Z) (k : nat) (st : Imdb.state) (resp : Imdb.Response),
    Z.of_nat k < N ->
    (forall i, (i < k)%nat ->
       Imdb.failure (session_get (Imdb.requests st + i)%nat url) <> None) ->
    session_get (Imdb.requests st + k)%nat url = Ret resp ->
    Imdb.ok resp = true ->
    exists st' before,
      Imdb.get_page session_get url N st = (Ret (Some resp), st') /\
      Imdb.events st' = Imdb.events st ++ before ++ [Imdb.Get url] /\
      Imdb.requests st' = (Imdb.requests st + k + 1)%nat /\
      Imdb.attempts url (before ++ [Imdb.Get url]) = Z.of_nat k + 1 /\
      Imdb.delays (before ++ [Imdb.Get url]) =
        map (fun j => 2 ^ j) (range (Z.of_nat k)) /\
      Imdb.actions (before ++ [Imdb.Get url]) =
        flat_map (fun j => [Imdb.Get url; Imdb.Sleep (2 ^ j)]) (range (Z.of_nat k))
        ++ [Imdb.Get url].
Proof.
  intros session_get url N k st resp Hk Hfail Hget Hok.
  assert (Hk0 : Z.of_nat (0 + k) < N) by lia.
  destruct (get_page_loop_success session_get url N k 0 st
              (map Z.of_nat (seq (S k) (Z.to_nat N - S k))) resp
              Hk0 Hfail Hget Hok)
    as (st' & before & Hrun & Hreq & _ & Hev & Hatt & Hdel & Hact).
  - exists st', before. unfold Imdb.get_page, range.
    replace (Z.to_nat N) with (S k + (Z.to_nat N - S k))%nat by lia.
    rewrite seq_app, map_app. rewrite Nat2Z.id.
    repeat split; try assumption.
    + lia.
    + rewrite attempts_app, Hatt. unfold Imdb.attempts. cbn [filter].
      rewrite str_eqb_refl. reflexivity.
    + rewrite delays_app, Hdel. cbn [Imdb.delays]. apply app_nil_r.
    + rewrite actions_app, Hact. reflexivity.
Qed.

Lemma get_page_returns_first_success_witness :
  exists st' before,
    Imdb.get_page network_recovers (lit "https://pro.imdb.com/title") 5 fresh_scraper
      = (Ret (Some {| Imdb.status_code := 200; Imdb.content := empty_soup |}), st') /\
    Imdb.events st' = before ++ [Imdb.Get (lit "https://pro.imdb.com/title")] /\
    Imdb.requests st' = 3%nat /\
    Imdb.delays (before ++ [Imdb.Get (lit "https://pro.imdb.com/title")]) = [1; 2].
Proof.
  destruct (get_page_returns_first_success network_recovers
              (lit "https://pro.imdb.com/title") 5 2 fresh_scraper
              {| Imdb.status_code := 200; Imdb.content := empty_soup |})
    as (st' & before & Hrun & Hev & Hreq & _ & Hdel & _).
  - lia.
  - intros [|[|i]] Hi; [discriminate | discriminate | lia].
  - reflexivity.
  - reflexivity.
  - exists st', before. repeat split; assumption.
Defined.

(** ** The browser session of the salary scraper *)

Lemma quiet_ret {A} (a : A) : quiet (ret a).
Proof. intros st. exists []. cbn. rewrite app_nil_r. auto. Qed.

Lemma quiet_raise {A} (e : exn) : quiet (@raise Salary.state A e).
Proof. intros st. exists []. cbn. rewrite app_nil_r. auto. Qed.

Lemma quiet_lift {A} (r : result A) : quiet (lift r).
Proof. intros st. exists []. cbn. rewrite app_nil_r. auto. Qed.

Lemma quiet_emit (e : Salary.event) :
  Salary.is_session_event e = false -> quiet (Salary.emit e).
Proof. intros He st. exists [e]. cbn. auto. Qed.

Lemma quiet_bind {A B} (m : M Salary.state A) (k : A -> M Salary.state B) :
  quiet m -> (forall a, quiet (k a)) -> quiet (bind m k).
Proof.
  intros Hm Hk st. unfold bind.
  destruct (Hm st) as (new1 & Hev1 & Hs1 & Hq1).
  destruct (m st) as [[a|e] st1]; cbn in *.
  - destruct (Hk a st1) as (new2 & Hev2 & Hs2 & Hq2).
    exists (new1 ++ new2). rewrite Hev2, Hev1, Hs2, Hs1, app_assoc.
    repeat split; try reflexivity. apply Forall_app. auto.
  - exists new1. auto.
Qed.

Lemma quiet_try_except {A} (body : M Salary.state A) catches handler :
  quiet body -> (forall e, quiet (handler e)) ->
  quiet (try_except body catches handler).
Proof.
  intros Hb Hh st. unfold try_except.
  destruct (Hb st) as (new1 & Hev1 & Hs1 & Hq1).
  destruct (body st) as [[a|e] st1]; cbn in *.
  - exists new1. auto.
  - destruct (catches e); cbn.
    + destruct (Hh e st1) as (new2 & Hev2 & Hs2 & Hq2).
      exists (new1 ++ new2). rewrite Hev2, Hev1, Hs2, Hs1, app_assoc.
      repeat split; try reflexivity. apply Forall_app. auto.
    + exists new1. auto.
Qed.

Create HintDb quiet.
#[local] Hint Resolve quiet_ret quiet_raise quiet_lift quiet_bind
  quiet_try_except : quiet.
#[local] Hint Extern 1 (quiet (Salary.emit _)) =>
  apply quiet_emit; reflexivity : quiet.
#[local] Hint Extern 1 (quiet (Salary.print _)) =>
  apply quiet_emit; reflexivity : quiet.
#[local] Hint Extern 1 (quiet (Salary.sleep _)) =>
  apply quiet_emit; reflexivity : quiet.

Section Session.

Variable chrome : nat -> Salary.browser.

Lemma quiet_execute_script driver url script :
  quiet (Salary.execute_script chrome driver url script).
Proof.
  unfold Salary.execute_script. apply quiet_bind; [auto with quiet|].
  intros _. apply quiet_bind; [auto with quiet|].
  intros [rows|]; auto with quiet.
Qed.

(** What the two fetch functions do between acquiring the driver and the
    [finally] clause. *)
Lemma quiet_session driver url script :
  quiet
    (try_except
       (Salary.driver_get chrome driver url ;;;
        Salary.wait_until_table chrome driver url ;;;
        Salary.sleep 2 ;;;
        data <- Salary.execute_script chrome driver url script ;;
        ret data)
       is_Exception
       (fun e => Salary.print (Salary.ErrorScrapingData e) ;;; ret [])).
Proof.
  unfold Salary.driver_get, Salary.wait_until_table.
  pose proof quiet_execute_script.
  auto 10 with quiet.
Qed.

(** [try: body / finally: driver.quit()] ends with the release, whatever
    [body] did. *)
Lemma finally_quit {A} (body : M Salary.state A) (driver : nat) :
  quiet body ->
  forall st, exists used,
    Salary.events (snd (try_finally body (Salary.driver_quit chrome driver) st))
      = Salary.events st ++ used ++ [Salary.Quit driver] /\
    Salary.sessions (snd (try_finally body (Salary.driver_quit chrome driver) st))
      = Salary.sessions st /\
    Forall (fun e => Salary.is_session_event e = false) used.
Proof.
  intros Hb st. destruct (Hb st) as (used & Hev & Hs & Hq).
  exists used. unfold try_finally.
  destruct (body st) as [r st1]. cbn in Hev, Hs.
  unfold Salary.driver_quit, bind, Salary.emit, lift.
  destruct (Salary.stop (chrome driver)) as [[]|e]; cbn;
    rewrite Hev, Hs, app_assoc; auto.
Qed.

Lemma acquire_then_release {A} (k : nat -> M Salary.state A) st :
  Salary.start (chrome (Salary.sessions st)) = Ret tt ->
  (forall driver st1, exists used,
     Salary.events (snd (k driver st1))
       = Salary.events st1 ++ used ++ [Salary.Quit driver] /\
     Forall (fun e => Salary.is_session_event e = false) used) ->
  Salary.acquired_and_released (Salary.sessions st) (Salary.events st)
    (Salary.events (snd (bind (Salary.webdriver_Chrome chrome) k st))).
Proof.
  intros Hstart Hk. unfold bind, Salary.webdriver_Chrome. rewrite Hstart.
  match goal with |- context [k ?d ?s] => destruct (Hk d s) as (used & Hev & Hq) end.
  exists used. rewrite Hev. cbn. rewrite <- app_assoc. auto.
Qed.

End Session.

Example interrupted_scrape_quits :
  Salary.scrape_all_columns interrupted_browser (lit "u") no_session_yet =
    (Raise KeyboardInterrupt,
     {| Salary.sessions := 1;
        Salary.events := [Salary.Chrome 0; Salary.DriverGet 0 (lit "u");
                          Salary.Quit 0] |}).
Proof. reflexivity. Qed.

(** C10. In both fetch functions of the salary scraper, once the driver is
    acquired it is released on every exit, return or exception:
    [driver.quit()] is the last thing the call does, and no other session
    is acquired or released in between. *)
Theorem driver_released_on_every_exit :
  forall (chrome : nat -> Salary.browser) (url : str) (st : Salary.state),
    Salary.start (chrome (Salary.sessions st)) = Ret tt ->
    Salary.acquired_and_released (Salary.sessions st) (Salary.events st)
      (Salary.events (snd (Salary.scrape_team_salary_data chrome url st))) /\
    Salary.acquired_and_released (Salary.sessions st) (Salary.events st)
      (Salary.events (snd (Salary.scrape_all_columns chrome url st))).
Proof.
  intros chrome url st Hstart.
  split; apply acquire_then_release; try assumption; intros driver st1.
  - destruct (finally_quit chrome _ driver
                (quiet_session chrome driver url Salary.script_team_salary) st1)
      as (used & Hev & _ & Hq).
    exists used; split; [exact Hev | exact Hq].
  - destruct (finally_quit chrome _ driver
                (quiet_session chrome driver url Salary.script_all_columns) st1)
      as (used & Hev & _ & Hq).
    exists used; split; [exact Hev | exact Hq].
Qed.

Lemma driver_released_on_every_exit_witness :
  Salary.acquired_and_released 0 []
    (Salary.events
       (snd (Salary.scrape_all_columns interrupted_browser (lit "u") no_session_yet))).
Proof.
  apply (driver_released_on_every_exit interrupted_browser (lit "u") no_session_yet).
  reflexivity.
Defined.

(** ** Dictionaries *)

Lemma str_eqb_eq (a b : str) : str_eqb a b = true -> a = b.
Proof.
  revert b. induction a as [|x a IH]; intros [|y b] H; try discriminate.
  - reflexivity.
  - simpl in H. apply andb_prop in H as [Hx Hab].
    apply N.eqb_eq in Hx. subst y. f_equal. apply IH, Hab.
Qed.

Lemma dict_get_set_other (d : dict) (key key' : str) (v : value) :
  str_eqb key key' = false ->
  dict_get (dict_set d key v) key' = dict_get d key'.
Proof.
  intros Hne. induction d as [|[k w] d IH]; simpl.
  - rewrite Hne. reflexivity.
  - destruct (str_eqb k key) eqn:Hk; simpl.
    + apply str_eqb_eq in Hk. subst k. rewrite Hne. reflexivity.
    + rewrite IH. reflexivity.
Qed.

Lemma dict_get_set_same (d : dict) (key : str) (v : value) :
  dict_get (dict_set d key v) key = Some v.
Proof.
  induction d as [|[k w] d IH]; simpl.
  - rewrite str_eqb_refl. reflexivity.
  - destruct (str_eqb k key) eqn:Hk; simpl; rewrite Hk; [reflexivity | exact IH].
Qed.

Lemma dict_set_not_empty (d : dict) (key : str) (v : value) :
  dict_set d key v <> [].
Proof.
  destruct d as [|[k w] d]; simpl; [discriminate|].
  destruct (str_eqb k key); discriminate.
Qed.

(** ** Which pages give a record: the IMDb scraper *)

Section ImdbRecords.

Variable todecimal : N -> option N.
Variable session_get : nat -> str -> result Imdb.Response.
Variable urljoin : str -> str -> str.

Lemma clean_currency_returns {S} (text : str) (st : S) :
  exists v, Imdb.clean_currency todecimal text st = (Ret v, st).
Proof.
  destruct text as [|c text']; [exists None; reflexivity|].
  unfold Imdb.clean_currency, try_except, bind, lift, ret.
  destruct (int_returns_or_ValueError todecimal
              (Imdb.sub_comma_dollar_space (strip (c :: text')))) as [[n H]|H];
    rewrite H; [exists (Some n) | exists None]; reflexivity.
Qed.

(** The loop over the metrics returns, leaves [self.data] alone and leaves
    alone every key that is not a metric. *)
Lemma sections_loop_keeps (box : Imdb.BoxOffice) (key : str) :
  forall (todo : list (str * str)) (d : dict) (st : Imdb.state),
    Forall (fun p => str_eqb (snd p) key = false) todo ->
    exists d' st',
      Imdb.sections_loop todecimal box todo d st = (Ret d', st') /\
      dict_get d' key = dict_get d key /\
      Imdb.data st' = Imdb.data st /\
      (d <> [] -> d' <> []).
Proof.
  induction todo as [|[section_class data_key] todo IH]; intros d st Hkeys.
  - exists d, st. auto.
  - inversion Hkeys as [|? ? Hk Hrest]; subst. cbn [snd] in Hk.
    cbn [Imdb.sections_loop].
    destruct (Imdb.find_div box section_class) as [section|]; [|apply IH, Hrest].
    destruct (Imdb.value_div section) as [t|]; [|apply IH, Hrest].
    unfold bind at 1.
    destruct (clean_currency_returns (strip t) st) as [v Hv]. rewrite Hv.
    unfold bind at 1. cbn [Imdb.log Imdb.emit].
    match goal with |- context [Imdb.sections_loop _ _ _ ?d1 ?s1] =>
      destruct (IH d1 s1 Hrest) as (d' & st' & Hrun & Hget & Hdata & Hne)
    end.
    exists d', st'. repeat split.
    + exact Hrun.
    + rewrite Hget. apply dict_get_set_other, Hk.
    + exact Hdata.
    + intros _. apply Hne, dict_set_not_empty.
Qed.

Lemma get_page_loop_keeps_data (url : str) (max_retries : Z) :
  forall (attempts : list Z) (st : Imdb.state),
    Imdb.data (snd (Imdb.get_page_loop session_get url max_retries attempts st))
      = Imdb.data st.
Proof.
  induction attempts as [|attempt rest IH]; intros st; [reflexivity|].
  cbn [Imdb.get_page_loop].
  unfold bind at 1, try_except, bind at 1, Imdb.get, Imdb.raise_for_status.
  destruct (session_get (Imdb.requests st) url) as [resp|e].
  - destruct (Imdb.ok resp); cbn; [reflexivity|].
    destruct (attempt <? max_retries - 1); cbn; [|reflexivity].
    rewrite IH. reflexivity.
  - destruct (is_RequestException e); cbn; [|reflexivity].
    destruct (attempt <? max_retries - 1); cbn; [|reflexivity].
    rewrite IH. reflexivity.
Qed.

Lemma get_page_keeps_data (url : str) (max_retries : Z) (st : Imdb.state) :
  Imdb.data (snd (Imdb.get_page session_get url max_retries st)) = Imdb.data st.
Proof. apply get_page_loop_keeps_data. Qed.

(** [extract_box_office_data] gives a record only for a usable page, and
    the record carries the title it was given. *)
Lemma extract_box_office_data_some (movie_url movie_title : str)
    (st st' : Imdb.state) (d : dict) :
  Imdb.extract_box_office_data todecimal session_get movie_url movie_title st
    = (Ret (Some d), st') ->
  page_usable session_get movie_url
    (snd (Imdb.log Imdb.INFO (Imdb.ExtractingDataFor movie_title) st)) /\
  dict_get d title_key = Some (VStr movie_title) /\
  d <> [].
Proof.
  unfold Imdb.extract_box_office_data, page_usable.
  unfold bind at 1. cbn [Imdb.log Imdb.emit snd].
  set (st0 := {| Imdb.requests := _; Imdb.events := _; Imdb.data := _ |}).
  unfold bind at 1.
  destruct (Imdb.get_page session_get movie_url Imdb.default_max_retries st0)
    as [[[resp|]|e] st1]; try discriminate.
  cbn [Imdb.not_response].
  destruct (Imdb.ok resp) eqn:Hok; cbn [negb]; [|discriminate].
  destruct (Imdb.box_office_summary (Imdb.content resp)) as [box|] eqn:Hbox;
    [|discriminate].
  unfold bind at 1.
  match goal with |- context [Imdb.sections_loop _ _ _ ?d0 _] =>
    destruct (sections_loop_keeps box title_key Imdb.sections d0 st1)
      as (d' & st2 & Hrun & Hget & _ & Hne)
  end.
  { repeat constructor. }
  rewrite Hrun. intros H. injection H as -> _.
  split; [exists resp, st1, box; auto|].
  split; [rewrite Hget; reflexivity | apply Hne; discriminate].
Qed.

Lemma extract_box_office_data_keeps_data (movie_url movie_title : str)
    (st : Imdb.state) :
  Imdb.data
    (snd (Imdb.extract_box_office_data todecimal session_get movie_url
            movie_title st)) = Imdb.data st.
Proof.
  unfold Imdb.extract_box_office_data.
  unfold bind at 1. cbn [Imdb.log Imdb.emit].
  set (st0 := {| Imdb.requests := _; Imdb.events := _; Imdb.data := _ |}).
  change (Imdb.data st) with (Imdb.data st0).
  rewrite <- (get_page_keeps_data movie_url Imdb.default_max_retries st0).
  unfold bind at 1.
  destruct (Imdb.get_page session_get movie_url Imdb.default_max_retries st0)
    as [[[resp|]|e] st1]; try reflexivity.
  cbn [Imdb.not_response snd].
  destruct (Imdb.ok resp); cbn [negb]; [|reflexivity].
  destruct (Imdb.box_office_summary (Imdb.content resp)) as [box|]; [|reflexivity].
  unfold bind at 1.
  match goal with |- context [Imdb.sections_loop _ _ _ ?d0 _] =>
    destruct (sections_loop_keeps box title_key Imdb.sections d0 st1)
      as (d' & st2 & Hrun & _ & Hdata & _)
  end.
  { repeat constructor. }
  rewrite Hrun. exact Hdata.
Qed.

(** One turn of the loop of [scrape_year], by what the extraction does. *)
Lemma scrape_year_loop_cons (year : Z) (movie_title movie_url : str)
    (rest : list (str * str)) (year_data : list dict) (st : Imdb.state) :
  Imdb.scrape_year_loop todecimal session_get year
    ((movie_title, movie_url) :: rest) year_data st =
  match Imdb.extract_box_office_data todecimal session_get movie_url
          movie_title st with
  | (Ret (Some (kv :: d)), st1) =>
      let d' := dict_set (kv :: d) (lit "year") (VInt year) in
      Imdb.scrape_year_loop todecimal session_get year rest (year_data ++ [d'])
        {| Imdb.requests := Imdb.requests st1;
           Imdb.events := Imdb.events st1 ++ [Imdb.Sleep 1];
           Imdb.data := Imdb.data st1 ++ [d'] |}
  | (Ret _, st1) =>
      Imdb.scrape_year_loop todecimal session_get year rest year_data
        {| Imdb.requests := Imdb.requests st1;
           Imdb.events := Imdb.events st1 ++ [Imdb.Sleep 1];
           Imdb.data := Imdb.data st1 |}
  | (Raise e, st1) =>
      if is_Exception e then
        Imdb.scrape_year_loop todecimal session_get year rest year_data
          {| Imdb.requests := Imdb.requests st1;
             Imdb.events := Imdb.events st1 ++
               [Imdb.Log Imdb.ERROR (Imdb.ErrorProcessing movie_title e)];
             Imdb.data := Imdb.data st1 |}
      else (Raise e, st1)
  end.
Proof.
  cbn [Imdb.scrape_year_loop].
  unfold bind at 1, try_except, bind at 1.
  destruct (Imdb.extract_box_office_data todecimal session_get movie_url
              movie_title st) as [[[[|kv d]|]|e] st1]; try reflexivity.
  destruct (is_Exception e); reflexivity.
Qed.

Lemma movie_links_loop_keeps_data :
  forall (links : list Imdb.Anchor) (movie_links : list (str * str))
         (st : Imdb.state),
    Imdb.data (snd (Imdb.movie_links_loop urljoin links movie_links st))
      = Imdb.data st.
Proof.
  induction links as [|link rest IH]; intros movie_links st; [reflexivity|].
  cbn [Imdb.movie_links_loop].
  destruct (Imdb.href link) as [[|c h]|]; try apply IH.
  destruct (contains Imdb.releasegroup (c :: h)); [|apply IH].
  unfold bind. cbn [Imdb.log Imdb.emit]. rewrite IH. reflexivity.
Qed.

Lemma extract_movie_links_keeps_data (year_url : str) (st : Imdb.state) :
  Imdb.data (snd (Imdb.extract_movie_links session_get urljoin year_url st))
    = Imdb.data st.
Proof.
  unfold Imdb.extract_movie_links.
  unfold bind at 1. cbn [Imdb.log Imdb.emit].
  set (st0 := {| Imdb.requests := _; Imdb.events := _; Imdb.data := _ |}).
  change (Imdb.data st) with (Imdb.data st0).
  rewrite <- (get_page_keeps_data year_url Imdb.default_max_retries st0).
  unfold bind at 1.
  destruct (Imdb.get_page session_get year_url Imdb.default_max_retries st0)
    as [[[resp|]|e] st1]; try reflexivity.
  cbn [Imdb.not_response snd].
  destruct (Imdb.ok resp); cbn [negb]; [|reflexivity].
  apply movie_links_loop_keeps_data.
Qed.

Lemma scrape_year_unfold (year : Z) (st : Imdb.state) :
  Imdb.scrape_year todecimal session_get urljoin year st =
  match Imdb.extract_movie_links session_get urljoin (Imdb.year_url_of year) st with
  | (Ret movie_links, st1) =>
      match Imdb.scrape_year_loop todecimal session_get year movie_links [] st1 with
      | (Ret year_data, st2) =>
          (Ret year_data,
           {| Imdb.requests := Imdb.requests st2;
              Imdb.events := Imdb.events st2 ++
                [Imdb.Log Imdb.INFO
                   (Imdb.CompletedYear year (Z.of_nat (List.length year_data)))];
              Imdb.data := Imdb.data st2 |})
      | (Raise e, st2) => (Raise e, st2)
      end
  | (Raise e, st1) => (Raise e, st1)
  end.
Proof.
  unfold Imdb.scrape_year. unfold bind at 1.
  destruct (Imdb.extract_movie_links _ _ _ st) as [[movie_links|e] st1];
    [|reflexivity].
  unfold bind at 1.
  destruct (Imdb.scrape_year_loop _ _ _ _ _ st1) as [[year_data|e] st2];
    reflexivity.
Qed.

End ImdbRecords.

(** ** Which requests of a run give a record *)




Section ImdbFetches.

Variable todecimal : N -> option N.
Variable session_get : nat -> str -> result Imdb.Response.
Variable urljoin : str -> str -> str.








(** A page that was fetched is usable for [get_page] at the request that
    fetched it. *)
Lemma fetched_page_usable (st : Imdb.state) (new : list Imdb.event)
    (movie_url : str) :
  fetched session_get st new movie_url ->
  exists st1, page_usable session_get movie_url st1.
Proof.
  intros (k & resp & box & _ & Hget & Hok & Hbox).
  exists {| Imdb.requests := Imdb.requests st + k;
            Imdb.events := []; Imdb.data := [] |}.
  exists resp. eexists. exists box. split; [|auto].
  unfold Imdb.get_page, Imdb.default_max_retries.
  change (range 3) with [0; 1; 2]. cbn [Imdb.get_page_loop].
  unfold bind at 1, try_except, bind at 1, Imdb.get, Imdb.raise_for_status.
  cbn [Imdb.requests]. rewrite Hget, Hok. reflexivity.
Qed.

End ImdbFetches.

(** ** Which rows give a record: the salary scraper *)

Section SalaryRecords.

Variable todecimal : N -> option N.
Variable chrome : nat -> Salary.browser.
Variable format : str -> str -> result str.





(** One turn of the loop of [scrape_multiple_seasons], by what the fetch
    and the cleaning do. *)
Lemma seasons_loop_cons (base_url season : str) (rest : list str)
    (all_data : list dict) (st : Salary.state) :
  Salary.seasons_loop todecimal chrome format base_url (season :: rest)
    all_data st =
  match format base_url season with
  | Raise e => (Raise e, say (Salary.ScrapingSeason season) st)
  | Ret season_url =>
      let st0 := say (Salary.Url season_url)
                   (say (Salary.ScrapingSeason season) st) in
      let failed e st1 :=
        if is_Exception e then
          Salary.seasons_loop todecimal chrome format base_url rest all_data
            (say (Salary.ErrorScrapingSeason season e) st1)
        else (Raise e, st1) in
      match Salary.scrape_all_columns chrome season_url st0 with
      | (Ret data, st1) =>
          match Salary.clean_data_money_columns todecimal data st1 with
          | (Ret cleaned, st2) =>
              Salary.seasons_loop todecimal chrome format base_url rest
                (all_data ++ with_season season cleaned)
                (nap 2 (say (Salary.SuccessfullyScraped
                               (Z.of_nat (List.length (with_season season cleaned)))
                               season) st2))
          | (Raise e, st2) => failed e st2
          end
      | (Raise e, st1) => failed e st1
      end
  end.
Proof.
  cbn [Salary.seasons_loop].
  unfold bind at 1. cbn [Salary.print Salary.emit].
  unfold bind at 1, lift.
  destruct (format base_url season) as [season_url|e]; [|reflexivity].
  unfold bind at 1. cbn [Salary.print Salary.emit Salary.sessions Salary.events].
  unfold bind at 1, try_except, bind at 1.
  fold (say (Salary.ScrapingSeason season) st).
  fold (say (Salary.Url season_url) (say (Salary.ScrapingSeason season) st)).
  destruct (Salary.scrape_all_columns chrome season_url _) as [[data|e] st1].
  - unfold bind at 1.
    destruct (Salary.clean_data_money_columns todecimal data st1)
      as [[cleaned|e] st2].
    + reflexivity.
    + cbv zeta. destruct (is_Exception e); reflexivity.
  - cbv zeta. destruct (is_Exception e); reflexivity.
Qed.


End SalaryRecords.

(** ** Which sessions of a run give a record *)





Section SalarySessions.

Variable todecimal : N -> option N.
Variable chrome : nat -> Salary.browser.
Variable format : str -> str -> result str.




End SalarySessions.

(** ** Which pages and rows give a record *)




(** ** A unit of work that raises *)

Example scrape_year_second_movie_breaks :
  let run := Imdb.scrape_year ascii_digits_only second_movie_breaks join_urls
               2000 fresh_scraper in
  fst run =
    Ret [ sample_record (lit "Alpha") (lit "https://pro.imdb.com/releasegroup/gr1/") 2000;
          sample_record (lit "Gamma") (lit "https://pro.imdb.com/releasegroup/gr3/") 2000 ] /\
  Imdb.logged (Imdb.events (snd run)) =
    [ (Imdb.INFO, Imdb.ScrapingYearPage (lit "https://pro.imdb.com/boxoffice/year/world/2000/"));
      (Imdb.INFO, Imdb.FoundMovie (lit "Alpha"));
      (Imdb.INFO, Imdb.FoundMovie (lit "Beta"));
      (Imdb.INFO, Imdb.FoundMovie (lit "Gamma"));
      (Imdb.INFO, Imdb.ExtractingDataFor (lit "Alpha"));
      (Imdb.INFO, Imdb.Metric (lit "gross_world") (lit "$1,000"));
      (Imdb.INFO, Imdb.ExtractingDataFor (lit "Beta"));
      (Imdb.ERROR, Imdb.ErrorProcessing (lit "Beta") (OtherException 0));
      (Imdb.INFO, Imdb.ExtractingDataFor (lit "Gamma"));
      (Imdb.INFO, Imdb.Metric (lit "gross_world") (lit "$1,000"));
      (Imdb.INFO, Imdb.CompletedYear 2000 2) ].
Proof. split; vm_compute; reflexivity. Qed.

Example scrape_seasons_second_session_breaks :
  let run := Salary.scrape_multiple_seasons ascii_digits_only
               second_session_breaks format_sample (lit "p/")
               [lit "2013-2014"; lit "2014-2015"; lit "2015-2016"]
               no_session_yet in
  fst run = Ret [ cleaned_record (lit "Arsenal") (lit "2013-2014");
                  cleaned_record (lit "Arsenal") (lit "2015-2016") ] /\
  Salary.printed (Salary.events (snd run)) =
    [ Salary.ScrapingSeason (lit "2013-2014");
      Salary.Url (lit "p/2013-2014/");
      Salary.SuccessfullyScraped 1 (lit "2013-2014");
      Salary.ScrapingSeason (lit "2014-2015");
      Salary.Url (lit "p/2014-2015/");
      Salary.ErrorScrapingSeason (lit "2014-2015") WebDriverException;
      Salary.ScrapingSeason (lit "2015-2016");
      Salary.Url (lit "p/2015-2016/");
      Salary.SuccessfullyScraped 1 (lit "2015-2016") ].
Proof. split; vm_compute; reflexivity. Qed.

(** C4, as stated, fails in its last clause: with three movies of which
    the second raises an unexpected error, [scrape_year] returns the
    records of the first and the third, and the only count it reports is
    2, the records scraped: neither 3 units processed nor 1 failure. *)
Lemma run_reports_records_scraped_only :
  let run := Imdb.scrape_year ascii_digits_only second_movie_breaks join_urls
               2000 fresh_scraper in
  fst run =
    Ret [ sample_record (lit "Alpha") (lit "https://pro.imdb.com/releasegroup/gr1/") 2000;
          sample_record (lit "Gamma") (lit "https://pro.imdb.com/releasegroup/gr3/") 2000 ] /\
  Imdb.reported_counts (Imdb.events (snd run)) = [2] /\
  ~ Imdb.reports_units_and_failures (Imdb.events (snd run)) 3 1.
Proof.
  split; [vm_compute; reflexivity|].
  split; [vm_compute; reflexivity|].
  unfold Imdb.reports_units_and_failures.
  replace (Imdb.reported_counts _) with [2] by (vm_compute; reflexivity).
  intros [[H|[]] _]. discriminate.
Qed.

(** C4, amended. With a work list of three units of which the second
    raises an unexpected error while the first and the third give records,
    the error is caught and logged at the unit's boundary, the loop goes on
    with the third unit, and the record set holds the records of the first
    and the third only. No count of units or failures is kept:
    [scrape_year] closes with the number of records scraped, 2, and
    [scrape_multiple_seasons] prints one line for each season. *)
Theorem failing_unit_is_skipped :
  forall (todecimal : N -> option N),
    (forall (session_get : nat -> str -> result Imdb.Response)
            (urljoin : str -> str -> str) (year : Z)
            (t1 u1 t2 u2 t3 u3 : str) (d1 d3 : dict) (e : exn)
            (st0 st st1 st2 st3 : Imdb.state),
       Imdb.extract_movie_links session_get urljoin (Imdb.year_url_of year) st0
         = (Ret [(t1, u1); (t2, u2); (t3, u3)], st) ->
       Imdb.extract_box_office_data todecimal session_get u1 t1 st
         = (Ret (Some d1), st1) ->
       let d1' := dict_set d1 (lit "year") (VInt year) in
       Imdb.extract_box_office_data todecimal session_get u2 t2
         {| Imdb.requests := Imdb.requests st1;
            Imdb.events := Imdb.events st1 ++ [Imdb.Sleep 1];
            Imdb.data := Imdb.data st1 ++ [d1'] |}
         = (Raise e, st2) ->
       is_Exception e = true ->
       Imdb.extract_box_office_data todecimal session_get u3 t3
         {| Imdb.requests := Imdb.requests st2;
            Imdb.events := Imdb.events st2 ++
              [Imdb.Log Imdb.ERROR (Imdb.ErrorProcessing t2 e)];
            Imdb.data := Imdb.data st2 |}
         = (Ret (Some d3), st3) ->
       let d3' := dict_set d3 (lit "year") (VInt year) in
       Imdb.scrape_year todecimal session_get urljoin year st0 =
         (Ret [d1'; d3'],
          {| Imdb.requests := Imdb.requests st3;
             Imdb.events := Imdb.events st3 ++
               [Imdb.Sleep 1; Imdb.Log Imdb.INFO (Imdb.CompletedYear year 2)];
             Imdb.data := Imdb.data st3 ++ [d3'] |})) /\
    (forall (chrome : nat -> Salary.browser) (format : str -> str -> result str)
            (base_url s1 s2 s3 u1 u2 u3 : str) (data1 c1 data3 c3 : list dict)
            (e : exn) (st st1 st1' st2 st3 st3' : Salary.state),
       format base_url s1 = Ret u1 ->
       format base_url s2 = Ret u2 ->
       format base_url s3 = Ret u3 ->
       Salary.scrape_all_columns chrome u1
         (say (Salary.Url u1) (say (Salary.ScrapingSeason s1) st))
         = (Ret data1, st1) ->
       Salary.clean_data_money_columns todecimal data1 st1 = (Ret c1, st1') ->
       let after1 :=
         nap 2 (say (Salary.SuccessfullyScraped
                       (Z.of_nat (List.length (with_season s1 c1))) s1) st1') in
       Salary.scrape_all_columns chrome u2
         (say (Salary.Url u2) (say (Salary.ScrapingSeason s2) after1))
         = (Raise e, st2) ->
       is_Exception e = true ->
       let after2 := say (Salary.ErrorScrapingSeason s2 e) st2 in
       Salary.scrape_all_columns chrome u3
         (say (Salary.Url u3) (say (Salary.ScrapingSeason s3) after2))
         = (Ret data3, st3) ->
       Salary.clean_data_money_columns todecimal data3 st3 = (Ret c3, st3') ->
       Salary.scrape_multiple_seasons todecimal chrome format base_url
         [s1; s2; s3] st =
         (Ret (with_season s1 c1 ++ with_season s3 c3),
          nap 2 (say (Salary.SuccessfullyScraped
                        (Z.of_nat (List.length (with_season s3 c3))) s3) st3'))).
Proof.
  intros todecimal. split.
  - intros session_get urljoin year t1 u1 t2 u2 t3 u3 d1 d3 e st0 st st1 st2 st3
      Hlinks H1 d1' H2 He H3 d3'.
    destruct (extract_box_office_data_some _ _ _ _ _ _ _ H1) as (_ & _ & Hd1).
    destruct (extract_box_office_data_some _ _ _ _ _ _ _ H3) as (_ & _ & Hd3).
    rewrite scrape_year_unfold, Hlinks.
    rewrite scrape_year_loop_cons, H1.
    destruct d1 as [|kv1 d1]; [contradiction|]. cbv zeta. fold d1'.
    rewrite scrape_year_loop_cons, H2, He.
    rewrite scrape_year_loop_cons, H3.
    destruct d3 as [|kv3 d3]; [contradiction|]. cbv zeta. fold d3'.
    cbn [Imdb.scrape_year_loop ret app List.length Imdb.requests Imdb.events
         Imdb.data].
    rewrite <- app_assoc. reflexivity.
  - intros chrome format base_url s1 s2 s3 u1 u2 u3 data1 c1 data3 c3 e
      st st1 st1' st2 st3 st3' F1 F2 F3 H1 C1 after1 H2 He after2 H3 C3.
    unfold Salary.scrape_multiple_seasons.
    rewrite seasons_loop_cons, F1. cbv zeta. rewrite H1, C1.
    rewrite seasons_loop_cons, F2. cbv zeta. fold after1. rewrite H2, He.
    rewrite seasons_loop_cons, F3. cbv zeta. fold after2. rewrite H3, C3.
    reflexivity.
Qed.

Lemma failing_unit_is_skipped_witness :
  fst (Imdb.scrape_year ascii_digits_only second_movie_breaks join_urls 2000
         fresh_scraper) =
    Ret [ sample_record (lit "Alpha") (lit "https://pro.imdb.com/releasegroup/gr1/") 2000;
          sample_record (lit "Gamma") (lit "https://pro.imdb.com/releasegroup/gr3/") 2000 ] /\
  fst (Salary.scrape_multiple_seasons ascii_digits_only second_session_breaks
         format_sample (lit "p/")
         [lit "2013-2014"; lit "2014-2015"; lit "2015-2016"] no_session_yet) =
    Ret [ cleaned_record (lit "Arsenal") (lit "2013-2014");
          cleaned_record (lit "Arsenal") (lit "2015-2016") ].
Proof.
  destruct (failing_unit_is_skipped ascii_digits_only) as [Himdb Hsalary].
  split.
  - eapply eq_trans.
    + apply (f_equal fst).
      eapply (Himdb second_movie_breaks join_urls 2000).
      * vm_compute. reflexivity.
      * vm_compute. reflexivity.
      * vm_compute. reflexivity.
      * reflexivity.
      * vm_compute. reflexivity.
    + vm_compute. reflexivity.
  - eapply eq_trans.
    + apply (f_equal fst).
      eapply (Hsalary second_session_breaks format_sample).
      * reflexivity.
      * reflexivity.
      * reflexivity.
      * vm_compute. reflexivity.
      * vm_compute. reflexivity.
      * vm_compute. reflexivity.
      * reflexivity.
      * vm_compute. reflexivity.
      * vm_compute. reflexivity.
    + vm_compute. reflexivity.
Defined.

(** ** Frames *)

Lemma cell_at_set_at_same (i : nat) (v : Merge.cell) :
  forall row, Merge.cell_at i (Merge.set_at i v row) = v.
Proof.
  unfold Merge.cell_at. induction i as [|i IH]; intros [|c row]; cbn; auto.
Qed.

Lemma cell_at_set_at_other (i j : nat) (v : Merge.cell) :
  j <> i ->
  forall row, Merge.cell_at j (Merge.set_at i v row) = Merge.cell_at j row.
Proof.
  unfold Merge.cell_at. revert j.
  induction i as [|i IH]; intros [|j] Hne [|c row]; cbn; try congruence.
  - destruct j; reflexivity.
  - rewrite IH by congruence. destruct j; reflexivity.
  - apply IH. congruence.
Qed.

Lemma zip_rows_combine (f : Merge.cell -> list Merge.cell -> list Merge.cell) :
  forall values rs,
    Merge.zip_rows f values rs = map (fun p => f (fst p) (snd p)) (combine values rs).
Proof.
  induction values as [|v values IH]; intros [|r rs]; cbn; try reflexivity.
  rewrite IH. reflexivity.
Qed.

Lemma zip_rows_length f values rs :
  List.length values = List.length rs ->
  List.length (Merge.zip_rows f values rs) = List.length rs.
Proof.
  intros H. rewrite zip_rows_combine, length_map, length_combine, H.
  apply Nat.min_id.
Qed.

(** The column written by [zip_rows (set_at i)] reads back. *)
Lemma zip_rows_set_at_column (i : nat) :
  forall values rs,
    List.length values = List.length rs ->
    map (Merge.cell_at i) (Merge.zip_rows (Merge.set_at i) values rs) = values.
Proof.
  induction values as [|v values IH]; intros [|r rs] H; cbn; try discriminate.
  - reflexivity.
  - rewrite cell_at_set_at_same, IH by (cbn in H; lia). reflexivity.
Qed.

(** The other columns are left as they were, row by row. *)
Lemma zip_rows_set_at_frame (i : nat) :
  forall values rs,
    List.length values = List.length rs ->
    Forall2 (fun row row' =>
               forall j, j <> i -> Merge.cell_at j row' = Merge.cell_at j row)
            rs (Merge.zip_rows (Merge.set_at i) values rs).
Proof.
  induction values as [|v values IH]; intros [|r rs] H; cbn; try discriminate.
  - constructor.
  - constructor.
    + intros j Hj. apply cell_at_set_at_other, Hj.
    + apply IH. cbn in H. lia.
Qed.

Lemma setitem_existing (df : Merge.DataFrame) (label : str) (i : nat)
    (values : list Merge.cell) :
  Merge.index_of label (Merge.columns df) = Some i ->
  List.length values = List.length (Merge.rows df) ->
  Merge.setitem df label values =
    Ret {| Merge.columns := Merge.columns df;
           Merge.rows := Merge.zip_rows (Merge.set_at i) values (Merge.rows df) |}.
Proof.
  intros Hi Hlen. unfold Merge.setitem.
  rewrite Hlen, Nat.eqb_refl, Hi. reflexivity.
Qed.

(** ** The date normalizer *)

Section ParseDates.

Variable to_datetime_format : str -> Merge.cell -> option Merge.Timestamp.
Variable to_datetime_dayfirst : list Merge.cell -> Merge.cell -> option Merge.Timestamp.

Variable df : Merge.DataFrame.
Variable i : nat.
Hypothesis Date_at_i : Merge.index_of Merge.Date (Merge.columns df) = Some i.

Let dates : list Merge.cell := map (Merge.cell_at i) (Merge.rows df).

Lemma getitem_Date : Merge.getitem df Merge.Date = Ret dates.
Proof. unfold Merge.getitem. rewrite Date_at_i. reflexivity. Qed.

Lemma dates_length : List.length dates = List.length (Merge.rows df).
Proof. apply length_map. Qed.

Lemma parsed_with_length (fmt : str) :
  List.length (parsed_with to_datetime_format fmt dates) = List.length (Merge.rows df).
Proof. unfold parsed_with. rewrite length_map. apply dates_length. Qed.

Lemma formats_loop_first (before after : list str) (fmt : str) :
  (forall f, In f before -> accepts to_datetime_format f dates (Merge.len df) = false) ->
  accepts to_datetime_format fmt dates (Merge.len df) = true ->
  Merge.formats_loop to_datetime_format df dates (before ++ fmt :: after)
    = Ret (Some (with_dates df i (parsed_with to_datetime_format fmt dates))).
Proof.
  intros Hbefore Hfmt.
  induction before as [|f before IH]; cbn [app Merge.formats_loop].
  - fold (parsed_with to_datetime_format fmt dates). fold (successes to_datetime_format fmt dates).
    fold (accepts to_datetime_format fmt dates (Merge.len df)). rewrite Hfmt.
    rewrite (setitem_existing df Merge.Date i) by
      (try exact Date_at_i; apply parsed_with_length).
    reflexivity.
  - fold (parsed_with to_datetime_format f dates). fold (successes to_datetime_format f dates).
    fold (accepts to_datetime_format f dates (Merge.len df)).
    rewrite (Hbefore f) by (left; reflexivity).
    apply IH. intros g Hg. apply Hbefore. right. exact Hg.
Qed.

(** The loop stops at the first pattern it accepts to_datetime_format, or finds none. *)
Lemma formats_loop_cases (fmts : list str) :
  Merge.formats_loop to_datetime_format df dates fmts = Ret None \/
  exists fmt,
    In fmt fmts /\
    Merge.formats_loop to_datetime_format df dates fmts
      = Ret (Some (with_dates df i (parsed_with to_datetime_format fmt dates))).
Proof.
  induction fmts as [|f fmts IH]; [left; reflexivity|].
  cbn [Merge.formats_loop].
  fold (parsed_with to_datetime_format f dates). fold (successes to_datetime_format f dates).
  destruct ((0 <? successes to_datetime_format f dates) && _).
  - right. exists f. split; [left; reflexivity|].
    rewrite (setitem_existing df Merge.Date i) by
      (try exact Date_at_i; apply parsed_with_length).
    reflexivity.
  - destruct IH as [IH|(fmt & Hin & IH)]; [left; exact IH|].
    right. exists fmt. split; [right; exact Hin | exact IH].
Qed.

(** What [parse_date_column] returns: the frame with a new [Date] column
    of timestamps and [NaT]. *)
Lemma parse_date_column_returns (st : Merge.state) :
  exists values st',
    Merge.parse_date_column to_datetime_format to_datetime_dayfirst df st
      = (Ret (with_dates df i values), st') /\
    List.length values = List.length (Merge.rows df) /\
    Forall (fun c => c = Merge.NaT \/ exists t, c = Merge.Datetime t) values /\
    (forall fmt,
       Merge.formats_loop to_datetime_format df dates Merge.formats_to_try
         = Ret (Some (with_dates df i (parsed_with to_datetime_format fmt dates))) ->
       with_dates df i values = with_dates df i (parsed_with to_datetime_format fmt dates) /\ st' = st).
Proof.
  assert (Hstamps : forall (f : Merge.cell -> option Merge.Timestamp) l,
             Forall (fun c => c = Merge.NaT \/ exists t, c = Merge.Datetime t)
                    (map (fun x => Merge.stamp (f x)) l)).
  { intros f l. apply Forall_forall. intros c Hc.
    apply in_map_iff in Hc as (x & <- & _).
    destruct (f x) as [t|]; cbn; eauto. }
  unfold Merge.parse_date_column. unfold bind at 1, lift.
  rewrite getitem_Date. fold dates. unfold bind at 1.
  destruct (formats_loop_cases Merge.formats_to_try) as [Hnone|(fmt & _ & Hsome)].
  - rewrite Hnone. unfold bind at 1.
    set (parsed := map (fun x => Merge.stamp (to_datetime_dayfirst dates x)) dates).
    assert (Hlen : List.length parsed = List.length (Merge.rows df)).
    { unfold parsed. rewrite length_map. apply dates_length. }
    rewrite (setitem_existing df Merge.Date i parsed Date_at_i Hlen).
    fold (with_dates df i parsed).
    exists parsed.
    destruct (forallb Merge.isna parsed); eexists;
      (split; [reflexivity|]); (split; [exact Hlen|]);
      (split; [apply Hstamps|]); intros fmt' H; discriminate.
  - rewrite Hsome. exists (parsed_with to_datetime_format fmt dates), st.
    split; [reflexivity|]. split; [apply parsed_with_length|].
    split; [apply Hstamps|].
    intros fmt' H. split; [congruence | reflexivity].
Qed.

End ParseDates.

(** C9. [parse_date_column] marks and never drops: on a table with a
    [Date] column it returns a table with the same columns and the same
    number of rows, in which every cell outside the [Date] column is what it
    was and every [Date] cell is a timestamp or the missing value [NaT]. *)
Theorem parse_date_column_marks_only :
  forall (to_datetime_format : str -> Merge.cell -> option Merge.Timestamp)
         (to_datetime_dayfirst : list Merge.cell -> Merge.cell -> option Merge.Timestamp)
         (df : Merge.DataFrame) (i : nat) (st : Merge.state),
    Merge.index_of Merge.Date (Merge.columns df) = Some i ->
    exists df' st',
      Merge.parse_date_column to_datetime_format to_datetime_dayfirst df st
        = (Ret df', st') /\
      Merge.columns df' = Merge.columns df /\
      Merge.len df' = Merge.len df /\
      Forall2 (fun row row' =>
                 forall j, j <> i -> Merge.cell_at j row' = Merge.cell_at j row)
              (Merge.rows df) (Merge.rows df') /\
      Forall (fun row' =>
                Merge.cell_at i row' = Merge.NaT \/
                exists t, Merge.cell_at i row' = Merge.Datetime t)
             (Merge.rows df').
Proof.
  intros tdf tdd df i st Hi.
  destruct (parse_date_column_returns tdf tdd df i Hi st)
    as (values & st' & Hrun & Hlen & Hstamps & _).
  exists (with_dates df i values), st'.
  split; [exact Hrun|]. split; [reflexivity|].
  split; [unfold Merge.len; cbn; rewrite zip_rows_length by exact Hlen; reflexivity|].
  split; [apply zip_rows_set_at_frame, Hlen|].
  apply (proj1 (Forall_map (Merge.cell_at i)
                  (fun c => c = Merge.NaT \/ exists t, c = Merge.Datetime t) _)).
  cbn [with_dates Merge.rows].
  rewrite zip_rows_set_at_column by exact Hlen. exact Hstamps.
Qed.

(** C7. On a non-empty column, [parse_date_column] commits to the first
    pattern of its list that parses at least 90% of the entries: the [Date]
    column becomes what that pattern reads, with [NaT] for every entry it
    does not parse. In particular, when ["%d/%m/%Y"] parses 95% of the
    entries it is the pattern chosen, and the other 5% become [NaT]. *)
Theorem parse_date_column_first_pattern_over_90 :
  forall (to_datetime_format : str -> Merge.cell -> option Merge.Timestamp)
         (to_datetime_dayfirst : list Merge.cell -> Merge.cell -> option Merge.Timestamp)
         (df : Merge.DataFrame) (i : nat) (st : Merge.state),
    Merge.index_of Merge.Date (Merge.columns df) = Some i ->
    0 < Merge.len df ->
    let dates := map (Merge.cell_at i) (Merge.rows df) in
    let read fmt :=
      map (fun x => match to_datetime_format fmt x with
                    | Some t => Merge.Datetime t
                    | None => Merge.NaT
                    end) dates in
    (forall before fmt after,
       Merge.formats_to_try = before ++ fmt :: after ->
       (forall f, In f before ->
          ~ 9 * Merge.len df <= 10 * successes to_datetime_format f dates) ->
       9 * Merge.len df <= 10 * successes to_datetime_format fmt dates ->
       exists df',
         Merge.parse_date_column to_datetime_format to_datetime_dayfirst df st
           = (Ret df', st) /\
         Merge.getitem df' Merge.Date = Ret (read fmt)) /\
    (100 * successes to_datetime_format (lit "%d/%m/%Y") dates
       = 95 * Merge.len df ->
     exists df',
       Merge.parse_date_column to_datetime_format to_datetime_dayfirst df st
         = (Ret df', st) /\
       Merge.getitem df' Merge.Date = Ret (read (lit "%d/%m/%Y"))).
Proof.
  intros tdf tdd df i st Hi Hn dates read.
  assert (Hfirst : forall before fmt after,
    Merge.formats_to_try = before ++ fmt :: after ->
    (forall f, In f before -> ~ 9 * Merge.len df <= 10 * successes tdf f dates) ->
    9 * Merge.len df <= 10 * successes tdf fmt dates ->
    exists df',
      Merge.parse_date_column tdf tdd df st = (Ret df', st) /\
      Merge.getitem df' Merge.Date = Ret (read fmt)).
  { intros before fmt after Hsplit Hbefore Hfmt.
    destruct (parse_date_column_returns tdf tdd df i Hi st)
      as (values & st' & Hrun & Hlen & _ & Hsel).
    destruct (Hsel fmt) as [Hdf' ->].
    { rewrite Hsplit. apply formats_loop_first; [exact Hi | |].
      - intros f Hf. unfold accepts, Merge.at_least_90_percent.
        apply andb_false_intro2. apply Z.leb_gt.
        specialize (Hbefore f Hf). fold dates. lia.
      - unfold accepts, Merge.at_least_90_percent. fold dates.
        apply andb_true_intro. split; [apply Z.ltb_lt | apply Z.leb_le]; lia. }
    exists (with_dates df i values). split; [exact Hrun|].
    rewrite Hdf'. unfold Merge.getitem. cbn [with_dates Merge.columns Merge.rows].
    rewrite Hi. f_equal. apply zip_rows_set_at_column.
    apply parsed_with_length. }
  split; [exact Hfirst|].
  intros H95.
  apply (Hfirst [] (lit "%d/%m/%Y")
           [lit "%d/%m/%y"; lit "%Y-%m-%d"; lit "%d-%m-%Y"; lit "%d %b %Y"]).
  - reflexivity.
  - intros f [].
  - lia.
Qed.

(** ** Columns and concatenation *)

Lemma index_of_nth (label : str) :
  forall (cols : list str) (i : nat),
    Merge.index_of label cols = Some i ->
    (i < List.length cols)%nat /\ nth i cols [] = label.
Proof.
  induction cols as [|c cols IH]; intros i H; cbn in H; [discriminate|].
  destruct (str_eqb c label) eqn:Hc.
  - injection H as <-. apply str_eqb_eq in Hc. cbn. split; [lia | exact Hc].
  - destruct (Merge.index_of label cols) as [k|]; [|discriminate].
    injection H as <-. destruct (IH k eq_refl) as [Hlt Hnth].
    cbn. split; [lia | exact Hnth].
Qed.

Lemma index_of_In (label : str) (cols : list str) :
  In label cols -> exists i, Merge.index_of label cols = Some i.
Proof.
  induction cols as [|c cols IH]; intros Hin; [contradiction|].
  cbn. destruct (str_eqb c label) eqn:Hc; [eauto|].
  destruct Hin as [->|Hin]; [rewrite str_eqb_refl in Hc; discriminate|].
  destruct (IH Hin) as [i ->]. eauto.
Qed.

Lemma index_of_Some_In (label : str) (cols : list str) (i : nat) :
  Merge.index_of label cols = Some i -> In label cols.
Proof.
  intros H. destruct (index_of_nth label cols i H) as [Hlt <-].
  apply nth_In, Hlt.
Qed.

Lemma index_of_app_l (label : str) (cols more : list str) (i : nat) :
  Merge.index_of label cols = Some i ->
  Merge.index_of label (cols ++ more) = Some i.
Proof.
  revert i. induction cols as [|c cols IH]; intros i H; cbn in *; [discriminate|].
  destruct (str_eqb c label); [exact H|].
  destruct (Merge.index_of label cols) as [k|]; [|discriminate].
  rewrite (IH k eq_refl). exact H.
Qed.

Lemma index_of_app_new (label : str) (cols : list str) :
  Merge.index_of label cols = None ->
  Merge.index_of label (cols ++ [label]) = Some (List.length cols).
Proof.
  induction cols as [|c cols IH]; intros H; cbn in *.
  - rewrite str_eqb_refl. reflexivity.
  - destruct (str_eqb c label); [discriminate|].
    destruct (Merge.index_of label cols) as [k|]; [discriminate|].
    rewrite (IH eq_refl). reflexivity.
Qed.

Lemma In_new_labels (label : str) :
  forall (more cols : list str),
    In label more -> In label cols \/ In label (Merge.new_labels cols more).
Proof.
  induction more as [|c more IH]; intros cols Hin; [contradiction|].
  cbn [Merge.new_labels].
  destruct (existsb (str_eqb c) cols) eqn:Hc.
  - destruct Hin as [->|Hin]; [|apply IH, Hin].
    left. apply existsb_exists in Hc as (x & Hx & Heq).
    apply str_eqb_eq in Heq. subst x. exact Hx.
  - destruct Hin as [->|Hin]; [right; left; reflexivity|].
    destruct (IH (cols ++ [c]) Hin) as [H|H].
    + apply in_app_or in H as [H|[->|[]]]; [left; exact H | right; left; reflexivity].
    + right. right. exact H.
Qed.

Lemma In_union_columns_base (label : str) :
  forall (dfs : list Merge.DataFrame) (cols : list str),
    In label cols -> In label (Merge.union_columns cols dfs).
Proof.
  induction dfs as [|df dfs IH]; intros cols H; cbn; [exact H|].
  apply IH, in_or_app. left. exact H.
Qed.

Lemma In_union_columns (label : str) :
  forall (dfs : list Merge.DataFrame) (cols : list str) (df : Merge.DataFrame),
    In df dfs -> In label (Merge.columns df) ->
    In label (Merge.union_columns cols dfs).
Proof.
  induction dfs as [|df0 dfs IH]; intros cols df Hdf Hlabel; [contradiction|].
  cbn. destruct Hdf as [->|Hdf].
  - apply In_union_columns_base, in_or_app.
    destruct (In_new_labels label (Merge.columns df) cols Hlabel); auto.
  - eapply IH; eassumption.
Qed.

(** A cell of a row laid out on other columns is the cell under the same
    label, or [NaN] when the row had no such column. *)
Lemma cell_at_reindex (src cols : list str) (row : list Merge.cell)
    (label : str) (i : nat) :
  Merge.index_of label cols = Some i ->
  Merge.cell_at i (Merge.reindex src cols row) =
    match Merge.index_of label src with
    | Some k => Merge.cell_at k row
    | None => Merge.NaN
    end.
Proof.
  intros Hi. destruct (index_of_nth label cols i Hi) as [Hlt Hnth].
  unfold Merge.cell_at at 1, Merge.reindex.
  set (g := fun c => match Merge.index_of c src with
                     | Some k => Merge.cell_at k row
                     | None => Merge.NaN
                     end).
  transitivity (nth i (map g cols) (g [])).
  - apply nth_indep. rewrite length_map. exact Hlt.
  - rewrite map_nth, Hnth. reflexivity.
Qed.

Lemma reindex_length (src cols : list str) (row : list Merge.cell) :
  List.length (Merge.reindex src cols row) = List.length cols.
Proof. apply length_map. Qed.

Lemma concat_rows_length (dfs : list Merge.DataFrame) :
  Forall (fun row => List.length row = List.length (Merge.columns (Merge.concat dfs)))
         (Merge.rows (Merge.concat dfs)).
Proof.
  unfold Merge.concat. cbn [Merge.columns Merge.rows].
  apply Forall_forall. intros row Hrow.
  apply in_flat_map in Hrow as (df & _ & Hrow).
  apply in_map_iff in Hrow as (row0 & <- & _).
  apply reindex_length.
Qed.

(** ** Seasons *)

Lemma apply_season_of (series : list Merge.cell) :
  Forall is_datetime series ->
  Merge.apply Merge.season_of series = Ret (map season_label series).
Proof.
  induction 1 as [|c series [t ->] _ IH]; cbn; [reflexivity|].
  rewrite IH. reflexivity.
Qed.

Lemma zip_rows_map_self (f : Merge.cell -> list Merge.cell -> list Merge.cell)
    (g : list Merge.cell -> Merge.cell) (rs : list (list Merge.cell)) :
  Merge.zip_rows f (map g rs) rs = map (fun r => f (g r) r) rs.
Proof.
  induction rs as [|r rs IH]; cbn; [reflexivity|]. rewrite IH. reflexivity.
Qed.

(** Nothing is dropped from a column without missing dates. *)
Lemma filter_notna_all (i : nat) (rs : list (list Merge.cell)) :
  List.length (filter Merge.isna (map (Merge.cell_at i) rs)) = 0%nat ->
  filter (fun r => Merge.notna (Merge.cell_at i r)) rs = rs.
Proof.
  induction rs as [|r rs IH]; cbn [map filter]; [reflexivity|].
  unfold Merge.notna at 1.
  destruct (Merge.isna (Merge.cell_at i r)); cbn [negb List.length];
    [discriminate|].
  intros H. rewrite IH by exact H. reflexivity.
Qed.

(** What is left of a parsed column after the drop is dates only. *)
Lemma kept_dates_are_datetimes (i : nat) (rs : list (list Merge.cell)) :
  Forall (fun r => stampish (Merge.cell_at i r)) rs ->
  Forall (fun r => is_datetime (Merge.cell_at i r))
         (filter (fun r => Merge.notna (Merge.cell_at i r)) rs).
Proof.
  intros H. apply Forall_forall. intros r Hr.
  apply filter_In in Hr as [Hin Hnotna].
  rewrite Forall_forall in H. destruct (H r Hin) as [Hna|Ht]; [|exact Ht].
  unfold Merge.notna in Hnotna. rewrite Hna in Hnotna. discriminate.
Qed.

Lemma concat_has_Date (f : Merge.DataFrame) (fs : list Merge.DataFrame) :
  frame_ok f ->
  exists i, Merge.index_of Merge.Date (Merge.columns (Merge.concat (f :: fs))) = Some i.
Proof.
  intros (k & Hk & _). apply index_of_In.
  apply (In_union_columns Merge.Date (f :: fs) [] f); [left; reflexivity|].
  eapply index_of_Some_In, Hk.
Qed.

Lemma concat_dates_stampish (frames : list Merge.DataFrame) (i : nat) :
  Forall frame_ok frames ->
  Merge.index_of Merge.Date (Merge.columns (Merge.concat frames)) = Some i ->
  Forall (fun row => stampish (Merge.cell_at i row))
         (Merge.rows (Merge.concat frames)).
Proof.
  intros Hok Hi. apply Forall_forall. intros row Hrow.
  unfold Merge.concat in Hrow. cbn [Merge.rows] in Hrow.
  apply in_flat_map in Hrow as (f & Hf & Hrow).
  apply in_map_iff in Hrow as (row0 & <- & Hrow0).
  rewrite (cell_at_reindex _ _ _ Merge.Date i Hi).
  rewrite Forall_forall in Hok. destruct (Hok f Hf) as (k & Hk & Hcells).
  rewrite Hk. rewrite Forall_forall in Hcells. apply Hcells, Hrow0.
Qed.

(** Setting the [Season] column on a frame whose rows all have a date: the
    [Date] column stays where it is, and every row gets the label of its
    own date. *)
Lemma setitem_Season (cols : list str) (rs : list (list Merge.cell)) (i : nat) :
  Merge.index_of Merge.Date cols = Some i ->
  Forall (fun r => List.length r = List.length cols) rs ->
  Forall (fun r => is_datetime (Merge.cell_at i r)) rs ->
  exists labelled j,
    Merge.setitem {| Merge.columns := cols; Merge.rows := rs |} Merge.Season
      (map season_label (map (Merge.cell_at i) rs)) = Ret labelled /\
    Merge.index_of Merge.Date (Merge.columns labelled) = Some i /\
    Merge.index_of Merge.Season (Merge.columns labelled) = Some j /\
    List.length (Merge.rows labelled) = List.length rs /\
    Forall (fun r =>
              Merge.cell_at j r = season_label (Merge.cell_at i r) /\
              is_datetime (Merge.cell_at i r))
           (Merge.rows labelled).
Proof.
  intros Hi Hlen Hdates.
  destruct (index_of_nth _ _ _ Hi) as [Hlt HDate].
  unfold Merge.setitem. cbn [Merge.rows Merge.columns].
  rewrite !length_map, Nat.eqb_refl. cbn [negb].
  rewrite map_map.
  destruct (Merge.index_of Merge.Season cols) as [j|] eqn:Hj.
  - destruct (index_of_nth _ _ _ Hj) as [_ HSeason].
    assert (Hij : i <> j).
    { intros ->. rewrite HDate in HSeason. discriminate. }
    eexists. exists j. split; [reflexivity|]. cbn [Merge.columns Merge.rows].
    rewrite zip_rows_map_self.
    split; [exact Hi|]. split; [exact Hj|]. split; [apply length_map|].
    apply Forall_map. apply Forall_forall. intros r Hr.
    rewrite Forall_forall in Hdates.
    rewrite cell_at_set_at_same, cell_at_set_at_other by exact Hij.
    split; [reflexivity | apply Hdates, Hr].
  - eexists. exists (List.length cols). split; [reflexivity|].
    cbn [Merge.columns Merge.rows]. rewrite zip_rows_map_self.
    split; [apply index_of_app_l, Hi|].
    split; [apply index_of_app_new, Hj|]. split; [apply length_map|].
    apply Forall_map. apply Forall_forall. intros r Hr.
    rewrite Forall_forall in Hdates, Hlen.
    specialize (Hlen r Hr). unfold Merge.cell_at.
    rewrite !(app_nth1 r) with (n := i) by lia.
    rewrite <- Hlen, nth_middle.
    split; [reflexivity | apply Hdates, Hr].
Qed.

(** ** The rows of the merged table *)

Lemma set_at_length (i : nat) (v : Merge.cell) :
  forall row, (i < List.length row)%nat ->
    List.length (Merge.set_at i v row) = List.length row.
Proof.
  induction i as [|i IH]; intros [|c row] H; cbn in *; try lia.
  rewrite IH by lia. reflexivity.
Qed.

Lemma index_of_app_inv (label c : str) :
  label <> c ->
  forall (cols : list str) (q : nat),
    Merge.index_of label (cols ++ [c]) = Some q ->
    Merge.index_of label cols = Some q.
Proof.
  intros Hne. induction cols as [|a cols IH]; intros q H; cbn in H |- *.
  - destruct (str_eqb c label) eqn:Hc; [|discriminate].
    apply str_eqb_eq in Hc. congruence.
  - destruct (str_eqb a label); [exact H|].
    destruct (Merge.index_of label (cols ++ [c])) as [k|] eqn:Hk; [|discriminate].
    rewrite (IH k eq_refl). exact H.
Qed.

Lemma In_new_labels_inv (label : str) :
  forall (more cols : list str),
    In label (Merge.new_labels cols more) -> In label more.
Proof.
  induction more as [|c more IH]; intros cols H; cbn in H; [contradiction|].
  destruct (existsb (str_eqb c) cols).
  - right. eapply IH. exact H.
  - destruct H as [->|H]; [left; reflexivity|]. right. eapply IH. exact H.
Qed.

(** The concatenation has no column that none of the frames has. *)
Lemma In_union_columns_inv (label : str) :
  forall (dfs : list Merge.DataFrame) (cols : list str),
    In label (Merge.union_columns cols dfs) ->
    In label cols \/ exists df, In df dfs /\ In label (Merge.columns df).
Proof.
  induction dfs as [|df0 dfs IH]; intros cols H; cbn in H; [left; exact H|].
  destruct (IH _ H) as [H1|(df & Hdf & Hl)].
  - apply in_app_or in H1 as [H1|H1]; [left; exact H1|].
    right. exists df0. split; [left; reflexivity|].
    eapply In_new_labels_inv. exact H1.
  - right. exists df. split; [right; exact Hdf | exact Hl].
Qed.

Lemma Forall2_of_map {A B C : Type} (g : A -> B) (R : B -> C -> Prop) :
  forall (l : list A) (l' : list C),
    Forall2 R (map g l) l' -> Forall2 (fun x y => R (g x) y) l l'.
Proof.
  induction l as [|x l IH]; intros l' H; inversion H; subst; constructor; auto.
Qed.

Lemma zip_rows_Forall2 (f : Merge.cell -> list Merge.cell -> list Merge.cell)
    (P : list Merge.cell -> list Merge.cell -> Prop) :
  forall values rs,
    List.length values = List.length rs ->
    (forall v r, In r rs -> P r (f v r)) ->
    Forall2 P rs (Merge.zip_rows f values rs).
Proof.
  induction values as [|v values IH]; intros [|r rs] Hlen HP; cbn in *;
    try discriminate; constructor.
  - apply HP. left. reflexivity.
  - apply IH; [lia|]. intros v' r' Hr'. apply HP. right. exact Hr'.
Qed.

(** After the drop, the concatenation holds the dated rows of the frames,
    frame after frame and in the order they had, each laid out on the
    columns of the concatenation. *)
Lemma dropna_concat_rows (frames : list Merge.DataFrame) (i : nat) :
  Merge.index_of Merge.Date (Merge.columns (Merge.concat frames)) = Some i ->
  Merge.rows (Merge.dropna_at i (Merge.concat frames)) =
    map (fun src => Merge.reindex (fst src) (Merge.columns (Merge.concat frames))
                      (snd src))
        (flat_map sources frames).
Proof.
  unfold Merge.dropna_at, Merge.concat. cbn [Merge.rows Merge.columns].
  generalize (Merge.union_columns [] frames). intros cols Hi.
  induction frames as [|f frames IH]; [reflexivity|].
  cbn [flat_map]. rewrite filter_app, map_app, IH. f_equal.
  rewrite filter_map_swap. unfold sources, dated_rows. rewrite map_map.
  cbn [fst snd].
  destruct (Merge.index_of Merge.Date (Merge.columns f)) as [k|] eqn:Hk.
  - f_equal. apply filter_ext. intros r.
    rewrite (cell_at_reindex _ _ _ Merge.Date i Hi), Hk. reflexivity.
  - rewrite (filter_ext _ (fun _ => false)); [rewrite filter_false; reflexivity|].
    intros r. rewrite (cell_at_reindex _ _ _ Merge.Date i Hi), Hk. reflexivity.
Qed.

(** Setting the [Season] column adds at most that column, and leaves every
    row in its place with its other cells. *)
Lemma setitem_Season_keeps (cols : list str) (rs : list (list Merge.cell))
    (values : list Merge.cell) (labelled : Merge.DataFrame) :
  Forall (fun r => List.length r = List.length cols) rs ->
  Merge.setitem {| Merge.columns := cols; Merge.rows := rs |} Merge.Season values
    = Ret labelled ->
  (forall c, In c (Merge.columns labelled) <-> c = Merge.Season \/ In c cols) /\
  Forall2 (fun r m =>
             List.length m = List.length (Merge.columns labelled) /\
             forall label q,
               label <> Merge.Season ->
               Merge.index_of label (Merge.columns labelled) = Some q ->
               Merge.index_of label cols = Some q /\
               Merge.cell_at q m = Merge.cell_at q r)
          rs (Merge.rows labelled).
Proof.
  intros Hlens. rewrite Forall_forall in Hlens.
  unfold Merge.setitem. cbn [Merge.rows Merge.columns].
  destruct (Nat.eqb (List.length values) (List.length rs)) eqn:Hlen;
    cbn [negb]; [|discriminate].
  apply Nat.eqb_eq in Hlen.
  destruct (Merge.index_of Merge.Season cols) as [j|] eqn:Hj;
    intros H; injection H as <-; cbn [Merge.columns Merge.rows].
  - destruct (index_of_nth _ _ _ Hj) as [Hlt Hnth]. split.
    + intros c. split; [right; assumption|].
      intros [->|H]; [eapply index_of_Some_In; exact Hj | exact H].
    + apply zip_rows_Forall2; [exact Hlen|]. intros v r Hr.
      specialize (Hlens r Hr). split.
      * rewrite set_at_length by lia. exact Hlens.
      * intros label q Hne Hq. split; [exact Hq|].
        apply cell_at_set_at_other. intros ->.
        destruct (index_of_nth _ _ _ Hq) as [_ Hq'].
        rewrite Hnth in Hq'. congruence.
  - split.
    + intros c. rewrite in_app_iff. cbn [In]. split.
      * intros [H|[<-|[]]]; [right; exact H | left; reflexivity].
      * intros [->|H]; [right; left; reflexivity | left; exact H].
    + apply zip_rows_Forall2; [exact Hlen|]. intros v r Hr.
      specialize (Hlens r Hr). split.
      * rewrite !length_app. cbn [List.length]. lia.
      * intros label q Hne Hq.
        apply index_of_app_inv in Hq; [|exact Hne]. split; [exact Hq|].
        destruct (index_of_nth _ _ _ Hq) as [Hlt _].
        unfold Merge.cell_at. apply app_nth1. lia.
Qed.

(** The table with its seasons holds, row for row, the dated rows of the
    frames; its columns are those of the frames and [Season]. *)
Lemma labelled_rows_carry (frames : list Merge.DataFrame) (i : nat)
    (values : list Merge.cell) (labelled : Merge.DataFrame) :
  Merge.index_of Merge.Date (Merge.columns (Merge.concat frames)) = Some i ->
  Merge.setitem (Merge.dropna_at i (Merge.concat frames)) Merge.Season values
    = Ret labelled ->
  (forall c, In c (Merge.columns labelled) <->
             c = Merge.Season \/
             exists f, In f frames /\ In c (Merge.columns f)) /\
  Forall2 (carries (Merge.columns labelled)) (flat_map sources frames)
          (Merge.rows labelled).
Proof.
  intros Hi Hset.
  assert (Hlens : Forall (fun r => List.length r
                                   = List.length (Merge.columns (Merge.concat frames)))
                         (Merge.rows (Merge.dropna_at i (Merge.concat frames)))).
  { apply Forall_forall. intros r Hr. cbn [Merge.dropna_at Merge.rows] in Hr.
    apply filter_In in Hr as [Hr _].
    pose proof (concat_rows_length frames) as H. rewrite Forall_forall in H.
    apply H, Hr. }
  destruct (setitem_Season_keeps _ _ values labelled Hlens Hset) as [Hcols Hrows].
  split.
  - intros c. rewrite Hcols. split.
    + intros [->|H]; [left; reflexivity|]. right.
      unfold Merge.concat in H. cbn [Merge.columns] in H.
      apply In_union_columns_inv in H as [[]|H]. exact H.
    + intros [->|(f & Hf & Hc)]; [left; reflexivity|]. right.
      exact (In_union_columns c frames [] f Hf Hc).
  - rewrite (dropna_concat_rows frames i Hi) in Hrows.
    apply Forall2_of_map in Hrows.
    eapply Forall2_impl; [|exact Hrows].
    intros src m [Hlen Hcells]. split; [exact Hlen|].
    intros label q Hne Hq. destruct (Hcells label q Hne Hq) as [Hq' ->].
    exact (cell_at_reindex _ _ _ label q Hq').
Qed.

(** What [parse_date_column] makes of a table is the table with its dates
    read. *)
Lemma normalize_marks_only
    (to_datetime_format : str -> Merge.cell -> option Merge.Timestamp)
    (to_datetime_dayfirst : list Merge.cell -> Merge.cell -> option Merge.Timestamp)
    (d : Merge.DataFrame) (k : nat) :
  Merge.index_of Merge.Date (Merge.columns d) = Some k ->
  normalized_from d k (normalize to_datetime_format to_datetime_dayfirst d).
Proof.
  intros Hk.
  destruct (parse_date_column_returns to_datetime_format to_datetime_dayfirst
              d k Hk []) as (values & st' & Hrun & Hlen & Hstamps & _).
  unfold normalize. rewrite Hrun. cbn [fst].
  split; [reflexivity|]. split; [apply zip_rows_set_at_frame, Hlen|].
  apply (proj1 (Forall_map (Merge.cell_at k)
                  (fun c => c = Merge.NaT \/ exists t, c = Merge.Datetime t) _)).
  cbn [with_dates Merge.rows].
  rewrite zip_rows_set_at_column by exact Hlen. exact Hstamps.
Qed.

(** ** The merger *)

Lemma files_read_app (t1 t2 : list Merge.event) :
  Merge.files_read (t1 ++ t2) = Merge.files_read t1 ++ Merge.files_read t2.
Proof.
  induction t1 as [|[m|p|p d] t1 IH]; cbn; rewrite ?IH; reflexivity.
Qed.

Section MergeFiles.

Variable to_datetime_format : str -> Merge.cell -> option Merge.Timestamp.
Variable to_datetime_dayfirst : list Merge.cell -> Merge.cell -> option Merge.Timestamp.
Variable sort_values : nat -> list (list Merge.cell) -> list (list Merge.cell).
Variable listdir : str -> result (list str).
Variable path_join : str -> str -> str.
Variable path_exists : str -> bool.
Variable read_csv : str -> result Merge.DataFrame.
Variable to_csv : str -> Merge.DataFrame -> result unit.

Let parse := Merge.parse_date_column to_datetime_format to_datetime_dayfirst.

(** The same frame comes back whatever was printed before; nothing is read
    on the way; the [Date] column holds timestamps and [NaT]. *)
Lemma parse_date_column_run (d : Merge.DataFrame) (k : nat) :
  Merge.index_of Merge.Date (Merge.columns d) = Some k ->
  exists new,
    (forall st, parse d st = (Ret (normalize to_datetime_format to_datetime_dayfirst d), st ++ new)) /\
    Merge.files_read new = [] /\
    Merge.columns (normalize to_datetime_format to_datetime_dayfirst d) = Merge.columns d /\
    Forall (fun row => stampish (Merge.cell_at k row)) (Merge.rows (normalize to_datetime_format to_datetime_dayfirst d)).
Proof.
  intros Hk.
  set (dates := map (Merge.cell_at k) (Merge.rows d)).
  assert (Hshape : exists values new,
             (forall st, parse d st = (Ret (with_dates d k values), st ++ new)) /\
             Merge.files_read new = [] /\
             List.length values = List.length (Merge.rows d) /\
             Forall stampish values).
  { assert (Hstamps : forall (f : Merge.cell -> option Merge.Timestamp) l,
               Forall stampish (map (fun x => Merge.stamp (f x)) l)).
    { intros f l. apply Forall_forall. intros c Hc.
      apply in_map_iff in Hc as (x & <- & _).
      destruct (f x) as [t|]; cbn; [right; eauto | left; reflexivity]. }
    unfold parse, Merge.parse_date_column.
    destruct (formats_loop_cases to_datetime_format d k Hk Merge.formats_to_try)
      as [Hnone|(fmt & _ & Hsome)]; fold dates in Hnone || fold dates in Hsome.
    - set (parsed := map (fun x => Merge.stamp (to_datetime_dayfirst dates x)) dates).
      assert (Hlen : List.length parsed = List.length (Merge.rows d)).
      { unfold parsed, dates. rewrite !length_map. reflexivity. }
      exists parsed.
      exists (if forallb Merge.isna parsed
              then [Merge.Print (Merge.DateParsingFailed (firstn 5 dates))]
              else []).
      split; [|split; [destruct (forallb _ _); reflexivity|
               split; [exact Hlen | apply Hstamps]]].
      intros st. unfold bind at 1, lift.
      rewrite (getitem_Date d k Hk). fold dates. unfold bind at 1.
      rewrite Hnone. unfold bind at 1. fold parsed.
      rewrite (setitem_existing d Merge.Date k parsed Hk Hlen).
      fold (with_dates d k parsed).
      destruct (forallb Merge.isna parsed); cbn; [reflexivity|].
      rewrite app_nil_r. reflexivity.
    - exists (parsed_with to_datetime_format fmt dates), [].
      split; [|split; [reflexivity|
               split; [apply parsed_with_length | apply Hstamps]]].
      intros st. unfold bind at 1, lift.
      rewrite (getitem_Date d k Hk). fold dates. unfold bind at 1.
      rewrite Hsome. rewrite app_nil_r. reflexivity. }
  destruct Hshape as (values & new & Hrun & Hread & Hlen & Hstamps).
  assert (Hnorm : normalize to_datetime_format to_datetime_dayfirst d = with_dates d k values).
  { unfold normalize. rewrite Hrun. reflexivity. }
  exists new. rewrite Hnorm. repeat split; try assumption.
  apply (proj1 (Forall_map (Merge.cell_at k) stampish _)).
  cbn [with_dates Merge.rows].
  rewrite zip_rows_set_at_column by exact Hlen. exact Hstamps.
Qed.

Variable data_dir : str.

Let path_of (id : Z) : str := path_join data_dir (Merge.filename_of id).

Let present (id : Z) : bool := path_exists (path_of id).

(** The loop over the candidate files reads the files that exist, in
    order, and no other, when each of them is a table with a [Date]
    column. *)
Lemma files_loop_reads_present :
  forall (ids : list Z) (dataframes : list Merge.DataFrame) (st : Merge.state),
    (forall id, In id ids -> present id = true ->
       exists d k, read_csv (path_of id) = Ret d /\
                   Merge.index_of Merge.Date (Merge.columns d) = Some k) ->
    exists st',
      Merge.files_loop to_datetime_format to_datetime_dayfirst path_join
        path_exists read_csv data_dir ids dataframes st
        = (Ret (dataframes ++ map (frame_of to_datetime_format to_datetime_dayfirst path_join read_csv data_dir) (filter present ids)), st') /\
      Merge.files_read st'
        = Merge.files_read st ++ map path_of (filter present ids).
Proof.
  induction ids as [|id ids IH]; intros dataframes st Hok.
  - exists st. cbn. rewrite !app_nil_r. auto.
  - cbn [Merge.files_loop filter]. fold (path_of id). fold (present id).
    unfold bind at 1.
    destruct (present id) eqn:Hp.
    + destruct (Hok id (or_introl eq_refl) Hp) as (d & k & Hread & Hk).
      destruct (parse_date_column_run d k Hk) as (new & Hrun & Hnew & _).
      unfold bind at 1. cbn [Merge.print Merge.emit].
      unfold try_except, bind at 1. cbn [Merge.emit].
      unfold bind at 1, lift. rewrite Hread.
      unfold bind at 1. fold parse. rewrite Hrun.
      unfold bind at 1. cbn [Merge.print Merge.emit ret].
      match goal with |- context [Merge.files_loop _ _ _ _ _ _ ids ?acc ?s] =>
        destruct (IH acc s) as (st' & Hloop & Hfiles)
      end.
      { intros id' Hin. apply Hok. right. exact Hin. }
      exists st'. rewrite Hloop. split.
      * cbn [map]. unfold frame_of at 2. fold (path_of id). rewrite Hread.
        rewrite <- app_assoc. reflexivity.
      * rewrite Hfiles. rewrite !files_read_app, Hnew. cbn.
        rewrite !app_nil_r, <- app_assoc. reflexivity.
    + unfold bind at 1. cbn [Merge.print Merge.emit ret].
      match goal with |- context [Merge.files_loop _ _ _ _ _ _ ids ?acc ?s] =>
        destruct (IH acc s) as (st' & Hloop & Hfiles)
      end.
      { intros id' Hin. apply Hok. right. exact Hin. }
      exists st'. rewrite Hloop. split; [reflexivity|].
      rewrite Hfiles, files_read_app. cbn. rewrite app_nil_r. reflexivity.
Qed.

Hypothesis sort_values_permutes :
  forall k rows, Permutation (sort_values k rows) rows.

Hypothesis to_csv_succeeds : forall path d, to_csv path d = Ret tt.

(** From the frames loaded to the merged frame. *)
Lemma merge_of_frames (listed : list str) (st st1 : Merge.state)
    (f : Merge.DataFrame) (fs : list Merge.DataFrame) :
  listdir data_dir = Ret listed ->
  Merge.files_loop to_datetime_format to_datetime_dayfirst path_join
    path_exists read_csv data_dir (range2 4 37) []
    (st ++ [Merge.Print (Merge.FilesInDirectory data_dir
                           (filter (endswith Merge.dot_csv) listed))])
    = (Ret (f :: fs), st1) ->
  Forall frame_ok (f :: fs) ->
  exists merged st' i j labelled,
    Merge.merge_premier_league_data to_datetime_format to_datetime_dayfirst
      sort_values listdir path_join path_exists read_csv to_csv data_dir st
      = (Ret (Some merged), st') /\
    Merge.files_read st' = Merge.files_read st1 /\
    Merge.index_of Merge.Date (Merge.columns (Merge.concat (f :: fs))) = Some i /\
    Merge.setitem (Merge.dropna_at i (Merge.concat (f :: fs))) Merge.Season
      (map season_label
         (map (Merge.cell_at i)
            (Merge.rows (Merge.dropna_at i (Merge.concat (f :: fs))))))
      = Ret labelled /\
    Merge.columns merged = Merge.columns labelled /\
    Permutation (Merge.rows merged) (Merge.rows labelled) /\
    Merge.index_of Merge.Date (Merge.columns merged) = Some i /\
    Merge.index_of Merge.Season (Merge.columns merged) = Some j /\
    Forall (fun r =>
              Merge.cell_at j r = season_label (Merge.cell_at i r) /\
              is_datetime (Merge.cell_at i r))
           (Merge.rows merged).
Proof.
  intros Hlist Hloop Hok.
  set (all := Merge.concat (f :: fs)).
  destruct (concat_has_Date f fs) as [i Hi]; [inversion Hok; assumption|].
  fold all in Hi.
  pose proof (concat_dates_stampish (f :: fs) i Hok Hi) as Hstamps.
  pose proof (concat_rows_length (f :: fs)) as Hlens.
  fold all in Hstamps, Hlens.
  set (kept := Merge.dropna_at i all).
  assert (Hkept_dates : Forall (fun r => is_datetime (Merge.cell_at i r))
                               (Merge.rows kept)).
  { apply kept_dates_are_datetimes, Hstamps. }
  assert (Hkept_lens : Forall (fun r => List.length r = List.length (Merge.columns all))
                              (Merge.rows kept)).
  { apply Forall_forall. intros r Hr. apply filter_In in Hr as [Hr _].
    rewrite Forall_forall in Hlens. apply Hlens, Hr. }
  destruct (setitem_Season (Merge.columns all) (Merge.rows kept) i Hi
              Hkept_lens Hkept_dates)
    as (labelled & j & Hset & HDate & HSeason & _ & Hrows).
  change {| Merge.columns := Merge.columns all; Merge.rows := Merge.rows kept |}
    with kept in Hset.
  set (merged := {| Merge.columns := Merge.columns labelled;
                    Merge.rows := sort_values i (Merge.rows labelled) |}).
  assert (Hseasons : Merge.apply Merge.season_of
                       (map (Merge.cell_at i) (Merge.rows kept))
                     = Ret (map season_label (map (Merge.cell_at i) (Merge.rows kept)))).
  { apply apply_season_of. apply Forall_map. exact Hkept_dates. }
  assert (Hget : forall d, Merge.columns d = Merge.columns all ->
                   Merge.getitem d Merge.Date = Ret (map (Merge.cell_at i) (Merge.rows d))).
  { intros d Hd. unfold Merge.getitem. rewrite Hd, Hi. reflexivity. }
  (* the frame after the drop is [kept], whether or not the drop runs *)
  assert (Hdrop : List.length (filter Merge.isna (map (Merge.cell_at i) (Merge.rows all))) = 0%nat ->
                  all = kept).
  { intros H0. unfold kept, Merge.dropna_at.
    rewrite (filter_notna_all i _ H0). destruct all; reflexivity. }
  assert (Hrun : exists st',
    Merge.merge_premier_league_data to_datetime_format to_datetime_dayfirst
      sort_values listdir path_join path_exists read_csv to_csv data_dir st
      = (Ret (Some merged), st') /\
    Merge.files_read st' = Merge.files_read st1).
  { unfold Merge.merge_premier_league_data.
    unfold bind at 1, lift. rewrite Hlist.
    unfold bind at 1. cbn [Merge.print Merge.emit].
    unfold bind at 1. rewrite Hloop.
    unfold bind at 1. cbn [Merge.print Merge.emit]. fold all.
    unfold bind at 1, lift. rewrite (Hget all eq_refl).
    unfold bind at 1.
    destruct (0 <? Z.of_nat (List.length (filter Merge.isna
                (map (Merge.cell_at i) (Merge.rows all))))) eqn:Hinvalid.
    - unfold bind at 1. cbn [Merge.print Merge.emit]. rewrite Hi.
      fold kept. cbn [ret].
      unfold bind at 1, lift. rewrite (Hget kept eq_refl).
      unfold bind at 1, lift. rewrite Hseasons.
      unfold bind at 1, lift. rewrite Hset.
      unfold bind at 1. rewrite HDate. fold merged. cbn [ret].
      unfold bind at 1. cbn [Merge.print Merge.emit].
      unfold bind at 1. cbn [Merge.emit].
      unfold bind at 1, lift. rewrite to_csv_succeeds.
      unfold bind at 1. cbn [Merge.print Merge.emit ret].
      eexists. split; [reflexivity|].
      rewrite !files_read_app; cbn; rewrite !app_nil_r; reflexivity.
    - assert (H0 : List.length (filter Merge.isna
                      (map (Merge.cell_at i) (Merge.rows all))) = 0%nat).
      { apply Z.ltb_ge in Hinvalid. lia. }
      rewrite (Hdrop H0). cbn [ret].
      unfold bind at 1, lift. rewrite (Hget kept eq_refl).
      unfold bind at 1, lift. rewrite Hseasons.
      unfold bind at 1, lift. rewrite Hset.
      unfold bind at 1. rewrite HDate. fold merged. cbn [ret].
      unfold bind at 1. cbn [Merge.print Merge.emit].
      unfold bind at 1. cbn [Merge.emit].
      unfold bind at 1, lift. rewrite to_csv_succeeds.
      unfold bind at 1. cbn [Merge.print Merge.emit ret].
      eexists. split; [reflexivity|].
      rewrite !files_read_app; cbn; rewrite !app_nil_r; reflexivity. }
  destruct Hrun as (st' & Hrun & Hfiles).
  exists merged, st', i, j, labelled.
  repeat split; try assumption.
  - apply sort_values_permutes.
  - eapply Permutation_Forall; [|exact Hrows].
    symmetry. apply sort_values_permutes.
Qed.

End MergeFiles.

Lemma In_range2 (a b id : Z) : In id (range2 a b) -> a <= id < b.
Proof.
  unfold range2, range. intros H.
  apply in_map_iff in H as (k & <- & H).
  apply in_map_iff in H as (n & <- & H).
  apply in_seq in H. lia.
Qed.

(** C8. With the candidates ["E0 (4).csv"] to ["E0 (36).csv"] of which
    exactly numbers 7, 15 and 30 exist, each a table with a [Date] column,
    the merger reads exactly those three files, in that order; the merged
    table is, up to the order of its rows, the concatenation of the three
    normalized tables without the rows whose date is missing, with the
    [Season] column set; and in every row the season is [year + 1] when the
    month of the row's date is August or later, [year] otherwise.

    Row by row: each normalized table is its file with the dates read and
    nothing else changed; the columns of the merged table are those of the
    three tables and [Season]; up to their order, the rows of the merged
    table are the rows of the first table whose date is not missing, then
    those of the second, then those of the third, each with its cells under
    the labels they had and [NaN] under the labels its table lacks; so the
    merged table has as many rows as the three tables have dated rows. *)
Theorem merge_reads_present_files_and_labels_seasons :
  forall (to_datetime_format : str -> Merge.cell -> option Merge.Timestamp)
         (to_datetime_dayfirst : list Merge.cell -> Merge.cell -> option Merge.Timestamp)
         (sort_values : nat -> list (list Merge.cell) -> list (list Merge.cell))
         (listdir : str -> result (list str))
         (path_join : str -> str -> str)
         (path_exists : str -> bool)
         (read_csv : str -> result Merge.DataFrame)
         (to_csv : str -> Merge.DataFrame -> result unit)
         (data_dir : str) (listed : list str)
         (d7 d15 d30 : Merge.DataFrame) (k7 k15 k30 : nat) (st : Merge.state),
    let path id := path_join data_dir (Merge.filename_of id) in
    listdir data_dir = Ret listed ->
    (forall id, 4 <= id < 37 ->
       (path_exists (path id) = true <-> id = 7 \/ id = 15 \/ id = 30)) ->
    read_csv (path 7) = Ret d7 ->
    read_csv (path 15) = Ret d15 ->
    read_csv (path 30) = Ret d30 ->
    Merge.index_of Merge.Date (Merge.columns d7) = Some k7 ->
    Merge.index_of Merge.Date (Merge.columns d15) = Some k15 ->
    Merge.index_of Merge.Date (Merge.columns d30) = Some k30 ->
    (forall k rows, Permutation (sort_values k rows) rows) ->
    (forall p d, to_csv p d = Ret tt) ->
    exists merged st' i j f7 f15 f30 labelled,
      Merge.merge_premier_league_data to_datetime_format to_datetime_dayfirst
        sort_values listdir path_join path_exists read_csv to_csv data_dir st
        = (Ret (Some merged), st') /\
      Merge.files_read st' = Merge.files_read st ++ [path 7; path 15; path 30] /\
      (forall s, fst (Merge.parse_date_column to_datetime_format
                        to_datetime_dayfirst d7 s) = Ret f7) /\
      (forall s, fst (Merge.parse_date_column to_datetime_format
                        to_datetime_dayfirst d15 s) = Ret f15) /\
      (forall s, fst (Merge.parse_date_column to_datetime_format
                        to_datetime_dayfirst d30 s) = Ret f30) /\
      Merge.index_of Merge.Date (Merge.columns (Merge.concat [f7; f15; f30]))
        = Some i /\
      Merge.setitem (Merge.dropna_at i (Merge.concat [f7; f15; f30])) Merge.Season
        (map season_label
           (map (Merge.cell_at i)
              (Merge.rows (Merge.dropna_at i (Merge.concat [f7; f15; f30])))))
        = Ret labelled /\
      Merge.columns merged = Merge.columns labelled /\
      Permutation (Merge.rows merged) (Merge.rows labelled) /\
      Merge.index_of Merge.Date (Merge.columns merged) = Some i /\
      Merge.index_of Merge.Season (Merge.columns merged) = Some j /\
      Forall (fun r =>
                exists t,
                  Merge.cell_at i r = Merge.Datetime t /\
                  Merge.cell_at j r =
                    Merge.Int (if 8 <=? Merge.month t
                               then Merge.year t + 1 else Merge.year t))
             (Merge.rows merged) /\
      normalized_from d7 k7 f7 /\
      normalized_from d15 k15 f15 /\
      normalized_from d30 k30 f30 /\
      (forall c, In c (Merge.columns merged) <->
                 c = Merge.Season \/ In c (Merge.columns f7) \/
                 In c (Merge.columns f15) \/ In c (Merge.columns f30)) /\
      Forall2 (carries (Merge.columns merged))
              (sources f7 ++ sources f15 ++ sources f30) (Merge.rows labelled) /\
      List.length (Merge.rows merged) =
        (List.length (dated_rows f7) + List.length (dated_rows f15)
         + List.length (dated_rows f30))%nat.
Proof.
  intros tdf tdd sort_values listdir path_join path_exists read_csv to_csv
    data_dir listed d7 d15 d30 k7 k15 k30 st path
    Hlist Hexists H7 H15 H30 Hk7 Hk15 Hk30 Hsort Hcsv.
  subst path. cbv beta in *.
  set (present := fun id => path_exists (path_join data_dir (Merge.filename_of id))).
  assert (Hfilter : filter present (range2 4 37) = [7; 15; 30]).
  { transitivity (filter (fun id => (id =? 7) || (id =? 15) || (id =? 30))
                         (range2 4 37)); [|reflexivity].
    apply filter_ext_in. intros id Hin. apply In_range2 in Hin.
    unfold present. specialize (Hexists id Hin).
    destruct (path_exists (path_join data_dir (Merge.filename_of id))).
    - destruct Hexists as [H _]. destruct (H eq_refl) as [->|[->| ->]]; reflexivity.
    - destruct ((id =? 7) || (id =? 15) || (id =? 30)) eqn:Hg; [|reflexivity].
      destruct Hexists as [_ H]. exfalso.
      assert (Habsurd : false = true); [|discriminate].
      apply H.
      apply orb_prop in Hg as [Hg|Hg]; [apply orb_prop in Hg as [Hg|Hg]|];
        apply Z.eqb_eq in Hg; auto. }
  destruct (files_loop_reads_present tdf tdd path_join path_exists read_csv
              data_dir (range2 4 37) []
              (st ++ [Merge.Print (Merge.FilesInDirectory data_dir
                                     (filter (endswith Merge.dot_csv) listed))]))
    as (st1 & Hloop & Hread).
  { intros id Hin Hp. apply In_range2 in Hin.
    apply (Hexists id Hin) in Hp. destruct Hp as [->|[->| ->]]; eauto. }
  change (fun id : Z => path_exists (path_join data_dir (Merge.filename_of id)))
    with present in Hloop, Hread.
  rewrite Hfilter in Hloop, Hread.
  cbn [map app] in Hloop, Hread.
  unfold frame_of in Hloop. rewrite H7, H15, H30 in Hloop.
  destruct (parse_date_column_run tdf tdd d7 k7 Hk7) as (n7 & R7 & _ & C7 & S7).
  destruct (parse_date_column_run tdf tdd d15 k15 Hk15) as (n15 & R15 & _ & C15 & S15).
  destruct (parse_date_column_run tdf tdd d30 k30 Hk30) as (n30 & R30 & _ & C30 & S30).
  assert (Hok : Forall frame_ok
                  [normalize tdf tdd d7; normalize tdf tdd d15; normalize tdf tdd d30]).
  { repeat constructor.
    - exists k7. rewrite C7. auto.
    - exists k15. rewrite C15. auto.
    - exists k30. rewrite C30. auto. }
  destruct (merge_of_frames tdf tdd sort_values listdir path_join path_exists
              read_csv to_csv data_dir Hsort Hcsv listed st st1 _ _
              Hlist Hloop Hok)
    as (merged & st' & i & j & labelled & Hrun & Hfiles & Hi & Hset & Hcols &
        Hperm & HDate & HSeason & Hrows).
  exists merged, st', i, j, (normalize tdf tdd d7), (normalize tdf tdd d15),
    (normalize tdf tdd d30), labelled.
  split; [exact Hrun|].
  split.
  { rewrite Hfiles, Hread, files_read_app. cbn. rewrite app_nil_r. reflexivity. }
  split; [intros s; rewrite R7; reflexivity|].
  split; [intros s; rewrite R15; reflexivity|].
  split; [intros s; rewrite R30; reflexivity|].
  split; [exact Hi|]. split; [exact Hset|]. split; [exact Hcols|].
  split; [exact Hperm|]. split; [exact HDate|]. split; [exact HSeason|].
  split.
  { eapply Forall_impl; [|exact Hrows].
    intros r [Hj [t Ht]]. exists t. split; [exact Ht|].
    rewrite Hj, Ht. reflexivity. }
  split; [apply normalize_marks_only, Hk7|].
  split; [apply normalize_marks_only, Hk15|].
  split; [apply normalize_marks_only, Hk30|].
  destruct (labelled_rows_carry _ i _ labelled Hi Hset) as [Hlabels Hcarry].
  cbn [flat_map] in Hcarry. rewrite app_nil_r in Hcarry.
  split.
  { intros c. rewrite Hcols, Hlabels. split.
    - intros [->|(f & [<-|[<-|[<-|[]]]] & H)]; auto.
    - intros [->|[H|[H|H]]]; [left; reflexivity| | |]; right.
      + exists (normalize tdf tdd d7). split; [left; reflexivity | exact H].
      + exists (normalize tdf tdd d15).
        split; [right; left; reflexivity | exact H].
      + exists (normalize tdf tdd d30).
        split; [right; right; left; reflexivity | exact H]. }
  split; [rewrite Hcols; exact Hcarry|].
  rewrite (Permutation_length Hperm), <- (Forall2_length Hcarry), !length_app.
  unfold sources. rewrite !length_map. lia.
Qed.

Example merge_sample_directory :
  let run := Merge.merge_premier_league_data read_dmy infer_dmy sort_by_date
               sample_listdir slash_join sample_exists sample_read_csv
               sample_to_csv sample_dir [] in
  fst run =
    Ret (Some
      {| Merge.columns := [lit "Date"; lit "HomeTeam"; lit "Div"; lit "Season"];
         Merge.rows :=
           [ [at_midnight 2004 8 14; Merge.Obj (lit "Arsenal"); Merge.NaN; Merge.Int 2005];
             [at_midnight 2005 2 1; Merge.Obj (lit "Leeds"); Merge.NaN; Merge.Int 2005];
             [at_midnight 2011 8 20; Merge.NaN; Merge.Obj (lit "E0"); Merge.Int 2012];
             [at_midnight 2020 7 31; Merge.Obj (lit "Fulham"); Merge.NaN; Merge.Int 2020] ] |}) /\
  Merge.files_read (snd run) =
    [lit "data/E0 (7).csv"; lit "data/E0 (15).csv"; lit "data/E0 (30).csv"].
Proof. split; vm_compute; reflexivity. Qed.

Lemma insert_row_permutes (i : nat) (row : list Merge.cell) :
  forall sorted, Permutation (insert_row i row sorted) (row :: sorted).
Proof.
  induction sorted as [|r rest IH]; cbn; [reflexivity|].
  destruct (date_key i row <=? date_key i r); [reflexivity|].
  rewrite IH. apply perm_swap.
Qed.

Lemma sort_by_date_permutes (i : nat) :
  forall rows, Permutation (sort_by_date i rows) rows.
Proof.
  induction rows as [|row rest IH]; cbn; [reflexivity|].
  rewrite insert_row_permutes, IH. reflexivity.
Qed.

Lemma parse_date_column_marks_only_witness :
  exists df' st',
    Merge.parse_date_column read_dmy infer_dmy fixtures [] = (Ret df', st') /\
    Merge.columns df' = [lit "Date"; lit "HomeTeam"] /\
    Merge.len df' = 20.
Proof.
  destruct (parse_date_column_marks_only read_dmy infer_dmy fixtures 0 [])
    as (df' & st' & Hrun & Hcols & Hlen & _).
  - reflexivity.
  - exists df', st'. repeat split; assumption.
Defined.

Lemma parse_date_column_first_pattern_over_90_witness :
  exists df',
    Merge.parse_date_column read_dmy infer_dmy fixtures [] = (Ret df', []) /\
    Merge.getitem df' Merge.Date =
      Ret (map (fun k => at_midnight 2003 8 k) (range2 1 20) ++ [Merge.NaT]).
Proof.
  destruct (parse_date_column_first_pattern_over_90 read_dmy infer_dmy
              fixtures 0 []) as [_ H95].
  - reflexivity.
  - reflexivity.
  - destruct H95 as (df' & Hrun & Hdates).
    + vm_compute. reflexivity.
    + exists df'. split; [exact Hrun|]. rewrite Hdates. vm_compute. reflexivity.
Defined.

Lemma sample_files_present (id : Z) :
  4 <= id < 37 ->
  (sample_exists (slash_join sample_dir (Merge.filename_of id)) = true <->
   id = 7 \/ id = 15 \/ id = 30).
Proof.
  intros Hid.
  assert (Hin : In id (range2 4 37)).
  { unfold range2, range. apply in_map_iff. exists (id - 4). split; [lia|].
    apply in_map_iff. exists (Z.to_nat (id - 4)). split; [lia|].
    apply in_seq. lia. }
  vm_compute in Hin.
  repeat (destruct Hin as [<-|Hin]; [
    split; intros H;
      [ vm_compute in H; try discriminate H; auto
      | destruct H as [H|[H|H]]; try discriminate H; vm_compute; reflexivity ] | ]).
  contradiction.
Qed.

Lemma merge_reads_present_files_and_labels_seasons_witness :
  exists merged st' i j,
    Merge.merge_premier_league_data read_dmy infer_dmy sort_by_date
      sample_listdir slash_join sample_exists sample_read_csv sample_to_csv
      sample_dir [] = (Ret (Some merged), st') /\
    Merge.files_read st' = [sample_path 7; sample_path 15; sample_path 30] /\
    Merge.index_of Merge.Date (Merge.columns merged) = Some i /\
    Merge.index_of Merge.Season (Merge.columns merged) = Some j /\
    Forall (fun r =>
              exists t,
                Merge.cell_at i r = Merge.Datetime t /\
                Merge.cell_at j r =
                  Merge.Int (if 8 <=? Merge.month t
                             then Merge.year t + 1 else Merge.year t))
           (Merge.rows merged) /\
    List.length (Merge.rows merged) = 4%nat /\
    (In (lit "Div") (Merge.columns merged) /\
     In (lit "HomeTeam") (Merge.columns merged)).
Proof.
  destruct (merge_reads_present_files_and_labels_seasons read_dmy infer_dmy
              sort_by_date sample_listdir slash_join sample_exists
              sample_read_csv sample_to_csv sample_dir
              [Merge.filename_of 7; lit "notes.txt"; Merge.filename_of 15;
               Merge.filename_of 30]
              table_7 table_15 table_30 0 1 0 [])
    as (merged & st' & i & j & f7 & f15 & f30 & labelled & Hrun & Hfiles & P7
        & P15 & P30 & _ & _ & _ & _ & HDate & HSeason & Hrows & _ & _ & _
        & Hlabels & _ & Hcount).
  - reflexivity.
  - exact sample_files_present.
  - vm_compute. reflexivity.
  - vm_compute. reflexivity.
  - vm_compute. reflexivity.
  - reflexivity.
  - reflexivity.
  - reflexivity.
  - exact sort_by_date_permutes.
  - reflexivity.
  - specialize (P7 []). specialize (P15 []). specialize (P30 []).
    vm_compute in P7, P15, P30.
    injection P7 as <-. injection P15 as <-. injection P30 as <-.
    exists merged, st', i, j.
    split; [exact Hrun|]. split; [exact Hfiles|]. split; [exact HDate|].
    split; [exact HSeason|]. split; [exact Hrows|].
    split; [rewrite Hcount; vm_compute; reflexivity|].
    split; apply Hlabels; right.
    + right. left. left. reflexivity.
    + left. right. left. reflexivity.
Defined.

(* ===================================================================== *)
(** * Further properties                                                  *)
(* ===================================================================== *)

(** ** [get_page], whatever the network does *)

Section GetPageAnyNetwork.

Variable session_get : nat -> str -> result Imdb.Response.
Variable url : str.
Variable max_retries : Z.

(** What the loop does with the attempts it is given: it sends at least
    one request unless there is no attempt, never more requests than
    attempts; a response it returns is the good answer to its last request,
    an exception it lets through is what its last request raised and is no
    [RequestException]. *)
Lemma get_page_loop_outcome :
  forall (attempts : list Z) (st st' : Imdb.state)
         (r : result (option Imdb.Response)),
    Imdb.get_page_loop session_get url max_retries attempts st = (r, st') ->
    (Imdb.requests st <= Imdb.requests st'
       <= Imdb.requests st + List.length attempts)%nat /\
    (forall resp, r = Ret (Some resp) ->
       Imdb.ok resp = true /\
       exists n, Imdb.requests st' = S n /\ session_get n url = Ret resp) /\
    (forall e, r = Raise e ->
       is_RequestException e = false /\
       exists n, Imdb.requests st' = S n /\ session_get n url = Raise e).
Proof.
  induction attempts as [|attempt rest IH]; intros st st' r Hrun.
  - injection Hrun as <- <-. cbn.
    split; [lia|]. split; intros ? H; discriminate.
  - cbn [Imdb.get_page_loop] in Hrun. cbn [List.length].
    unfold bind at 1, try_except, bind at 1, Imdb.get, Imdb.raise_for_status
      in Hrun.
    destruct (session_get (Imdb.requests st) url) as [resp|e] eqn:Hget.
    + destruct (Imdb.ok resp) eqn:Hok; cbn in Hrun.
      * injection Hrun as <- <-. cbn. split; [lia|]. split.
        -- intros r H. injection H as <-. split; [exact Hok|].
           exists (Imdb.requests st). auto.
        -- intros e H. discriminate.
      * destruct (attempt <? max_retries - 1); cbn in Hrun.
        -- apply IH in Hrun as (Hreq & Hresp & Hexn).
           cbn [Imdb.requests] in Hreq.
           split; [lia|]. split; assumption.
        -- injection Hrun as <- <-. cbn.
           split; [lia|]. split; intros ? H; discriminate.
    + destruct (is_RequestException e) eqn:He; cbn in Hrun.
      * destruct (attempt <? max_retries - 1); cbn in Hrun.
        -- apply IH in Hrun as (Hreq & Hresp & Hexn).
           cbn [Imdb.requests] in Hreq.
           split; [lia|]. split; assumption.
        -- injection Hrun as <- <-. cbn.
           split; [lia|]. split; intros ? H; discriminate.
      * injection Hrun as <- <-. cbn. split; [lia|]. split.
        -- intros r H. discriminate.
        -- intros e0 H. injection H as <-. split; [exact He|].
           exists (Imdb.requests st). auto.
Qed.

End GetPageAnyNetwork.

(** X1. Whatever the network does, [get_page] sends at most [max_retries]
    requests and leaves [self.data] alone; a response it returns is the
    answer to its last request and has a good status; an exception it lets
    through is the one its last request raised, and is never a
    [RequestException]. *)
Theorem get_page_is_bounded_and_filters :
  forall (session_get : nat -> str -> result Imdb.Response) (url : str)
         (max_retries : Z) (st : Imdb.state),
    let run := Imdb.get_page session_get url max_retries st in
    (Imdb.requests st <= Imdb.requests (snd run)
       <= Imdb.requests st + Z.to_nat max_retries)%nat /\
    Imdb.data (snd run) = Imdb.data st /\
    (forall resp, fst run = Ret (Some resp) ->
       Imdb.ok resp = true /\
       exists n, Imdb.requests (snd run) = S n /\ session_get n url = Ret resp) /\
    (forall e, fst run = Raise e ->
       is_RequestException e = false /\
       exists n, Imdb.requests (snd run) = S n /\ session_get n url = Raise e).
Proof.
  intros session_get url max_retries st run.
  pose proof (get_page_keeps_data session_get url max_retries st) as Hdata.
  fold run in Hdata.
  destruct run as [r st'] eqn:Hrun. cbn [fst snd] in *.
  destruct (get_page_loop_outcome session_get url max_retries
              (range max_retries) st st' r Hrun) as (Hreq & Hresp & Hexn).
  unfold range in Hreq at 1. rewrite length_map, length_seq in Hreq.
  split; [exact Hreq|]. split; [exact Hdata|]. split; assumption.
Qed.

(** ** A year whose page cannot be fetched *)

(** X2. When the three requests for the page of a year all fail,
    [scrape_year] returns the empty list without raising: it has sent
    exactly three requests, waited 1 and 2 seconds between them, left
    [self.data] alone, and its closing line reports 0 movies. *)
Theorem scrape_year_page_unreachable :
  forall (todecimal : N -> option N)
         (session_get : nat -> str -> result Imdb.Response)
         (urljoin : str -> str -> str) (year : Z) (st : Imdb.state),
    (forall i, (i < 3)%nat ->
       Imdb.failure (session_get (Imdb.requests st + i)%nat (Imdb.year_url_of year))
         <> None) ->
    exists st' new,
      Imdb.scrape_year todecimal session_get urljoin year st = (Ret [], st') /\
      Imdb.events st' =
        Imdb.events st
        ++ [Imdb.Log Imdb.INFO (Imdb.ScrapingYearPage (Imdb.year_url_of year))]
        ++ new
        ++ [Imdb.Log Imdb.INFO (Imdb.CompletedYear year 0)] /\
      Imdb.attempts (Imdb.year_url_of year) new = 3 /\
      Imdb.delays new = [1; 2] /\
      Imdb.requests st' = (Imdb.requests st + 3)%nat /\
      Imdb.data st' = Imdb.data st.
Proof.
  intros todecimal session_get urljoin year st Hfail.
  set (url := Imdb.year_url_of year).
  set (st0 := {| Imdb.requests := Imdb.requests st;
                 Imdb.events := Imdb.events st ++
                   [Imdb.Log Imdb.INFO (Imdb.ScrapingYearPage url)];
                 Imdb.data := Imdb.data st |}).
  destruct (get_page_loop_all_fail session_get url 3 2 0 st0)
    as (st1 & new & Hrun & Hreq & Hdata & Hev & Hatt & Hdel & _).
  { reflexivity. }
  { intros i Hi. apply Hfail. lia. }
  rewrite scrape_year_unfold.
  unfold Imdb.extract_movie_links. unfold bind at 1.
  cbn [Imdb.log Imdb.emit]. fold url st0.
  unfold bind at 1, Imdb.get_page, Imdb.default_max_retries.
  change (range 3) with (map Z.of_nat (seq 0 3)). rewrite Hrun.
  cbn [ret Imdb.scrape_year_loop List.length Z.of_nat].
  exists {| Imdb.requests := Imdb.requests st1;
            Imdb.events := Imdb.events st1 ++
              [Imdb.Log Imdb.INFO (Imdb.CompletedYear year 0)];
            Imdb.data := Imdb.data st1 |}, new.
  cbn [Imdb.requests Imdb.events Imdb.data].
  split; [reflexivity|].
  split; [rewrite Hev; cbn [st0 Imdb.events]; rewrite <- !app_assoc; reflexivity|].
  split; [exact Hatt|]. split; [exact Hdel|].
  split; [exact Hreq | exact Hdata].
Qed.

Lemma scrape_year_page_unreachable_witness :
  exists st',
    Imdb.scrape_year ascii_digits_only network_down join_urls 1999 fresh_scraper
      = (Ret [], st') /\
    Imdb.requests st' = 3%nat /\
    Imdb.data st' = [].
Proof.
  destruct (scrape_year_page_unreachable ascii_digits_only network_down
              join_urls 1999 fresh_scraper)
    as (st' & new & Hrun & _ & _ & _ & Hreq & Hdata).
  - intros i _. discriminate.
  - exists st'. repeat split; assumption.
Defined.

(** ** The shape of the records *)

(** Writing under a key that is there keeps the keys and their order. *)
Lemma dict_set_keys_present (d : dict) (key : str) (v w : value) :
  dict_get d key = Some w ->
  map fst (dict_set d key v) = map fst d.
Proof.
  induction d as [|[k u] d IH]; simpl; [discriminate|].
  destruct (str_eqb k key); simpl; [reflexivity|].
  intros H. rewrite IH by exact H. reflexivity.
Qed.

(** Writing under a new key puts it last. *)
Lemma dict_set_keys_new (d : dict) (key : str) (v : value) :
  dict_get d key = None ->
  map fst (dict_set d key v) = map fst d ++ [key].
Proof.
  induction d as [|[k u] d IH]; simpl; [reflexivity|].
  destruct (str_eqb k key); simpl; [discriminate|].
  intros H. rewrite IH by exact H. reflexivity.
Qed.

Lemma dict_get_absent (d : dict) (key : str) :
  existsb (fun k => str_eqb k key) (map fst d) = false ->
  dict_get d key = None.
Proof.
  induction d as [|[k u] d IH]; simpl; [reflexivity|].
  destruct (str_eqb k key); simpl; [discriminate | exact IH].
Qed.

Section Shapes.

Variable todecimal : N -> option N.
Variable session_get : nat -> str -> result Imdb.Response.
Variable urljoin : str -> str -> str.

Lemma box_office_record_set (t u : str) (d : dict) (key : str) (o : option Z) :
  In key figure_keys ->
  box_office_record t u d ->
  box_office_record t u (dict_set d key (Imdb.value_of_option_int o)).
Proof.
  intros Hkey (Hkeys & Ht & Hu & Hfig).
  destruct (Hfig key Hkey) as (w & Hw & _).
  assert (Hnot_title : str_eqb key (lit "title") = false).
  { destruct Hkey as [<-|[<-|[<-|[<-|[]]]]]; reflexivity. }
  assert (Hnot_url : str_eqb key (lit "url") = false).
  { destruct Hkey as [<-|[<-|[<-|[<-|[]]]]]; reflexivity. }
  split; [rewrite (dict_set_keys_present d key _ w Hw); exact Hkeys|].
  split; [rewrite dict_get_set_other by exact Hnot_title; exact Ht|].
  split; [rewrite dict_get_set_other by exact Hnot_url; exact Hu|].
  intros k Hk. destruct (str_eqb key k) eqn:Hkk.
  - apply str_eqb_eq in Hkk. subst k. rewrite dict_get_set_same.
    eexists. split; [reflexivity|].
    destruct o as [n|]; [right; exists n; reflexivity | left; reflexivity].
  - rewrite dict_get_set_other by exact Hkk. apply Hfig, Hk.
Qed.

Lemma sections_loop_shape (box : Imdb.BoxOffice) (t u : str) :
  forall (todo : list (str * str)) (d d' : dict) (st st' : Imdb.state),
    Forall (fun p => In (snd p) figure_keys) todo ->
    Imdb.sections_loop todecimal box todo d st = (Ret d', st') ->
    box_office_record t u d ->
    box_office_record t u d'.
Proof.
  induction todo as [|[section_class data_key] todo IH];
    intros d d' st st' Hkeys Hrun Hd.
  - injection Hrun as <- _. exact Hd.
  - inversion Hkeys as [|? ? Hk Hrest]; subst. cbn [snd] in Hk.
    cbn [Imdb.sections_loop] in Hrun.
    destruct (Imdb.find_div box section_class) as [section|];
      [|eapply IH; eassumption].
    destruct (Imdb.value_div section) as [txt|]; [|eapply IH; eassumption].
    unfold bind at 1 in Hrun.
    destruct (clean_currency_returns todecimal (strip txt) st) as [v Hv].
    rewrite Hv in Hrun. unfold bind at 1 in Hrun.
    cbn [Imdb.log Imdb.emit] in Hrun.
    eapply IH; [exact Hrest | exact Hrun |].
    apply box_office_record_set; assumption.
Qed.

Lemma extract_box_office_data_shape (movie_url movie_title : str)
    (st st' : Imdb.state) (d : dict) :
  Imdb.extract_box_office_data todecimal session_get movie_url movie_title st
    = (Ret (Some d), st') ->
  box_office_record movie_title movie_url d.
Proof.
  unfold Imdb.extract_box_office_data.
  unfold bind at 1. cbn [Imdb.log Imdb.emit].
  unfold bind at 1.
  destruct (Imdb.get_page session_get movie_url Imdb.default_max_retries _)
    as [[[resp|]|e] st1]; try discriminate.
  cbn [Imdb.not_response].
  destruct (Imdb.ok resp); cbn [negb]; [|discriminate].
  destruct (Imdb.box_office_summary (Imdb.content resp)) as [box|]; [|discriminate].
  unfold bind at 1.
  destruct (Imdb.sections_loop todecimal box Imdb.sections _ st1)
    as [[d'|e] st2] eqn:Hloop; [|discriminate].
  intros H. injection H as <- _.
  eapply sections_loop_shape; [|exact Hloop|].
  - repeat (apply Forall_cons; [cbn; auto 10|]). apply Forall_nil.
  - split; [reflexivity|]. split; [reflexivity|]. split; [reflexivity|].
    intros key [<-|[<-|[<-|[<-|[]]]]]; eexists; (split; [reflexivity|]);
      left; reflexivity.
Qed.

Lemma year_record_of_box_office (year : Z) (t u : str) (d : dict) :
  box_office_record t u d ->
  year_record year (dict_set d (lit "year") (VInt year)).
Proof.
  intros (Hkeys & Ht & Hu & Hfig).
  assert (Hnone : dict_get d (lit "year") = None).
  { apply dict_get_absent. rewrite Hkeys. reflexivity. }
  split; [rewrite dict_set_keys_new by exact Hnone; rewrite Hkeys; reflexivity|].
  split; [apply dict_get_set_same|].
  split; [exists t; rewrite dict_get_set_other by reflexivity; exact Ht|].
  split; [exists u; rewrite dict_get_set_other by reflexivity; exact Hu|].
  intros key Hkey. rewrite dict_get_set_other; [apply Hfig, Hkey|].
  destruct Hkey as [<-|[<-|[<-|[<-|[]]]]]; reflexivity.
Qed.

(** What the loop of [scrape_year] adds, to [self.data] and to
    [year_data] alike, has the shape of a record of the year. *)
Lemma scrape_year_loop_shape (year : Z) :
  forall (movie_links : list (str * str)) (year_data : list dict)
         (st st' : Imdb.state) (r : result (list dict)),
    Imdb.scrape_year_loop todecimal session_get year movie_links year_data st
      = (r, st') ->
    exists added,
      Imdb.data st' = Imdb.data st ++ added /\
      Forall (year_record year) added /\
      forall out, r = Ret out -> out = year_data ++ added.
Proof.
  induction movie_links as [|[movie_title movie_url] rest IH];
    intros year_data st st' r Hrun.
  - injection Hrun as <- <-. exists []. rewrite !app_nil_r.
    repeat split; auto. intros out H. injection H as <-. reflexivity.
  - rewrite scrape_year_loop_cons in Hrun.
    pose proof (extract_box_office_data_keeps_data todecimal session_get
                  movie_url movie_title st) as Hkeep.
    destruct (Imdb.extract_box_office_data todecimal session_get movie_url
                movie_title st) as [[[d|]|e] st1] eqn:Hext; cbn [snd] in Hkeep.
    + pose proof (extract_box_office_data_shape _ _ _ _ _ Hext) as Hshape.
      destruct d as [|kv d].
      { destruct Hshape as (Hkeys & _). discriminate. }
      cbv zeta in Hrun.
      apply IH in Hrun as (added & Hdata & Hall & Hout).
      cbn [Imdb.data] in Hdata.
      exists (dict_set (kv :: d) (lit "year") (VInt year) :: added).
      split; [rewrite Hdata, Hkeep, <- app_assoc; reflexivity|].
      split; [constructor; [eapply year_record_of_box_office, Hshape | exact Hall]|].
      intros out H. rewrite (Hout out H), <- app_assoc. reflexivity.
    + apply IH in Hrun as (added & Hdata & Hall & Hout).
      cbn [Imdb.data] in Hdata.
      exists added. split; [rewrite Hdata, Hkeep; reflexivity|]. auto.
    + destruct (is_Exception e).
      * apply IH in Hrun as (added & Hdata & Hall & Hout).
        cbn [Imdb.data] in Hdata.
        exists added. split; [rewrite Hdata, Hkeep; reflexivity|]. auto.
      * injection Hrun as <- <-. exists []. rewrite Hkeep, app_nil_r.
        repeat split; auto. intros out H. discriminate.
Qed.

End Shapes.

(** What [scrape_year] adds to [self.data], and returns when it returns,
    has the shape of a record of the year. *)
Lemma scrape_year_adds_year_records :
  forall (todecimal : N -> option N)
         (session_get : nat -> str -> result Imdb.Response)
         (urljoin : str -> str -> str) (year : Z) (st st' : Imdb.state)
         (r : result (list dict)),
    Imdb.scrape_year todecimal session_get urljoin year st = (r, st') ->
    exists added,
      Imdb.data st' = Imdb.data st ++ added /\
      Forall (year_record year) added /\
      forall out, r = Ret out -> out = added.
Proof.
  intros todecimal session_get urljoin year st st' r Hrun.
  rewrite scrape_year_unfold in Hrun.
  pose proof (extract_movie_links_keeps_data session_get urljoin
                (Imdb.year_url_of year) st) as Hkeep.
  destruct (Imdb.extract_movie_links session_get urljoin
              (Imdb.year_url_of year) st) as [[movie_links|e] st1];
    cbn [snd] in Hkeep.
  - destruct (Imdb.scrape_year_loop todecimal session_get year movie_links [] st1)
      as [r1 st2] eqn:Hloop.
    destruct (scrape_year_loop_shape todecimal session_get year _ _ _ _ _ Hloop)
      as (added & Hdata & Hall & Hout).
    exists added. destruct r1 as [year_data|e]; injection Hrun as <- <-;
      cbn [Imdb.data];
      (split; [rewrite Hdata, Hkeep; reflexivity|]); (split; [exact Hall|]).
    + intros out H. injection H as <-. apply (Hout year_data eq_refl).
    + intros out H. discriminate.
  - injection Hrun as <- <-. exists []. rewrite Hkeep, app_nil_r.
    repeat split; [constructor|]. intros out H. discriminate.
Qed.

(** X3. Every record that [scrape_year] adds to [self.data] (the same
    records, in the same order, are the list it returns) has exactly the
    keys title, url, opening_weekend, gross_world, budget,
    gross_usa_canada and year, in this order; its year is the year asked
    for, its title and url are strings, and each of its four figures is
    [None] or an integer. *)
Theorem scrape_year_records_have_fixed_shape :
  forall (todecimal : N -> option N)
         (session_get : nat -> str -> result Imdb.Response)
         (urljoin : str -> str -> str) (year : Z) (st : Imdb.state),
    let run := Imdb.scrape_year todecimal session_get urljoin year st in
    exists added,
      Imdb.data (snd run) = Imdb.data st ++ added /\
      Forall (year_record year) added /\
      forall out, fst run = Ret out -> out = added.
Proof.
  intros todecimal session_get urljoin year st run.
  destruct run as [r st'] eqn:Hrun.
  destruct (scrape_year_adds_year_records _ _ _ _ _ _ _ Hrun)
    as (added & Hdata & Hall & Hout).
  exists added. auto.
Qed.

(** ** The whole run of the IMDb scraper *)

Lemma written_app (t1 t2 : list ImdbRun.event) :
  ImdbRun.written (t1 ++ t2) = ImdbRun.written t1 ++ ImdbRun.written t2.
Proof.
  induction t1 as [|[l m|p|f d] t1 IH]; cbn; rewrite ?IH; reflexivity.
Qed.

Section WholeRun.

Variable todecimal : N -> option N.
Variable session_get : nat -> str -> result Imdb.Response.
Variable urljoin : str -> str -> str.

(** The loop over the years lets no [Exception] through, hands nothing to
    [to_csv], and adds to [self.data] only records of its years. *)
Lemma years_loop_outcome :
  forall (years : list Z) (st st' : ImdbRun.state) (r : result unit),
    ImdbRun.years_loop todecimal session_get urljoin years st = (r, st') ->
    (forall e, r = Raise e -> is_Exception e = false) /\
    ImdbRun.written (ImdbRun.journal st') = ImdbRun.written (ImdbRun.journal st) /\
    exists added,
      Imdb.data (ImdbRun.scraper st')
        = Imdb.data (ImdbRun.scraper st) ++ added /\
      Forall (fun d => exists year, In year years /\ year_record year d) added.
Proof.
  induction years as [|year rest IH]; intros st st' r Hrun.
  - injection Hrun as <- <-. split; [intros e H; discriminate|].
    split; [reflexivity|]. exists []. rewrite app_nil_r. auto.
  - cbn [ImdbRun.years_loop] in Hrun.
    unfold bind at 1, try_except, bind at 1, ImdbRun.on_scraper at 1 in Hrun.
    destruct (Imdb.scrape_year todecimal session_get urljoin year
                (ImdbRun.scraper st)) as [r1 s1] eqn:Hyear.
    destruct (scrape_year_adds_year_records _ _ _ _ _ _ _ Hyear)
      as (added1 & Hdata1 & Hall1 & _).
    assert (Hall1' : Forall (fun d => exists y, In y (year :: rest) /\ year_record y d)
                            added1).
    { eapply Forall_impl; [|exact Hall1].
      intros d Hd. exists year. split; [left; reflexivity | exact Hd]. }
    assert (Hnext : forall s2 r2 st2,
               ImdbRun.years_loop todecimal session_get urljoin rest s2 = (r2, st2) ->
               ImdbRun.scraper s2 = snd (Imdb.sleep 2 s1) \/
               ImdbRun.scraper s2 = s1 ->
               ImdbRun.written (ImdbRun.journal s2)
                 = ImdbRun.written (ImdbRun.journal st) ->
               (forall e, r2 = Raise e -> is_Exception e = false) /\
               ImdbRun.written (ImdbRun.journal st2)
                 = ImdbRun.written (ImdbRun.journal st) /\
               exists added,
                 Imdb.data (ImdbRun.scraper st2)
                   = Imdb.data (ImdbRun.scraper st) ++ added /\
                 Forall (fun d => exists y, In y (year :: rest) /\ year_record y d)
                        added).
    { intros s2 r2 st2 Hloop Hs2 Hw2.
      destruct (IH _ _ _ Hloop) as (Hexn & Hw & added & Hdata & Hall).
      split; [exact Hexn|]. split; [rewrite Hw; exact Hw2|].
      exists (added1 ++ added). split.
      - rewrite Hdata, app_assoc. f_equal.
        destruct Hs2 as [-> | ->]; cbn; exact Hdata1.
      - apply Forall_app. split; [exact Hall1'|].
        eapply Forall_impl; [|exact Hall].
        intros d (y & Hy & Hd). exists y. split; [right; exact Hy | exact Hd]. }
    destruct r1 as [year_data|e].
    + cbn in Hrun. apply (Hnext _ _ _ Hrun); [left; reflexivity | reflexivity].
    + destruct (is_Exception e) eqn:He.
      * cbn in Hrun. apply (Hnext _ _ _ Hrun); [right; reflexivity|].
        cbn. rewrite written_app, app_nil_r. reflexivity.
      * injection Hrun as <- <-. cbn.
        split; [intros e' H; injection H as <-; exact He|].
        split; [reflexivity|]. exists added1. auto.
Qed.

End WholeRun.

(** X4. [scrape_all_years] lets no [Exception] through, whatever the
    network does: a year that fails is logged and skipped. It hands nothing
    to [to_csv]; what it adds to [self.data] are records of years between
    [start_year] and [end_year]; and when it returns, its closing line
    counts the whole of [self.data], the records that were there before
    included. *)
Theorem scrape_all_years_lets_no_exception_through :
  forall (todecimal : N -> option N)
         (session_get : nat -> str -> result Imdb.Response)
         (urljoin : str -> str -> str) (start_year end_year : Z)
         (st : ImdbRun.state),
    let run := ImdbRun.scrape_all_years todecimal session_get urljoin
                 start_year end_year st in
    (forall e, fst run = Raise e -> is_Exception e = false) /\
    ImdbRun.written (ImdbRun.journal (snd run))
      = ImdbRun.written (ImdbRun.journal st) /\
    (exists added,
       Imdb.data (ImdbRun.scraper (snd run))
         = Imdb.data (ImdbRun.scraper st) ++ added /\
       Forall (fun d => exists year,
                 start_year <= year <= end_year /\ year_record year d) added) /\
    (fst run = Ret tt ->
     exists before,
       ImdbRun.journal (snd run) =
         before ++
         [ImdbRun.Log Imdb.INFO
            (ImdbRun.ScrapingCompleted
               (Z.of_nat (List.length (Imdb.data (ImdbRun.scraper (snd run))))))]).
Proof.
  intros todecimal session_get urljoin start_year end_year st run.
  destruct run as [r st'] eqn:Hrun. cbn [fst snd].
  unfold run, ImdbRun.scrape_all_years in Hrun.
  unfold bind at 1 in Hrun. cbn [ImdbRun.log ImdbRun.emit] in Hrun.
  unfold bind at 1 in Hrun.
  destruct (ImdbRun.years_loop todecimal session_get urljoin
              (range2 start_year (end_year + 1)) _) as [r1 st1] eqn:Hloop.
  apply years_loop_outcome in Hloop as (Hexn & Hw & added & Hdata & Hall).
  cbn [ImdbRun.journal ImdbRun.scraper] in Hw, Hdata.
  rewrite written_app, app_nil_r in Hw.
  assert (Hyears : Forall (fun d => exists year,
                      start_year <= year <= end_year /\ year_record year d) added).
  { eapply Forall_impl; [|exact Hall].
    intros d (y & Hy & Hd). exists y. split; [|exact Hd].
    apply In_range2 in Hy. lia. }
  destruct r1 as [[]|e].
  - cbn in Hrun. injection Hrun as <- <-. cbn.
    split; [intros e H; discriminate|].
    split; [rewrite written_app, app_nil_r; exact Hw|].
    split; [exists added; auto|].
    intros _. exists (ImdbRun.journal st1). reflexivity.
  - injection Hrun as <- <-.
    split; [exact Hexn|]. split; [exact Hw|].
    split; [exists added; auto|]. intros H. discriminate.
Qed.

(** X5. [main] breaks when the test year gives no record: [save_to_csv]
    logs that there is nothing to save and returns [None], on which
    [df.empty] raises [AttributeError]; nothing has been handed to
    [to_csv]. *)
Theorem main_breaks_when_nothing_was_scraped :
  forall (todecimal : N -> option N)
         (session_get : nat -> str -> result Imdb.Response)
         (urljoin : str -> str -> str)
         (to_csv : str -> ImdbRun.DataFrame -> result unit)
         (series_min series_max : list ImdbRun.cell -> result ImdbRun.cell)
         (st : ImdbRun.state),
    fst (Imdb.scrape_year todecimal session_get urljoin 2000
           (ImdbRun.scraper (snd (ImdbRun.new_scraper st)))) = Ret [] ->
    let run := ImdbRun.main todecimal session_get urljoin to_csv
                 series_min series_max st in
    fst run = Raise AttributeError /\
    ImdbRun.written (ImdbRun.journal (snd run))
      = ImdbRun.written (ImdbRun.journal st) /\
    exists before,
      ImdbRun.journal (snd run)
        = before ++ [ImdbRun.Log Imdb.WARNING ImdbRun.NoDataToSave].
Proof.
  intros todecimal session_get urljoin to_csv series_min series_max st Hyear run.
  unfold ImdbRun.new_scraper in Hyear. cbn [snd ImdbRun.scraper] in Hyear.
  destruct (Imdb.scrape_year todecimal session_get urljoin 2000 _)
    as [r1 s1] eqn:Hscrape.
  cbn [fst] in Hyear. subst r1.
  destruct (scrape_year_adds_year_records _ _ _ _ _ _ _ Hscrape)
    as (added & Hdata & _ & Hout).
  rewrite <- (Hout [] eq_refl) in Hdata. cbn [Imdb.data app] in Hdata.
  assert (Hrun : run =
            (Raise AttributeError,
             {| ImdbRun.scraper := s1;
                ImdbRun.journal :=
                  (ImdbRun.journal st ++ [ImdbRun.Print ImdbRun.TestingWithYear2000])
                  ++ [ImdbRun.Log Imdb.WARNING ImdbRun.NoDataToSave] |})).
  { unfold run, ImdbRun.main.
    unfold bind at 1, ImdbRun.new_scraper.
    unfold bind at 1. cbn [ImdbRun.print ImdbRun.emit ImdbRun.scraper ImdbRun.journal].
    unfold bind at 1, ImdbRun.on_scraper. cbn [ImdbRun.scraper ImdbRun.journal].
    rewrite Hscrape.
    unfold bind at 1, ImdbRun.save_to_csv.
    unfold bind at 1, ImdbRun.self_data. cbn [ImdbRun.scraper].
    rewrite Hdata. reflexivity. }
  rewrite Hrun. cbn [fst snd ImdbRun.journal].
  split; [reflexivity|].
  split; [rewrite !written_app; cbn; rewrite !app_nil_r; reflexivity|].
  eexists. reflexivity.
Qed.

Lemma main_breaks_when_nothing_was_scraped_witness :
  fst (ImdbRun.main ascii_digits_only network_down join_urls
         (fun _ _ => Ret tt) (fun _ => Ret None) (fun _ => Ret None)
         {| ImdbRun.scraper := fresh_scraper; ImdbRun.journal := [] |})
    = Raise AttributeError.
Proof.
  apply (main_breaks_when_nothing_was_scraped ascii_digits_only network_down
           join_urls (fun _ _ => Ret tt) (fun _ => Ret None) (fun _ => Ret None)
           {| ImdbRun.scraper := fresh_scraper; ImdbRun.journal := [] |}).
  vm_compute. reflexivity.
Defined.

(** The columns of [save_to_csv] are the keys of a record of a year, and
    the row of such a record has no gap. *)
Lemma year_record_row (year : Z) (d : dict) :
  year_record year d ->
  (forall key, In key ImdbRun.csv_columns <-> In key (map fst d)) /\
  csv_row (map (dict_get d) ImdbRun.csv_columns).
Proof.
  intros (Hkeys & Hyear & (t & Ht) & (u & Hu) & Hfig).
  split.
  - intros key. rewrite Hkeys. cbn. intuition.
  - destruct (Hfig (lit "opening_weekend")) as (ow & How & Hiow); [cbn; auto|].
    destruct (Hfig (lit "gross_world")) as (gw & Hgw & Higw); [cbn; auto|].
    destruct (Hfig (lit "gross_usa_canada")) as (gu & Hgu & Higu); [cbn; auto 10|].
    destruct (Hfig (lit "budget")) as (b & Hb & Hib); [cbn; auto|].
    exists year, t, ow, gw, gu, b, u.
    cbn [map ImdbRun.csv_columns].
    rewrite Hyear, Ht, Hu, How, Hgw, Hgu, Hb. auto.
Qed.

(** What [save_to_csv] does when there is something to save. *)
Lemma save_to_csv_outcome
    (to_csv : str -> ImdbRun.DataFrame -> result unit)
    (series_min series_max : list ImdbRun.cell -> result ImdbRun.cell)
    (filename : str) (st : ImdbRun.state) :
  Imdb.data (ImdbRun.scraper st) <> [] ->
  let df := ImdbRun.frame_of_records (Imdb.data (ImdbRun.scraper st))
              ImdbRun.csv_columns in
  exists r journal',
    ImdbRun.save_to_csv to_csv series_min series_max filename st
      = (r, {| ImdbRun.scraper := ImdbRun.scraper st;
               ImdbRun.journal := journal' |}) /\
    ImdbRun.written journal'
      = ImdbRun.written (ImdbRun.journal st) ++ [(filename, df)] /\
    (forall out, r = Ret out -> out = Some df) /\
    (forall e, r = Raise e ->
       to_csv filename df = Raise e \/
       series_min (ImdbRun.column df (lit "year")) = Raise e \/
       series_max (ImdbRun.column df (lit "year")) = Raise e).
Proof.
  intros Hne df.
  unfold ImdbRun.save_to_csv. unfold bind at 1, ImdbRun.self_data.
  revert df.
  destruct (Imdb.data (ImdbRun.scraper st)) as [|record data'];
    [contradiction|].
  intros df. fold df.
  unfold bind at 1. cbn [ImdbRun.emit ImdbRun.scraper ImdbRun.journal].
  unfold bind at 1, lift.
  destruct (to_csv filename df) as [[]|e1].
  - unfold bind at 1. cbn [ImdbRun.log ImdbRun.emit ImdbRun.scraper ImdbRun.journal].
    unfold bind at 1. cbn [ImdbRun.print ImdbRun.emit ImdbRun.scraper ImdbRun.journal].
    unfold bind at 1. cbn [ImdbRun.print ImdbRun.emit ImdbRun.scraper ImdbRun.journal].
    unfold bind at 1.
    destruct (series_min (ImdbRun.column df (lit "year"))) as [first|e2].
    + unfold bind at 1.
      destruct (series_max (ImdbRun.column df (lit "year"))) as [last|e3].
      * unfold bind, ImdbRun.print, ImdbRun.emit, ret.
        cbn [ImdbRun.scraper ImdbRun.journal].
        eexists _, _. split; [reflexivity|].
        split; [rewrite !written_app; cbn; rewrite ?app_nil_r; reflexivity|].
        split; [intros out H; injection H as <-; reflexivity|].
        intros e H; discriminate.
      * eexists _, _. split; [reflexivity|].
        split; [rewrite !written_app; cbn; rewrite ?app_nil_r; reflexivity|].
        split; [intros out H; discriminate|].
        intros e H. injection H as <-. auto.
    + eexists _, _. split; [reflexivity|].
      split; [rewrite !written_app; cbn; rewrite ?app_nil_r; reflexivity|].
      split; [intros out H; discriminate|].
      intros e H. injection H as <-. auto.
  - eexists _, _. split; [reflexivity|].
    split; [rewrite !written_app; cbn; rewrite ?app_nil_r; reflexivity|].
    split; [intros out H; discriminate|].
    intros e H. injection H as <-. auto.
Qed.

(** X6. When [self.data] holds records as [scrape_year] makes them,
    [save_to_csv] hands exactly one frame to [to_csv], under the file name
    it was given, whatever [to_csv] and the steps after it do: its seven
    columns are the seven keys of the records, it has one row per record,
    and no cell stands for a missing key. The scraper is left as it was; a
    frame that is returned is the one written; an exception comes from
    [to_csv] or from the minimum or maximum of the years. *)
Theorem save_to_csv_hands_over_complete_rows :
  forall (to_csv : str -> ImdbRun.DataFrame -> result unit)
         (series_min series_max : list ImdbRun.cell -> result ImdbRun.cell)
         (filename : str) (st : ImdbRun.state),
    Imdb.data (ImdbRun.scraper st) <> [] ->
    Forall (fun d => exists year, year_record year d)
           (Imdb.data (ImdbRun.scraper st)) ->
    let data := Imdb.data (ImdbRun.scraper st) in
    let run := ImdbRun.save_to_csv to_csv series_min series_max filename st in
    exists df,
      ImdbRun.written (ImdbRun.journal (snd run))
        = ImdbRun.written (ImdbRun.journal st) ++ [(filename, df)] /\
      ImdbRun.scraper (snd run) = ImdbRun.scraper st /\
      (forall out, fst run = Ret out -> out = Some df) /\
      (forall e, fst run = Raise e ->
         to_csv filename df = Raise e \/
         series_min (ImdbRun.column df (lit "year")) = Raise e \/
         series_max (ImdbRun.column df (lit "year")) = Raise e) /\
      ImdbRun.columns df = ImdbRun.csv_columns /\
      Forall (fun d => forall key,
                In key (ImdbRun.columns df) <-> In key (map fst d)) data /\
      List.length (ImdbRun.rows df) = List.length data /\
      Forall csv_row (ImdbRun.rows df).
Proof.
  intros to_csv series_min series_max filename st Hne Hall data run.
  set (df := ImdbRun.frame_of_records data ImdbRun.csv_columns).
  exists df.
  destruct (save_to_csv_outcome to_csv series_min series_max filename st)
    as (r & journal' & Hrun & Hw & Hout & Hexn); [exact Hne|].
  fold run data df in Hrun, Hw, Hout, Hexn. rewrite Hrun.
  cbn [fst snd ImdbRun.journal ImdbRun.scraper].
  split; [exact Hw|]. split; [reflexivity|].
  split; [exact Hout|]. split; [exact Hexn|].
  split; [reflexivity|].
  split.
  { eapply Forall_impl; [|exact Hall].
    intros d (year & Hd). apply (year_record_row year d Hd). }
  split; [apply length_map|].
  cbn [df ImdbRun.frame_of_records ImdbRun.rows].
  apply Forall_map. eapply Forall_impl; [|exact Hall].
  intros d (year & Hd). apply (year_record_row year d Hd).
Qed.

Lemma save_to_csv_hands_over_complete_rows_witness :
  exists df,
    ImdbRun.written
      (ImdbRun.journal
         (snd (ImdbRun.save_to_csv (fun _ _ => Raise FileNotFoundError)
                 (fun _ => Ret None) (fun _ => Ret None) (lit "out.csv")
                 {| ImdbRun.scraper :=
                      {| Imdb.requests := 0; Imdb.events := [];
                         Imdb.data := [sample_record (lit "Alpha") (lit "u") 2000] |};
                    ImdbRun.journal := [] |})))
      = [(lit "out.csv", df)] /\
    Forall csv_row (ImdbRun.rows df).
Proof.
  destruct (save_to_csv_hands_over_complete_rows
              (fun _ _ => Raise FileNotFoundError)
              (fun _ => Ret None) (fun _ => Ret None) (lit "out.csv")
              {| ImdbRun.scraper :=
                   {| Imdb.requests := 0; Imdb.events := [];
                      Imdb.data := [sample_record (lit "Alpha") (lit "u") 2000] |};
                 ImdbRun.journal := [] |})
    as (df & Hw & _ & _ & _ & _ & _ & _ & Hrows).
  - discriminate.
  - constructor; [|constructor]. exists 2000.
    split; [reflexivity|]. split; [reflexivity|].
    split; [eexists; reflexivity|]. split; [eexists; reflexivity|].
    intros key [<-|[<-|[<-|[<-|[]]]]]; eexists; (split; [reflexivity|]);
      first [left; reflexivity | right; eexists; reflexivity].
  - exists df. split; [exact Hw | exact Hrows].
Defined.

(** ** The seasons of the salary scraper *)

Lemma generate_season_loop_map (years : list Z) :
  forall seasons,
    Salary.generate_season_loop years seasons =
    seasons ++ map (fun year => str_of_int year ++ lit "-" ++ str_of_int (year + 1))
                   years.
Proof.
  induction years as [|year rest IH]; intros seasons; cbn.
  - rewrite app_nil_r. reflexivity.
  - rewrite IH, <- app_assoc. reflexivity.
Qed.

Lemma range2_length (a b : Z) : List.length (range2 a b) = Z.to_nat (b - a).
Proof. unfold range2, range. rewrite !length_map, length_seq. reflexivity. Qed.

Lemma range2_nth_error (a b k : Z) :
  0 <= k < b - a -> nth_error (range2 a b) (Z.to_nat k) = Some (a + k).
Proof.
  intros Hk. unfold range2, range.
  rewrite !nth_error_map.
  rewrite (nth_error_nth' _ 0%nat) by (rewrite length_seq; lia).
  rewrite seq_nth by lia. cbn. f_equal. lia.
Qed.

(** X7. [generate_season_list] gives one season for each year from
    [start_year] up to, but not including, [end_year]: the season at
    position [k] starts in [start_year + k] and is written with the next
    year after a hyphen, so the last season ends in [end_year]; there is no
    season at all when [end_year <= start_year]. *)
Theorem generate_season_list_seasons :
  forall (start_year end_year : Z),
    List.length (Salary.generate_season_list start_year end_year)
      = Z.to_nat (end_year - start_year) /\
    (end_year <= start_year ->
     Salary.generate_season_list start_year end_year = []) /\
    (forall k, 0 <= k < end_year - start_year ->
       nth_error (Salary.generate_season_list start_year end_year) (Z.to_nat k)
         = Some (str_of_int (start_year + k) ++ lit "-"
                 ++ str_of_int (start_year + k + 1))).
Proof.
  intros start_year end_year. unfold Salary.generate_season_list.
  rewrite generate_season_loop_map. cbn [app].
  split; [rewrite length_map; apply range2_length|].
  split.
  - intros H. unfold range2, range.
    replace (Z.to_nat (end_year - start_year)) with 0%nat by lia. reflexivity.
  - intros k Hk. rewrite nth_error_map, range2_nth_error by exact Hk.
    reflexivity.
Qed.

Lemma generate_season_list_seasons_witness :
  List.length (Salary.generate_season_list 2013 2025) = 12%nat /\
  nth_error (Salary.generate_season_list 2013 2025) 11 = Some (lit "2024-2025") /\
  Salary.generate_season_list 2025 2013 = [].
Proof.
  destruct (generate_season_list_seasons 2013 2025) as (Hlen & _ & Hnth).
  destruct (generate_season_list_seasons 2025 2013) as (_ & Hnone & _).
  split; [exact Hlen|]. split; [apply (Hnth 11); lia | apply Hnone; lia].
Defined.

(** ** What the fetch functions let through *)

Ltac run_session :=
  unfold Salary.webdriver_Chrome, try_finally, try_except, Salary.driver_get,
    Salary.wait_until_table, Salary.execute_script, Salary.driver_quit, bind,
    lift, Salary.emit, Salary.sleep, Salary.print, ret, raise;
  cbn [Salary.sessions Salary.events].

Section FetchOutcome.

Variable chrome : nat -> Salary.browser.
Variable url : str.
Variable st : Salary.state.

Let b : Salary.browser := chrome (Salary.sessions st).

(** The exception is one that the [except Exception] clause of the fetch
    functions does not handle: the driver could not be created or could
    not be quit, or the exception of a step in between is no [Exception]. *)
Let let_through (e : exn) : Prop :=
  Salary.start b = Raise e \/
  Salary.stop b = Raise e \/
  is_Exception e = false /\
  (Salary.navigate b url = Raise e \/
   Salary.table_located b url = Raise e \/
   Salary.document b url = Raise e).

Lemma fetch_outcome (script : list Salary.Row -> list dict) :
  let run :=
    (driver <- Salary.webdriver_Chrome chrome ;;
     try_finally
       (try_except
          (Salary.driver_get chrome driver url ;;;
           Salary.wait_until_table chrome driver url ;;;
           Salary.sleep 2 ;;;
           data <- Salary.execute_script chrome driver url script ;;
           ret data)
          is_Exception
          (fun e => Salary.print (Salary.ErrorScrapingData e) ;;; ret []))
       (Salary.driver_quit chrome driver)) st in
  (forall e, fst run = Raise e -> let_through e) /\
  (Salary.start b = Ret tt -> Salary.stop b = Ret tt ->
   (forall e, Salary.navigate b url = Raise e \/
              Salary.table_located b url = Raise e \/
              Salary.document b url = Raise e -> is_Exception e = true) ->
   exists data, fst run = Ret data).
Proof.
  unfold let_through, b. run_session.
  destruct (Salary.start (chrome (Salary.sessions st))) as [[]|e0].
  2:{ cbn. split; [intros e H; injection H as <-; auto | discriminate]. }
  destruct (Salary.navigate (chrome (Salary.sessions st)) url) as [[]|e1].
  - destruct (Salary.table_located (chrome (Salary.sessions st)) url) as [[]|e2].
    + destruct (Salary.document (chrome (Salary.sessions st)) url)
        as [[rows|]|e3]; cbn.
      * destruct (Salary.stop (chrome (Salary.sessions st))) as [[]|e4]; cbn.
        -- split; [discriminate | eauto].
        -- split; [intros e H; injection H as <-; auto | discriminate].
      * destruct (Salary.stop (chrome (Salary.sessions st))) as [[]|e4]; cbn.
        -- split; [discriminate | eauto].
        -- split; [intros e H; injection H as <-; auto | discriminate].
      * destruct (is_Exception e3) eqn:He3; cbn;
          destruct (Salary.stop (chrome (Salary.sessions st))) as [[]|e4]; cbn.
        -- split; [discriminate | eauto].
        -- split; [intros e H; injection H as <-; auto | discriminate].
        -- split; [intros e H; injection H as <-; auto 10|].
           intros _ _ H. rewrite (H e3) in He3 by auto. discriminate.
        -- split; [intros e H; injection H as <-; auto | discriminate].
    + destruct (is_Exception e2) eqn:He2; cbn;
        destruct (Salary.stop (chrome (Salary.sessions st))) as [[]|e4]; cbn.
      * split; [discriminate | eauto].
      * split; [intros e H; injection H as <-; auto | discriminate].
      * split; [intros e H; injection H as <-; auto 10|].
        intros _ _ H. rewrite (H e2) in He2 by auto. discriminate.
      * split; [intros e H; injection H as <-; auto | discriminate].
  - destruct (is_Exception e1) eqn:He1; cbn;
      destruct (Salary.stop (chrome (Salary.sessions st))) as [[]|e4]; cbn.
    + split; [discriminate | eauto].
    + split; [intros e H; injection H as <-; auto | discriminate].
    + split; [intros e H; injection H as <-; auto 10|].
      intros _ _ H. rewrite (H e1) in He1 by auto. discriminate.
    + split; [intros e H; injection H as <-; auto | discriminate].
Qed.

End FetchOutcome.

(** X8. The two fetch functions of the salary scraper raise only what
    their [except Exception] clause cannot handle: the exception of
    [webdriver.Chrome()], which is called before the [try]; the exception
    of [driver.quit()], which runs in the [finally] clause; or an exception
    of loading, waiting or running the script that is no [Exception]. When
    the driver starts and quits and the steps in between raise nothing but
    [Exception]s, both functions return. *)
Theorem fetch_raises_only_outside_its_handler :
  forall (chrome : nat -> Salary.browser) (url : str) (st : Salary.state),
    let b := chrome (Salary.sessions st) in
    let steps_raise e :=
      Salary.navigate b url = Raise e \/
      Salary.table_located b url = Raise e \/
      Salary.document b url = Raise e in
    let let_through e :=
      Salary.start b = Raise e \/ Salary.stop b = Raise e \/
      is_Exception e = false /\ steps_raise e in
    (forall e, fst (Salary.scrape_team_salary_data chrome url st) = Raise e ->
       let_through e) /\
    (forall e, fst (Salary.scrape_all_columns chrome url st) = Raise e ->
       let_through e) /\
    (Salary.start b = Ret tt -> Salary.stop b = Ret tt ->
     (forall e, steps_raise e -> is_Exception e = true) ->
     (exists data, fst (Salary.scrape_team_salary_data chrome url st) = Ret data) /\
     (exists data, fst (Salary.scrape_all_columns chrome url st) = Ret data)).
Proof.
  intros chrome url st b steps_raise let_through.
  destruct (fetch_outcome chrome url st Salary.script_team_salary) as [Ha Hb].
  destruct (fetch_outcome chrome url st Salary.script_all_columns) as [Hc Hd].
  split; [exact Ha|]. split; [exact Hc|].
  intros Hstart Hstop Hsteps. split; [apply Hb | apply Hd]; assumption.
Qed.

Lemma fetch_raises_only_outside_its_handler_witness :
  is_Exception KeyboardInterrupt = false /\
  (exists data,
     fst (Salary.scrape_all_columns linkless_browser (lit "u") no_session_yet)
       = Ret data).
Proof.
  destruct (fetch_raises_only_outside_its_handler interrupted_browser (lit "u")
              no_session_yet) as (_ & Hraise & _).
  destruct (fetch_raises_only_outside_its_handler linkless_browser (lit "u")
              no_session_yet) as (_ & _ & Hreturn).
  split.
  - destruct (Hraise KeyboardInterrupt eq_refl) as [H|[H|[H _]]];
      [discriminate | discriminate | exact H].
  - apply Hreturn; [reflexivity | reflexivity |].
    intros e [H|[H|H]]; discriminate.
Defined.

(** X9. [scrape_single_season] lets no [Exception] through. It returns
    what [scrape_all_columns] returns; and when the browser cannot even be
    started, which [scrape_all_columns] does not handle, it prints the
    error and returns the empty list: the driver was never created, and no
    [quit] is attempted. *)
Theorem scrape_single_season_catches_the_driver :
  forall (chrome : nat -> Salary.browser) (url : str) (st : Salary.state),
    let run := Salary.scrape_single_season chrome url st in
    (forall e, fst run = Raise e -> is_Exception e = false) /\
    (forall data, fst (Salary.scrape_all_columns chrome url st) = Ret data ->
       run = Salary.scrape_all_columns chrome url st) /\
    (forall e, Salary.start (chrome (Salary.sessions st)) = Raise e ->
       is_Exception e = true ->
       run = (Ret [],
              {| Salary.sessions := S (Salary.sessions st);
                 Salary.events :=
                   Salary.events st
                   ++ [Salary.Chrome (Salary.sessions st);
                       Salary.Print (Salary.ErrorScraping url e)] |})).
Proof.
  intros chrome url st run. unfold run, Salary.scrape_single_season.
  split; [|split].
  - unfold try_except, bind at 1.
    destruct (Salary.scrape_all_columns chrome url st) as [[data|e] st1]; cbn.
    + discriminate.
    + destruct (is_Exception e) eqn:He; cbn; [discriminate|].
      intros e' H. injection H as <-. exact He.
  - intros data. unfold try_except, bind at 1.
    destruct (Salary.scrape_all_columns chrome url st) as [[data'|e] st1]; cbn;
      [reflexivity | discriminate].
  - intros e Hstart He.
    unfold Salary.scrape_all_columns. run_session.
    rewrite Hstart, He. cbn. rewrite <- app_assoc. reflexivity.
Qed.

Lemma scrape_single_season_catches_the_driver_witness :
  fst (Salary.scrape_single_season second_session_breaks (lit "u")
         {| Salary.sessions := 1; Salary.events := [] |}) = Ret [].
Proof.
  destruct (scrape_single_season_catches_the_driver second_session_breaks (lit "u")
              {| Salary.sessions := 1; Salary.events := [] |}) as (_ & _ & H).
  rewrite (H WebDriverException eq_refl eq_refl). reflexivity.
Defined.

(** ** The two scripts, and the parser without a browser *)

(** X10. The script of [scrape_all_columns] gives, for the rows of at least
    nine cells, what the script of [scrape_team_salary_data] gives for
    them: one record per row, in order, with the same team name and the
    same adjusted gross; the short script also keeps the rows of five to
    eight cells. *)
Theorem scripts_agree_on_full_rows :
  forall (rows : list Salary.Row),
    Forall2
      (fun full short =>
         dict_get full (lit "team_name") = dict_get short (lit "team_name") /\
         dict_get full (lit "adj_gross_gbp") = dict_get short (lit "adj_gross_gbp"))
      (Salary.script_all_columns rows)
      (Salary.script_team_salary
         (filter (fun cells => Nat.leb 9 (List.length cells)) rows)) /\
    List.length (Salary.script_team_salary rows)
      = List.length (filter (fun cells => Nat.leb 5 (List.length cells)) rows).
Proof.
  intros rows. split.
  - induction rows as [|cells rows IH]; [constructor|].
    cbn [filter Salary.script_all_columns].
    destruct (Nat.leb 9 (List.length cells)) eqn:H9; [|exact IH].
    cbn [Salary.script_team_salary].
    assert (H5 : Nat.leb 5 (List.length cells) = true).
    { apply Nat.leb_le. apply Nat.leb_le in H9. lia. }
    rewrite H5. destruct cells as [|cell0 rest]; [discriminate|].
    constructor; [split; reflexivity | exact IH].
  - induction rows as [|cells rows IH]; [reflexivity|].
    cbn [filter Salary.script_team_salary].
    destruct (Nat.leb 5 (List.length cells)) eqn:H5; [|exact IH].
    destruct cells as [|cell0 rest]; [discriminate|].
    cbn [List.length]. rewrite IH. reflexivity.
Qed.

Lemma strips_agree (c : N) :
  strips_differ c = false -> isspace c = Salary.js_space c.
Proof.
  intros H. apply eq_true_iff_eq.
  unfold isspace, Salary.js_space, strips_differ in *.
  rewrite ?orb_false_iff, ?andb_false_iff, ?N.leb_gt, ?N.eqb_neq in H.
  rewrite ?orb_true_iff, ?andb_true_iff, ?N.leb_le, ?N.eqb_eq. lia.
Qed.

Lemma lstrip_by_ext (f g : N -> bool) (s : str) :
  Forall (fun c => f c = g c) s -> lstrip_by f s = lstrip_by g s.
Proof.
  induction 1 as [|c s Hc _ IH]; cbn; [reflexivity|].
  rewrite Hc, IH. reflexivity.
Qed.

Lemma lstrip_by_Forall (P : N -> Prop) (f : N -> bool) (s : str) :
  Forall P s -> Forall P (lstrip_by f s).
Proof.
  induction 1 as [|c s Hc Hs IH]; cbn; [constructor|].
  destruct (f c); [exact IH | constructor; assumption].
Qed.

Lemma strip_is_trim (s : str) : plain_text s -> strip s = Salary.trim s.
Proof.
  intros H. unfold strip, Salary.trim, rstrip_by.
  assert (Hagree : Forall (fun c => isspace c = Salary.js_space c) s).
  { eapply Forall_impl; [|exact H]. intros c. apply strips_agree. }
  rewrite (lstrip_by_ext _ _ s Hagree). f_equal.
  apply lstrip_by_ext, Forall_rev, lstrip_by_Forall, Hagree.
Qed.

Lemma rows_loop_app (rows : list Salary.Row) :
  forall data, SalarySoup.rows_loop rows data = data ++ SalarySoup.rows_loop rows [].
Proof.
  induction rows as [|cells rows IH]; intros data; cbn [SalarySoup.rows_loop].
  - rewrite app_nil_r. reflexivity.
  - destruct (Nat.leb 5 (List.length cells)); [|apply IH].
    destruct cells as [|cell0 rest]; [apply IH|].
    rewrite (IH (data ++ _)), (IH ([] ++ _)), <- app_assoc. reflexivity.
Qed.

(** X11. [scrape_with_beautifulsoup] on a document without the table
    prints that it is not found and returns the empty list; on a table
    without a [tbody] it raises [AttributeError]; and on a table whose
    texts hold none of the characters that Python and JavaScript strip
    differently, it returns the very records that the script of
    [scrape_team_salary_data] computes in the browser, and prints
    nothing. *)
Theorem scrape_with_beautifulsoup_agrees_with_the_script :
  forall (st : SalarySoup.state),
    SalarySoup.scrape_with_beautifulsoup {| SalarySoup.table := None |} st
      = (Ret [], st ++ [SalarySoup.TableNotFound]) /\
    SalarySoup.scrape_with_beautifulsoup
      {| SalarySoup.table := Some {| SalarySoup.tbody := None |} |} st
      = (Raise AttributeError, st) /\
    forall rows,
      Forall (Forall plain_cell) rows ->
      SalarySoup.scrape_with_beautifulsoup
        {| SalarySoup.table := Some {| SalarySoup.tbody := Some rows |} |} st
        = (Ret (Salary.script_team_salary rows), st).
Proof.
  intros st. split; [reflexivity|]. split; [reflexivity|].
  intros rows Hplain.
  unfold SalarySoup.scrape_with_beautifulsoup, ret.
  cbn [SalarySoup.table SalarySoup.tbody]. do 2 f_equal.
  induction Hplain as [|cells rows Hcells _ IH]; [reflexivity|].
  cbn [SalarySoup.rows_loop Salary.script_team_salary].
  destruct (Nat.leb 5 (List.length cells)) eqn:H5; [|exact IH].
  destruct cells as [|cell0 rest]; [exact IH|].
  rewrite rows_loop_app, IH. cbn [app]. f_equal.
  assert (Hname : SalarySoup.team_name cell0 = Salary.teamName cell0).
  { unfold SalarySoup.team_name, Salary.teamName.
    inversion Hcells as [|? ? [_ Hlink] _]; subst.
    destruct (Salary.firstcol cell0) as [t|]; [|reflexivity].
    apply strip_is_trim, Hlink. reflexivity. }
  assert (Hgross :
            strip (Salary.textContent
                     (nth 4 (cell0 :: rest)
                        {| Salary.firstcol := None; Salary.textContent := [] |}))
            = Salary.trim (Salary.textContent
                     (nth 4 (cell0 :: rest)
                        {| Salary.firstcol := None; Salary.textContent := [] |}))).
  { apply strip_is_trim.
    assert (Hin : In (nth 4 (cell0 :: rest)
                        {| Salary.firstcol := None; Salary.textContent := [] |})
                     (cell0 :: rest)).
    { apply nth_In. apply Nat.leb_le in H5. apply H5. }
    rewrite Forall_forall in Hcells. exact (proj1 (Hcells _ Hin)). }
  rewrite Hname. unfold Salary.cell_text. rewrite Hgross. reflexivity.
Qed.

Lemma scrape_with_beautifulsoup_agrees_with_the_script_witness :
  SalarySoup.scrape_with_beautifulsoup
    {| SalarySoup.table :=
         Some {| SalarySoup.tbody := Some [row_with_link; row_without_link] |} |} []
    = (Ret (Salary.script_team_salary [row_with_link; row_without_link]), []).
Proof.
  destruct (scrape_with_beautifulsoup_agrees_with_the_script [])
    as (_ & _ & H).
  apply H.
  repeat (apply Forall_cons || apply Forall_nil);
    (split; [|intros t Ht; try discriminate; injection Ht as <-]);
    repeat (apply Forall_cons || apply Forall_nil); reflexivity.
Defined.

(** ** Cleaning the money columns *)

Lemma clean_money_value_str (todecimal : N -> option N) {S} (st : S) (s : str) :
  exists n, Salary.clean_money_value todecimal (VStr s) st = (Ret n, st).
Proof.
  unfold Salary.clean_money_value.
  destruct (_ || _); [exists 0; reflexivity|].
  destruct (int_returns_or_ValueError todecimal
              (Salary.remove_pound_space_comma s)) as [[n H]|H];
    [exists n | exists 0]; unfold try_except, lift; rewrite H; reflexivity.
Qed.

(** [clean_money_value] never touches the state, and raises nothing but
    the [AttributeError] of [replace] on an [int]. *)
Lemma clean_money_value_outcome (todecimal : N -> option N) {S} (st : S)
    (v : value) :
  snd (Salary.clean_money_value todecimal v st) = st /\
  forall e, fst (Salary.clean_money_value todecimal v st) = Raise e ->
    e = AttributeError /\ exists n, v = VInt n /\ n <> 0.
Proof.
  destruct v as [|s|n].
  - split; [reflexivity | discriminate].
  - destruct (clean_money_value_str todecimal st s) as [n ->].
    split; [reflexivity | discriminate].
  - cbn. destruct (n =? 0) eqn:Hn; cbn; (split; [reflexivity|]);
      [discriminate|].
    intros e H. injection H as <-. split; [reflexivity|].
    exists n. split; [reflexivity|]. apply Z.eqb_neq, Hn.
Qed.

Lemma str_eqb_neq (a b : str) : a <> b -> str_eqb a b = false.
Proof.
  intros H. destruct (str_eqb a b) eqn:E; [|reflexivity].
  apply str_eqb_eq in E. contradiction.
Qed.

Section Cleaning.

Variable todecimal : N -> option N.
Context {S : Type}.

(** On a record whose money columns hold strings, [clean_record] returns:
    the keys stay as they are, every money column that is there becomes an
    integer, and nothing else changes. *)
Lemma clean_record_strings :
  forall (cols : list str) (record : dict) (st : S),
    NoDup cols ->
    (forall col, In col cols -> str_or_absent (dict_get record col)) ->
    exists record',
      Salary.clean_record todecimal cols record st = (Ret record', st) /\
      map fst record' = map fst record /\
      (forall key, ~ In key cols -> dict_get record' key = dict_get record key) /\
      (forall col, In col cols -> dict_get record col <> None ->
         exists n, dict_get record' col = Some (VInt n)).
Proof.
  induction cols as [|c cols IH]; intros record st Hnodup Hstr.
  - exists record. cbn. repeat split; auto. intros col [].
  - inversion Hnodup as [|? ? Hnotin Hnodup']; subst.
    cbn [Salary.clean_record].
    destruct (dict_get record c) as [v|] eqn:Hc.
    + destruct (Hstr c (or_introl eq_refl)) as [H|[s H]]; [congruence|].
      rewrite Hc in H. injection H as ->.
      destruct (clean_money_value_str todecimal st s) as [n Hn].
      unfold bind at 1. rewrite Hn.
      assert (Hother : forall key, key <> c ->
                dict_get (dict_set record c (VInt n)) key = dict_get record key).
      { intros key Hkey. apply dict_get_set_other, str_eqb_neq. congruence. }
      destruct (IH (dict_set record c (VInt n)) st Hnodup')
        as (record' & Hrun & Hkeys & Hkeep & Hints).
      { intros col Hcol. rewrite Hother; [apply Hstr; right; exact Hcol|].
        intros ->. contradiction. }
      exists record'. split; [exact Hrun|].
      split; [rewrite Hkeys; eapply dict_set_keys_present, Hc|].
      split.
      * intros key Hkey. rewrite Hkeep by (intros H; apply Hkey; right; exact H).
        apply Hother. intros ->. apply Hkey. left. reflexivity.
      * intros col [<-|Hcol] Hpresent.
        -- exists n. rewrite Hkeep by exact Hnotin. apply dict_get_set_same.
        -- apply Hints; [exact Hcol|]. rewrite Hother; [exact Hpresent|].
           intros ->. contradiction.
    + destruct (IH record st Hnodup') as (record' & Hrun & Hkeys & Hkeep & Hints).
      { intros col Hcol. apply Hstr. right. exact Hcol. }
      exists record'. split; [exact Hrun|]. split; [exact Hkeys|].
      split.
      * intros key Hkey. apply Hkeep. intros H. apply Hkey. right. exact H.
      * intros col [<-|Hcol] Hpresent; [contradiction|].
        apply Hints; assumption.
Qed.

(** An integer under a key stays an integer through [clean_record]. *)
Lemma clean_record_preserves_int (col : str) :
  forall (cols : list str) (record record' : dict) (st st' : S),
    Salary.clean_record todecimal cols record st = (Ret record', st') ->
    int_or_absent (dict_get record col) ->
    int_or_absent (dict_get record' col).
Proof.
  induction cols as [|c cols IH]; intros record record' st st' Hrun Hint.
  - injection Hrun as <- _. exact Hint.
  - cbn [Salary.clean_record] in Hrun.
    destruct (dict_get record c) as [v|] eqn:Hc; [|eapply IH; eassumption].
    unfold bind at 1 in Hrun.
    destruct (Salary.clean_money_value todecimal v st) as [[n|e] st1];
      [|discriminate].
    eapply IH; [exact Hrun|].
    destruct (str_eqb c col) eqn:Heq.
    + apply str_eqb_eq in Heq. subst col. rewrite dict_get_set_same.
      right. exists n. reflexivity.
    + rewrite dict_get_set_other by exact Heq. exact Hint.
Qed.

(** After [clean_record], every column of the list holds an integer or is
    absent. *)
Lemma clean_record_ints :
  forall (cols : list str) (record record' : dict) (st st' : S),
    Salary.clean_record todecimal cols record st = (Ret record', st') ->
    forall col, In col cols -> int_or_absent (dict_get record' col).
Proof.
  induction cols as [|c cols IH]; intros record record' st st' Hrun col Hcol;
    [contradiction|].
  cbn [Salary.clean_record] in Hrun.
  destruct (dict_get record c) as [v|] eqn:Hc.
  - unfold bind at 1 in Hrun.
    destruct (Salary.clean_money_value todecimal v st) as [[n|e] st1];
      [|discriminate].
    destruct Hcol as [<-|Hcol]; [|eapply IH; eassumption].
    eapply clean_record_preserves_int; [exact Hrun|].
    rewrite dict_get_set_same. right. exists n. reflexivity.
  - destruct Hcol as [<-|Hcol]; [|eapply IH; eassumption].
    eapply clean_record_preserves_int; [exact Hrun|].
    left. exact Hc.
Qed.

Lemma dict_set_same_value (d : dict) (key : str) (v : value) :
  dict_get d key = Some v -> dict_set d key v = d.
Proof.
  induction d as [|[k w] d IH]; cbn; [discriminate|].
  destruct (str_eqb k key) eqn:Hk.
  - intros H. injection H as ->. reflexivity.
  - intros H. rewrite IH by exact H. reflexivity.
Qed.

(** On a record whose columns hold integers, [clean_record] raises
    [AttributeError], or every integer is 0 and the record comes back as
    it is. *)
Lemma clean_record_on_ints :
  forall (cols : list str) (record : dict) (st : S),
    (forall col, In col cols -> int_or_absent (dict_get record col)) ->
    fst (Salary.clean_record todecimal cols record st) = Raise AttributeError \/
    (Salary.clean_record todecimal cols record st = (Ret record, st) /\
     forall col n, In col cols -> dict_get record col = Some (VInt n) -> n = 0).
Proof.
  induction cols as [|c cols IH]; intros record st Hints.
  - right. split; [reflexivity|]. intros col n [].
  - cbn [Salary.clean_record].
    assert (Hrest : forall col, In col cols -> int_or_absent (dict_get record col)).
    { intros col Hcol. apply Hints. right. exact Hcol. }
    destruct (Hints c (or_introl eq_refl)) as [Hc|[n Hc]]; rewrite Hc.
    + destruct (IH record st Hrest) as [Hraise|[Hrun Hzero]];
        [left; exact Hraise|].
      right. split; [exact Hrun|].
      intros col n [<-|Hcol] Hn; [congruence | eapply Hzero; eassumption].
    + cbn [Salary.clean_money_value].
      destruct (n =? 0) eqn:Hn; [|left; reflexivity].
      apply Z.eqb_eq in Hn. subst n. unfold bind, ret. cbv beta iota.
      rewrite (dict_set_same_value record c (VInt 0) Hc).
      destruct (IH record st Hrest) as [Hraise|[Hrun Hzero]];
        [left; exact Hraise|].
      right. split; [exact Hrun|].
      intros col n [<-|Hcol] Hn; [congruence | eapply Hzero; eassumption].
Qed.

Lemma clean_data_ints :
  forall (data data' : list dict) (st st' : S),
    Salary.clean_data_money_columns todecimal data st = (Ret data', st') ->
    Forall (fun record => forall col, In col Salary.money_columns ->
              int_or_absent (dict_get record col)) data'.
Proof.
  induction data as [|record data IH]; intros data' st st' Hrun.
  - injection Hrun as <- _. constructor.
  - cbn [Salary.clean_data_money_columns] in Hrun. unfold bind at 1 in Hrun.
    destruct (Salary.clean_record todecimal Salary.money_columns record st)
      as [[record'|e] st1] eqn:Hrec; [|discriminate].
    unfold bind at 1 in Hrun.
    destruct (Salary.clean_data_money_columns todecimal data st1)
      as [[rest'|e] st2] eqn:Hdata; [|discriminate].
    injection Hrun as <- _. constructor.
    + eapply clean_record_ints, Hrec.
    + eapply IH, Hdata.
Qed.

Lemma clean_data_on_ints :
  forall (data : list dict) (st : S),
    Forall (fun record => forall col, In col Salary.money_columns ->
              int_or_absent (dict_get record col)) data ->
    (exists record col n,
       In record data /\ In col Salary.money_columns /\
       dict_get record col = Some (VInt n) /\ n <> 0) ->
    fst (Salary.clean_data_money_columns todecimal data st) = Raise AttributeError.
Proof.
  induction data as [|record data IH]; intros st Hints Hnonzero.
  - destruct Hnonzero as (r & _ & _ & [] & _).
  - inversion Hints as [|? ? Hrecord Hdata]; subst.
    cbn [Salary.clean_data_money_columns]. unfold bind at 1.
    destruct (clean_record_on_ints Salary.money_columns record st Hrecord)
      as [Hraise|[Hrun Hzero]].
    + destruct (Salary.clean_record todecimal Salary.money_columns record st)
        as [[r|e] st1]; [discriminate|].
      cbn in Hraise |- *. injection Hraise as ->. reflexivity.
    + rewrite Hrun. unfold bind at 1.
      assert (Hrest : fst (Salary.clean_data_money_columns todecimal data st)
                      = Raise AttributeError).
      { apply IH; [exact Hdata|].
        destruct Hnonzero as (r & col & n & [<-|Hr] & Hcol & Hn & Hne).
        - exfalso. apply Hne. eapply Hzero; eassumption.
        - exists r, col, n. auto. }
      destruct (Salary.clean_data_money_columns todecimal data st)
        as [[r|e] st1]; [discriminate|].
      cbn in Hrest |- *. injection Hrest as ->. reflexivity.
Qed.

End Cleaning.

Lemma NoDup_money_columns : NoDup Salary.money_columns.
Proof.
  unfold Salary.money_columns. repeat constructor; cbv; intuition discriminate.
Qed.

(** A record of the script of [scrape_all_columns] has the nine keys, each
    with a string. *)
Lemma script_all_columns_shape (rows : list Salary.Row) :
  Forall (fun record =>
            map fst record = salary_keys /\
            forall key, In key salary_keys ->
              exists s, dict_get record key = Some (VStr s))
         (Salary.script_all_columns rows).
Proof.
  induction rows as [|cells rows IH]; [constructor|].
  cbn [Salary.script_all_columns].
  destruct (Nat.leb 9 (List.length cells)); [|exact IH].
  destruct cells as [|cell0 rest]; [exact IH|].
  constructor; [|exact IH]. split; [reflexivity|].
  unfold Salary.cell_text.
  intros key [<-|[<-|[<-|[<-|[<-|[<-|[<-|[<-|[<-|[]]]]]]]]]];
    eexists; reflexivity.
Qed.

(** X12. Cleaning what the script of [scrape_all_columns] scraped never
    raises and touches nothing else: every record keeps its nine keys in
    their order, its team name and its club code, and each of its seven
    money columns becomes an integer. *)
Theorem scraped_rows_are_cleaned :
  forall (todecimal : N -> option N) (rows : list Salary.Row)
         (S : Type) (st : S),
    exists cleaned,
      Salary.clean_data_money_columns todecimal (Salary.script_all_columns rows) st
        = (Ret cleaned, st) /\
      Forall2
        (fun raw record =>
           map fst record = salary_keys /\
           dict_get record (lit "team_name") = dict_get raw (lit "team_name") /\
           dict_get record (lit "club_code") = dict_get raw (lit "club_code") /\
           forall col, In col Salary.money_columns ->
             exists n, dict_get record col = Some (VInt n))
        (Salary.script_all_columns rows) cleaned.
Proof.
  intros todecimal rows S st.
  pose proof (script_all_columns_shape rows) as Hshape.
  induction Hshape as [|record data [Hkeys Hstr] _ IH].
  - exists []. split; [reflexivity | constructor].
  - destruct IH as (rest' & Hrest & Hall).
    destruct (clean_record_strings todecimal Salary.money_columns record st
                NoDup_money_columns)
      as (record' & Hrun & Hkeys' & Hkeep & Hints).
    { intros col Hcol. right. apply Hstr.
      unfold salary_keys. right. right. exact Hcol. }
    exists (record' :: rest'). cbn [Salary.clean_data_money_columns].
    unfold bind at 1. rewrite Hrun. unfold bind at 1. rewrite Hrest.
    split; [reflexivity|]. constructor; [|exact Hall].
    split; [rewrite Hkeys'; exact Hkeys|].
    split; [apply Hkeep; cbv; intuition discriminate|].
    split; [apply Hkeep; cbv; intuition discriminate|].
    intros col Hcol. apply Hints; [exact Hcol|].
    destruct (Hstr col) as [s Hs]; [right; right; exact Hcol|].
    rewrite Hs. discriminate.
Qed.

(** X13. [clean_data_money_columns] cannot be applied to its own result:
    as soon as one money column of the cleaned data holds an integer other
    than 0, cleaning the data again raises [AttributeError], the integer
    having no [replace]. *)
Theorem cleaning_cleaned_data_raises :
  forall (todecimal : N -> option N) (S : Type) (data cleaned : list dict)
         (st st' again : S) (record : dict) (col : str) (n : Z),
    Salary.clean_data_money_columns todecimal data st = (Ret cleaned, st') ->
    In record cleaned ->
    In col Salary.money_columns ->
    dict_get record col = Some (VInt n) ->
    n <> 0 ->
    fst (Salary.clean_data_money_columns todecimal cleaned again)
      = Raise AttributeError.
Proof.
  intros todecimal S data cleaned st st' again record col n Hrun Hin Hcol Hn Hne.
  apply clean_data_on_ints.
  - eapply clean_data_ints, Hrun.
  - exists record, col, n. auto.
Qed.

Lemma cleaning_cleaned_data_raises_witness :
  fst (Salary.clean_data_money_columns ascii_digits_only
         [ [ (lit "team_name", VStr (lit "Arsenal"));
             (lit "adj_gross_gbp", VInt 47070570) ] ] tt)
    = Raise AttributeError.
Proof.
  apply (cleaning_cleaned_data_raises ascii_digits_only unit
           [ [ (lit "team_name", VStr (lit "Arsenal"));
               (lit "adj_gross_gbp", VStr (pound :: lit " 47,070,570")) ] ]
           [ [ (lit "team_name", VStr (lit "Arsenal"));
               (lit "adj_gross_gbp", VInt 47070570) ] ]
           tt tt tt
           [ (lit "team_name", VStr (lit "Arsenal"));
             (lit "adj_gross_gbp", VInt 47070570) ]
           (lit "adj_gross_gbp") 47070570).
  - reflexivity.
  - left. reflexivity.
  - cbv. auto.
  - reflexivity.
  - discriminate.
Defined.

(** ** What the normalizers read *)

Lemma is_digit_bounds (c : N) : is_digit c = true -> (48 <= c <= 57)%N.
Proof.
  unfold is_digit. intros H. apply andb_prop in H as [H1 H2].
  apply N.leb_le in H1, H2. lia.
Qed.

Lemma N_eqb_false (c k : N) : c <> k -> (c =? k)%N = false.
Proof. apply N.eqb_neq. Qed.

Lemma digit_not_space (c : N) : is_digit c = true -> isspace c = false.
Proof.
  intros H. apply is_digit_bounds in H.
  apply not_true_is_false. unfold isspace.
  rewrite ?orb_true_iff, ?andb_true_iff, ?N.leb_le, ?N.eqb_eq. lia.
Qed.

Section ReadingDigits.

Variable todecimal : N -> option N.

Lemma scan_digits_all (ds : str) :
  Forall (fun c => is_digit c = true) ds ->
  forall acc n,
    scan_digits false acc n ds =
    Some (fold_left (fun a c => 10 * a + (Z.of_N c - 48)) ds acc,
          (n + List.length ds)%nat, []).
Proof.
  induction 1 as [|c ds Hc _ IH]; intros acc n; cbn [scan_digits fold_left List.length].
  - rewrite Nat.add_0_r. reflexivity.
  - pose proof (is_digit_bounds c Hc) as Hb.
    unfold underscore. rewrite N_eqb_false by lia.
    unfold digit_value. fold (is_digit c). rewrite Hc, IH.
    do 3 f_equal. lia.
Qed.

Lemma int_of_digits (ds : str) :
  ds <> [] ->
  Forall (fun c => is_digit c = true) ds ->
  (List.length ds <= int_max_str_digits)%nat ->
  int todecimal ds = Ret (decimal ds).
Proof.
  intros Hne Hds Hlen. unfold int, transform_decimal_and_space_to_ascii.
  assert (Hascii : forallb (fun c => (c <? 128)%N) ds = true).
  { apply forallb_forall. rewrite Forall_forall in Hds.
    intros c Hc. apply Hds, is_digit_bounds in Hc. apply N.ltb_lt. lia. }
  rewrite Hascii. unfold long_from_string.
  destruct ds as [|c ds]; [contradiction|].
  inversion Hds as [|? ? Hc Hrest]; subst.
  pose proof (is_digit_bounds c Hc) as Hb.
  assert (Hsp : Py_ISSPACE c = false).
  { apply not_true_is_false. unfold Py_ISSPACE.
    rewrite ?orb_true_iff, ?andb_true_iff, ?N.leb_le, ?N.eqb_eq. lia. }
  cbn [lstrip_by]. rewrite Hsp.
  rewrite (N_eqb_false c 43), (N_eqb_false c 45) by lia.
  unfold underscore at 1. rewrite (N_eqb_false c 95) by lia.
  rewrite (scan_digits_all (c :: ds) Hds 0 0).
  cbn [Nat.add List.length].
  destruct (Nat.ltb int_max_str_digits (S (List.length ds))) eqn:Hmax.
  - apply Nat.ltb_lt in Hmax. cbn [List.length] in Hlen. lia.
  - cbn [lstrip_by]. unfold decimal. rewrite Z.mul_1_l. reflexivity.
Qed.

(** Without the pound signs, the spaces and the commas, a text made of
    them and of digits is its digits. *)
Lemma remove_pound_space_comma_digits (text : str) :
  Forall (fun c => is_digit c = true \/ c = pound \/ c = 32%N \/ c = 44%N) text ->
  Salary.remove_pound_space_comma text = filter is_digit text.
Proof.
  unfold Salary.remove_pound_space_comma, remove_char.
  induction 1 as [|c text Hc _ IH]; [reflexivity|].
  cbn [filter].
  destruct Hc as [Hc | [ -> | [ -> | -> ] ] ].
  - pose proof (is_digit_bounds c Hc) as Hb. rewrite Hc.
    rewrite (N_eqb_false c pound) by (unfold pound; lia). cbn [negb filter].
    rewrite (N_eqb_false c 32) by lia. cbn [negb filter].
    rewrite (N_eqb_false c 44) by lia. cbn [negb]. rewrite IH. reflexivity.
  - cbn. exact IH.
  - cbn. exact IH.
  - cbn. exact IH.
Qed.

Lemma filter_lstrip_by (p sp : N -> bool) (s : str) :
  (forall c, sp c = true -> p c = false) ->
  filter p (lstrip_by sp s) = filter p s.
Proof.
  intros H. induction s as [|c s IH]; [reflexivity|].
  cbn [lstrip_by filter]. destruct (sp c) eqn:Hc; [|reflexivity].
  rewrite (H c Hc). exact IH.
Qed.

Lemma filter_rstrip_by (p sp : N -> bool) (s : str) :
  (forall c, sp c = true -> p c = false) ->
  filter p (rstrip_by sp s) = filter p s.
Proof.
  intros H. unfold rstrip_by.
  rewrite filter_rev, filter_lstrip_by by exact H.
  rewrite filter_rev, rev_involutive. reflexivity.
Qed.

(** Stripped and without commas, dollar signs and white space, a text
    made of them and of digits is its digits. *)
Lemma sub_comma_dollar_space_digits (text : str) :
  Forall (fun c => is_digit c = true \/ c = 36%N \/ c = 44%N \/ isspace c = true)
         text ->
  Imdb.sub_comma_dollar_space (strip text) = filter is_digit text.
Proof.
  intros Hchars. unfold Imdb.sub_comma_dollar_space, strip.
  rewrite filter_rstrip_by, filter_lstrip_by
    by (intros c Hc; rewrite Hc, !orb_true_r; reflexivity).
  apply filter_ext_in. intros c Hc.
  rewrite Forall_forall in Hchars.
  destruct (Hchars c Hc) as [Hd | [ -> | [ -> | Hs ] ] ].
  - pose proof (is_digit_bounds c Hd) as Hb.
    rewrite Hd, (digit_not_space c Hd).
    rewrite (N_eqb_false c 44), (N_eqb_false c 36) by lia. reflexivity.
  - reflexivity.
  - reflexivity.
  - rewrite Hs, !orb_true_r. cbn [negb]. symmetry.
    destruct (is_digit c) eqn:Hd; [|reflexivity].
    rewrite (digit_not_space c Hd) in Hs. discriminate.
Qed.

End ReadingDigits.

Lemma filter_is_digit_digits (text : str) :
  Forall (fun c => is_digit c = true) (filter is_digit text).
Proof. apply Forall_forall. intros c Hc. apply filter_In in Hc. apply Hc. Qed.

(** X14. Each normalizer reads the digits of an amount written with its
    own currency: [clean_money_value] on a text of digits, pound signs,
    spaces and commas, and [clean_currency] on a text of digits, dollar
    signs, commas and white space, give the number that the digits of the
    text write in base 10, wherever the other characters stand, as long as
    there is a digit and no more than 4300 of them. *)
Theorem normalizers_read_the_digits :
  forall (todecimal : N -> option N) (S : Type) (st : S) (text : str),
    filter is_digit text <> [] ->
    (List.length (filter is_digit text) <= int_max_str_digits)%nat ->
    (Forall (fun c => is_digit c = true \/ c = pound \/ c = 32%N \/ c = 44%N)
            text ->
     Salary.clean_money_value todecimal (VStr text) st
       = (Ret (decimal (filter is_digit text)), st)) /\
    (Forall (fun c => is_digit c = true \/ c = 36%N \/ c = 44%N \/ isspace c = true)
            text ->
     Imdb.clean_currency todecimal text st
       = (Ret (Some (decimal (filter is_digit text))), st)).
Proof.
  intros todecimal S st text Hne Hlen.
  pose proof (int_of_digits todecimal (filter is_digit text) Hne
                (filter_is_digit_digits text) Hlen) as Hint.
  split; intros Hchars.
  - unfold Salary.clean_money_value.
    destruct text as [|c text']; [contradiction Hne; reflexivity|].
    destruct (str_eqb (c :: text') Salary.NA) eqn:HNA.
    + apply str_eqb_eq in HNA. rewrite HNA in Hchars.
      inversion Hchars as [|? ? [H|[H|[H|H]]] _]; discriminate.
    + cbn [orb]. rewrite remove_pound_space_comma_digits by exact Hchars.
      unfold try_except, lift. rewrite Hint. reflexivity.
  - unfold Imdb.clean_currency.
    destruct text as [|c text']; [contradiction Hne; reflexivity|].
    cbv zeta. rewrite sub_comma_dollar_space_digits by exact Hchars.
    unfold try_except, bind, lift. rewrite Hint. reflexivity.
Qed.

Lemma normalizers_read_the_digits_witness :
  Salary.clean_money_value ascii_digits_only
    (VStr (lit "1,0" ++ pound :: lit " 7")) tt = (Ret 107, tt) /\
  Imdb.clean_currency ascii_digits_only (lit " $ 1,234 ") tt = (Ret (Some 1234), tt).
Proof.
  split.
  - apply (normalizers_read_the_digits ascii_digits_only unit tt
             (lit "1,0" ++ pound :: lit " 7")).
    + discriminate.
    + apply Nat.leb_le. vm_compute. reflexivity.
    + repeat (apply Forall_cons || apply Forall_nil); cbv; auto.
  - apply (normalizers_read_the_digits ascii_digits_only unit tt
             (lit " $ 1,234 ")).
    + discriminate.
    + apply Nat.leb_le. vm_compute. reflexivity.
    + repeat (apply Forall_cons || apply Forall_nil); cbv; auto.
Defined.

(** ** What the normalizers reject *)

Lemma lstrip_by_split (sp : N -> bool) (s : str) :
  exists pre, s = pre ++ lstrip_by sp s /\ Forall (fun c => sp c = true) pre.
Proof.
  induction s as [|c s (pre & Hs & Hpre)]; [exists []; auto|].
  cbn [lstrip_by]. destruct (sp c) eqn:Hc.
  - exists (c :: pre). cbn. rewrite <- Hs. auto.
  - exists []. auto.
Qed.

Lemma lstrip_by_nil (sp : N -> bool) (s : str) :
  lstrip_by sp s = [] -> Forall (fun c => sp c = true) s.
Proof.
  induction s as [|c s IH]; [constructor|].
  cbn [lstrip_by]. destruct (sp c) eqn:Hc; [|discriminate].
  intros H. constructor; auto.
Qed.

Lemma In_lstrip_by (sp : N -> bool) (c : N) (s : str) :
  In c s -> sp c = false -> In c (lstrip_by sp s).
Proof.
  intros Hin Hc. induction s as [|x s IH]; [contradiction|].
  cbn [lstrip_by]. destruct (sp x) eqn:Hx; [|exact Hin].
  destruct Hin as [->|Hin]; [congruence | apply IH, Hin].
Qed.

Lemma In_strip (c : N) (s : str) :
  In c s -> isspace c = false -> In c (strip s).
Proof.
  intros Hin Hc. unfold strip, rstrip_by.
  apply in_rev. rewrite rev_involutive.
  apply In_lstrip_by; [|exact Hc].
  apply in_rev. rewrite rev_involutive.
  apply In_lstrip_by; assumption.
Qed.

Lemma scan_digits_consumed :
  forall (s : str) (prev_us : bool) (acc : Z) (n : nat) v d rest,
    scan_digits prev_us acc n s = Some (v, d, rest) ->
    exists consumed,
      s = consumed ++ rest /\
      Forall (fun c => int_char c = true) consumed.
Proof.
  induction s as [|c s IH]; intros prev_us acc n v d rest H;
    cbn [scan_digits] in H.
  - destruct prev_us; [discriminate|]. injection H as _ _ <-.
    exists []. auto.
  - destruct (N.eqb c underscore) eqn:Hus.
    + destruct prev_us; [discriminate|].
      apply IH in H as (consumed & -> & Hall).
      exists (c :: consumed). split; [reflexivity|]. constructor; [|exact Hall].
      apply N.eqb_eq in Hus. subst c. reflexivity.
    + destruct (digit_value c) as [dv|] eqn:Hd.
      * apply IH in H as (consumed & -> & Hall).
        exists (c :: consumed). split; [reflexivity|]. constructor; [|exact Hall].
        unfold digit_value in Hd. unfold int_char, is_digit.
        destruct ((48 <=? c)%N && (c <=? 57)%N); [reflexivity | discriminate].
      * destruct prev_us; [discriminate|]. injection H as _ _ <-.
        exists []. auto.
Qed.

Lemma space_is_int_char (s : str) :
  Forall (fun c => Py_ISSPACE c = true) s ->
  Forall (fun c => int_char c = true) s.
Proof.
  apply Forall_impl. intros c H. unfold int_char.
  rewrite H, !orb_true_r. reflexivity.
Qed.

(** What [PyLong_FromString] reads holds nothing but digits, white space,
    signs and underscores. *)
Lemma digits_part_chars (sign : Z) (s2 : str) (n : Z) :
  match s2 with
  | c :: _ =>
      if N.eqb c underscore then None
      else
        match scan_digits false 0 0 s2 with
        | Some (v, digits, rest) =>
            match digits with
            | O => None
            | S _ =>
                if Nat.ltb int_max_str_digits digits then None
                else
                  match lstrip_by Py_ISSPACE rest with
                  | [] => Some (sign * v)
                  | _ :: _ => None
                  end
            end
        | None => None
        end
  | [] => None
  end = Some n ->
  Forall (fun c => int_char c = true) s2.
Proof.
  destruct s2 as [|c r]; [discriminate|].
  destruct (N.eqb c underscore); [discriminate|].
  destruct (scan_digits false 0 0 (c :: r)) as [[[v d] rest]|] eqn:Hscan;
    [|discriminate].
  destruct d; [discriminate|].
  destruct (Nat.ltb int_max_str_digits (S d)); [discriminate|].
  destruct (lstrip_by Py_ISSPACE rest) eqn:Hrest; [|discriminate].
  intros _.
  apply scan_digits_consumed in Hscan as (consumed & -> & Hall).
  apply Forall_app. split; [exact Hall|].
  apply space_is_int_char, lstrip_by_nil, Hrest.
Qed.

Lemma long_from_string_chars (s : str) (n : Z) :
  long_from_string s = Some n -> Forall (fun c => int_char c = true) s.
Proof.
  unfold long_from_string.
  destruct (lstrip_by_split Py_ISSPACE s) as (pre & Hs & Hpre).
  intros H. rewrite Hs. apply Forall_app.
  split; [apply space_is_int_char, Hpre|].
  destruct (lstrip_by Py_ISSPACE s) as [|c r]; [constructor|].
  destruct (N.eqb c 43) eqn:Hplus.
  - constructor; [|eapply digits_part_chars, H].
    apply N.eqb_eq in Hplus. subst c. reflexivity.
  - destruct (N.eqb c 45) eqn:Hminus.
    + constructor; [|eapply digits_part_chars, H].
      apply N.eqb_eq in Hminus. subst c. reflexivity.
    + eapply digits_part_chars, H.
Qed.

Section Rejecting.

Variable todecimal : N -> option N.

(** An ASCII character of the text is still there when [int] has brought
    the text to ASCII, unless the text was cut at a question mark. *)
Lemma transform_keeps (c : N) (s : str) :
  In c s -> (c < 127)%N ->
  In c (transform_decimal_and_space_to_ascii todecimal s) \/
  In ascii_question (transform_decimal_and_space_to_ascii todecimal s).
Proof.
  intros Hin Hc. unfold transform_decimal_and_space_to_ascii.
  destruct (forallb _ s); [left; exact Hin|].
  induction s as [|x s IH]; [contradiction|].
  cbn [transform_chars].
  destruct (x <? 127)%N eqn:Hx.
  - destruct Hin as [->|Hin]; [left; left; reflexivity|].
    destruct (IH Hin) as [H|H]; [left | right]; right; exact H.
  - assert (Hin' : In c s).
    { destruct Hin as [->|Hin]; [|exact Hin].
      apply N.ltb_ge in Hx. lia. }
    destruct (isspace x).
    + destruct (IH Hin') as [H|H]; [left | right]; right; exact H.
    + destruct (todecimal x).
      * destruct (IH Hin') as [H|H]; [left | right]; right; exact H.
      * right. left. reflexivity.
Qed.

(** [int] rejects a text that holds an ASCII character it cannot read. *)
Lemma int_rejects (c : N) (s : str) :
  In c s -> (c < 127)%N -> int_char c = false ->
  int todecimal s = Raise ValueError.
Proof.
  intros Hin Hc Hbad. unfold int.
  destruct (long_from_string _) as [n|] eqn:Hread; [|reflexivity].
  apply long_from_string_chars in Hread. rewrite Forall_forall in Hread.
  destruct (transform_keeps c s Hin Hc) as [H|H]; apply Hread in H.
  - congruence.
  - discriminate.
Qed.

End Rejecting.

(** X15. One ASCII character that [int] cannot read (not a digit, a sign,
    an underscore or white space of the C locale) and that the normalizer
    does not remove makes the whole amount unknown, whatever else the text
    holds: [clean_money_value] gives 0 when the character is not a comma,
    [clean_currency] gives [None] when it is not a comma, a dollar sign or
    white space. So a decimal point, a letter of a unit, or the sign of the
    other currency lose the amount. *)
Theorem normalizers_lose_amounts_with_other_characters :
  forall (todecimal : N -> option N) (S : Type) (st : S) (text : str) (c : N),
    In c text -> (c < 127)%N -> int_char c = false ->
    (c <> 44%N ->
     Salary.clean_money_value todecimal (VStr text) st = (Ret 0, st)) /\
    (c <> 44%N -> c <> 36%N -> isspace c = false ->
     Imdb.clean_currency todecimal text st = (Ret None, st)).
Proof.
  intros todecimal S st text c Hin Hc Hbad. split.
  - intros Hcomma. unfold Salary.clean_money_value.
    destruct (_ || _); [reflexivity|].
    assert (Hkept : In c (Salary.remove_pound_space_comma text)).
    { unfold Salary.remove_pound_space_comma, remove_char.
      repeat (apply filter_In; split); try exact Hin;
        apply negb_true_iff, N.eqb_neq.
      - unfold pound. lia.
      - intros ->. discriminate.
      - exact Hcomma. }
    unfold try_except, lift.
    rewrite (int_rejects todecimal c _ Hkept Hc Hbad). reflexivity.
  - intros Hcomma Hdollar Hspace. unfold Imdb.clean_currency.
    destruct text as [|x text']; [contradiction|].
    assert (Hkept : In c (Imdb.sub_comma_dollar_space (strip (x :: text')))).
    { unfold Imdb.sub_comma_dollar_space. apply filter_In.
      split; [apply In_strip; assumption|].
      rewrite Hspace, (N_eqb_false c 44), (N_eqb_false c 36) by assumption.
      reflexivity. }
    cbv zeta. unfold try_except, bind, lift.
    rewrite (int_rejects todecimal c _ Hkept Hc Hbad). reflexivity.
Qed.

Lemma normalizers_lose_amounts_with_other_characters_witness :
  Salary.clean_money_value ascii_digits_only (VStr (pound :: lit "1.5")) tt
    = (Ret 0, tt) /\
  Imdb.clean_currency ascii_digits_only (lit "$1.5") tt = (Ret None, tt).
Proof.
  split.
  - apply (normalizers_lose_amounts_with_other_characters ascii_digits_only
             unit tt (pound :: lit "1.5") 46%N);
      [cbv; auto | reflexivity | reflexivity | discriminate].
  - apply (normalizers_lose_amounts_with_other_characters ascii_digits_only
             unit tt (lit "$1.5") 46%N);
      [cbv; auto | reflexivity | reflexivity | discriminate | discriminate
      | reflexivity].
Defined.

(** ** The seasons of a run *)

Section Seasons.

Variable todecimal : N -> option N.
Variable chrome : nat -> Salary.browser.
Variable format : str -> str -> result str.
Variable base_url : str.

Lemma seasons_loop_outcome :
  forall (seasons : list str) (all_data : list dict) (st st' : Salary.state)
         (r : result (list dict)),
    Salary.seasons_loop todecimal chrome format base_url seasons all_data st
      = (r, st') ->
    (forall e, r = Raise e ->
       is_Exception e = false \/
       exists season, In season seasons /\ format base_url season = Raise e) /\
    (forall out, r = Ret out ->
       exists added,
         out = all_data ++ added /\
         Forall (fun record => exists season,
                   In season seasons /\
                   dict_get record season_key = Some (VStr season)) added).
Proof.
  induction seasons as [|season rest IH]; intros all_data st st' r Hrun.
  - injection Hrun as <- <-. split; [discriminate|].
    intros out H. injection H as <-. exists []. rewrite app_nil_r. auto.
  - rewrite seasons_loop_cons in Hrun.
    assert (Hlater : forall data s,
               Salary.seasons_loop todecimal chrome format base_url rest data s
                 = (r, st') ->
               forall new,
                 data = all_data ++ new ->
                 Forall (fun record =>
                           dict_get record season_key = Some (VStr season)) new ->
               (forall e, r = Raise e ->
                  is_Exception e = false \/
                  exists s', In s' (season :: rest) /\ format base_url s' = Raise e) /\
               (forall out, r = Ret out ->
                  exists added,
                    out = all_data ++ added /\
                    Forall (fun record => exists s',
                              In s' (season :: rest) /\
                              dict_get record season_key = Some (VStr s')) added)).
    { intros data s Hloop new -> Hnew.
      destruct (IH _ _ _ _ Hloop) as [Hexn Hout]. split.
      - intros e He. destruct (Hexn e He) as [H|(s' & Hs' & H)]; [left; exact H|].
        right. exists s'. split; [right; exact Hs' | exact H].
      - intros out Ho. destruct (Hout out Ho) as (added & -> & Hall).
        exists (new ++ added). rewrite app_assoc. split; [reflexivity|].
        apply Forall_app. split.
        + eapply Forall_impl; [|exact Hnew].
          intros record H. exists season. split; [left; reflexivity | exact H].
        + eapply Forall_impl; [|exact Hall].
          intros record (s' & Hs' & H). exists s'. split; [right; exact Hs' | exact H]. }
    destruct (format base_url season) as [season_url|e] eqn:Hformat.
    2:{ injection Hrun as <- <-. split; [|discriminate].
        intros e' H. injection H as <-. right. exists season.
        split; [left; reflexivity | exact Hformat]. }
    cbv zeta in Hrun.
    assert (Hfailed : forall e s,
               (if is_Exception e
                then Salary.seasons_loop todecimal chrome format base_url rest
                       all_data (say (Salary.ErrorScrapingSeason season e) s)
                else (Raise e, s)) = (r, st') ->
               (forall e', r = Raise e' ->
                  is_Exception e' = false \/
                  exists s', In s' (season :: rest) /\ format base_url s' = Raise e') /\
               (forall out, r = Ret out ->
                  exists added,
                    out = all_data ++ added /\
                    Forall (fun record => exists s',
                              In s' (season :: rest) /\
                              dict_get record season_key = Some (VStr s')) added)).
    { intros e s H. destruct (is_Exception e) eqn:He.
      - apply (Hlater _ _ H []); [rewrite app_nil_r; reflexivity | constructor].
      - injection H as <- <-. split; [|discriminate].
        intros e' H. injection H as <-. left. exact He. }
    destruct (Salary.scrape_all_columns chrome season_url _) as [[data|e] st1].
    + destruct (Salary.clean_data_money_columns todecimal data st1)
        as [[cleaned|e] st2].
      * apply (Hlater _ _ Hrun (with_season season cleaned)); [reflexivity|].
        apply Forall_forall. intros record Hin.
        apply in_map_iff in Hin as (raw & <- & _). apply dict_get_set_same.
      * apply (Hfailed _ _ Hrun).
    + apply (Hfailed _ _ Hrun).
Qed.

End Seasons.

(** X16. [scrape_multiple_seasons] labels what it returns: every record
    carries, under the key season, one of the seasons it was asked for.
    A season that fails with an [Exception] while it is scraped or cleaned
    is skipped; but [base_url.format(season)] is evaluated before the
    [try], so its exception ends the whole run, like an exception that is
    no [Exception]. *)
Theorem scrape_multiple_seasons_labels_its_records :
  forall (todecimal : N -> option N) (chrome : nat -> Salary.browser)
         (format : str -> str -> result str) (base_url : str)
         (seasons : list str) (st : Salary.state),
    let run := Salary.scrape_multiple_seasons todecimal chrome format base_url
                 seasons st in
    (forall e, fst run = Raise e ->
       is_Exception e = false \/
       exists season, In season seasons /\ format base_url season = Raise e) /\
    (forall out, fst run = Ret out ->
       Forall (fun record => exists season,
                 In season seasons /\
                 dict_get record season_key = Some (VStr season)) out).
Proof.
  intros todecimal chrome format base_url seasons st run.
  destruct run as [r st'] eqn:Hrun. cbn [fst].
  destruct (seasons_loop_outcome todecimal chrome format base_url seasons []
              st st' r Hrun) as [Hexn Hout].
  split; [exact Hexn|].
  intros out H. destruct (Hout out H) as (added & -> & Hall). exact Hall.
Qed.

Lemma scrape_multiple_seasons_labels_its_records_witness :
  exists out,
    fst (Salary.scrape_multiple_seasons ascii_digits_only second_session_breaks
           format_sample (lit "p/") [lit "2013-2014"; lit "2014-2015"]
           no_session_yet) = Ret out /\
    Forall (fun record => exists season,
              In season [lit "2013-2014"; lit "2014-2015"] /\
              dict_get record season_key = Some (VStr season)) out.
Proof.
  eexists. split; [vm_compute; reflexivity|].
  apply (scrape_multiple_seasons_labels_its_records ascii_digits_only
           second_session_breaks format_sample (lit "p/")
           [lit "2013-2014"; lit "2014-2015"] no_session_yet).
  vm_compute. reflexivity.
Defined.

(** ** The merger, whatever the files are *)

Lemma files_written_app (t1 t2 : list Merge.event) :
  files_written (t1 ++ t2) = files_written t1 ++ files_written t2.
Proof.
  induction t1 as [|[m|p|p d] t1 IH]; cbn; rewrite ?IH; reflexivity.
Qed.

Section MergeAnyWorld.

Variable to_datetime_format : str -> Merge.cell -> option Merge.Timestamp.
Variable to_datetime_dayfirst : list Merge.cell -> Merge.cell -> option Merge.Timestamp.
Variable sort_values : nat -> list (list Merge.cell) -> list (list Merge.cell).
Variable listdir : str -> result (list str).
Variable path_join : str -> str -> str.
Variable path_exists : str -> bool.
Variable read_csv : str -> result Merge.DataFrame.
Variable to_csv : str -> Merge.DataFrame -> result unit.

Let parse := Merge.parse_date_column to_datetime_format to_datetime_dayfirst.

(** [parse_date_column] raises only the [KeyError] of a table without a
    [Date] column, before it prints anything; what it returns has a [Date]
    column of timestamps and [NaT]; it reads and writes no file. *)
Lemma parse_date_column_outcome (d : Merge.DataFrame) (st st' : Merge.state)
    (r : result Merge.DataFrame) :
  parse d st = (r, st') ->
  files_written st' = files_written st /\
  Merge.files_read st' = Merge.files_read st /\
  (forall e, r = Raise e ->
     e = KeyError Merge.Date /\ st' = st /\
     Merge.index_of Merge.Date (Merge.columns d) = None) /\
  (forall f, r = Ret f ->
     frame_ok f /\ Merge.len f = Merge.len d /\
     Merge.index_of Merge.Date (Merge.columns d) <> None).
Proof.
  intros Hrun.
  destruct (Merge.index_of Merge.Date (Merge.columns d)) as [k|] eqn:Hk.
  - destruct (parse_date_column_returns to_datetime_format to_datetime_dayfirst
                d k Hk st) as (values & st1 & Hrun1 & Hlen & Hstamps & _).
    fold parse in Hrun1. rewrite Hrun1 in Hrun. injection Hrun as <- <-.
    assert (Htrace : st1 = st \/ exists m, st1 = st ++ [Merge.Print m]).
    { revert Hrun1. unfold parse, Merge.parse_date_column, bind, lift.
      destruct (Merge.getitem d Merge.Date) as [dates|e]; [|discriminate].
      destruct (Merge.formats_loop _ _ _ _) as [[f|]|e]; [| |discriminate].
      - intros H. injection H as _ <-. left. reflexivity.
      - destruct (Merge.setitem _ _ _) as [f|e]; [|discriminate].
        destruct (forallb _ _); cbn; intros H; injection H as _ <-;
          [right; eexists; reflexivity | left; reflexivity]. }
    assert (Hw : files_written st1 = files_written st /\
                 Merge.files_read st1 = Merge.files_read st).
    { destruct Htrace as [->|[m ->]]; [auto|].
      rewrite files_written_app, files_read_app. cbn. rewrite !app_nil_r. auto. }
    destruct Hw as [Hw Hr].
    split; [exact Hw|]. split; [exact Hr|]. split; [discriminate|].
    intros f H. injection H as <-. split; [|split; [|discriminate]].
    + exists k. split; [exact Hk|].
      apply (proj1 (Forall_map (Merge.cell_at k) stampish _)).
      cbn [with_dates Merge.rows].
      rewrite zip_rows_set_at_column by exact Hlen.
      eapply Forall_impl; [|exact Hstamps].
      intros c [->|[t ->]]; [left; reflexivity | right; eauto].
    + unfold Merge.len. cbn [with_dates Merge.rows].
      rewrite zip_rows_length by exact Hlen. reflexivity.
  - unfold parse, Merge.parse_date_column, bind, lift, Merge.getitem in Hrun.
    rewrite Hk in Hrun. injection Hrun as <- <-.
    split; [reflexivity|]. split; [reflexivity|].
    split; [|discriminate].
    intros e H. injection H as <-. auto.
Qed.

Variable data_dir : str.

Let path_of (id : Z) : str := path_join data_dir (Merge.filename_of id).

(** One turn of the loop over the candidate files. *)
Lemma files_loop_cons (id : Z) (rest : list Z)
    (dataframes : list Merge.DataFrame) (st : Merge.state) :
  let loop := Merge.files_loop to_datetime_format to_datetime_dayfirst
                path_join path_exists read_csv data_dir in
  let filename := Merge.filename_of id in
  loop (id :: rest) dataframes st =
  if path_exists (path_of id) then
    let st0 := (st ++ [Merge.Print (Merge.Reading filename)])
               ++ [Merge.ReadCsv (path_of id)] in
    let failed e st1 :=
      if is_Exception e then
        loop rest dataframes
          (st1 ++ [Merge.Print (Merge.ErrorReading filename e)])
      else (Raise e, st1) in
    match read_csv (path_of id) with
    | Ret d =>
        match parse d st0 with
        | (Ret f, st1) =>
            loop rest (dataframes ++ [f])
              (st1 ++ [Merge.Print (Merge.SuccessfullyRead filename (Merge.len f))])
        | (Raise e, st1) => failed e st1
        end
    | Raise e => failed e st0
    end
  else loop rest dataframes (st ++ [Merge.Print (Merge.NotFound filename)]).
Proof.
  cbv zeta. cbn [Merge.files_loop]. fold (path_of id).
  unfold bind at 1.
  destruct (path_exists (path_of id)); [|reflexivity].
  unfold bind at 1. cbn [Merge.print Merge.emit].
  unfold try_except, bind at 1. cbn [Merge.emit].
  unfold bind at 1, lift.
  destruct (read_csv (path_of id)) as [d|e].
  - unfold bind at 1. fold parse.
    destruct (parse d _) as [[f|e] st1].
    + reflexivity.
    + destruct (is_Exception e); reflexivity.
  - destruct (is_Exception e); reflexivity.
Qed.

(** The loop over the candidate files writes nothing and lets no
    [Exception] through; the frames it adds all have a parsed [Date]
    column, and come from loadable files only. *)
Lemma files_loop_outcome :
  forall (ids : list Z) (dataframes : list Merge.DataFrame)
         (st st' : Merge.state) (r : result (list Merge.DataFrame)),
    Merge.files_loop to_datetime_format to_datetime_dayfirst path_join
      path_exists read_csv data_dir ids dataframes st = (r, st') ->
    files_written st' = files_written st /\
    (forall e, r = Raise e ->
       is_Exception e = false /\
       exists id, In id ids /\ path_exists (path_of id) = true /\
                  read_csv (path_of id) = Raise e) /\
    (forall out, r = Ret out ->
       exists more,
         out = dataframes ++ more /\ Forall frame_ok more /\
         ((forall id, In id ids -> unloadable path_exists read_csv (path_of id)) ->
          more = [])).
Proof.
  induction ids as [|id rest IH]; intros dataframes st st' r Hrun.
  - injection Hrun as <- <-. split; [reflexivity|]. split; [discriminate|].
    intros out H. injection H as <-. exists []. rewrite app_nil_r. auto.
  - rewrite files_loop_cons in Hrun. cbv zeta in Hrun.
    (* a turn that adds nothing *)
    assert (Hskip : forall s,
               files_written s = files_written st ->
               Merge.files_loop to_datetime_format to_datetime_dayfirst path_join
                 path_exists read_csv data_dir rest dataframes s = (r, st') ->
               files_written st' = files_written st /\
               (forall e, r = Raise e ->
                  is_Exception e = false /\
                  exists id', In id' (id :: rest) /\
                              path_exists (path_of id') = true /\
                              read_csv (path_of id') = Raise e) /\
               (forall out, r = Ret out ->
                  exists more,
                    out = dataframes ++ more /\ Forall frame_ok more /\
                    ((forall id', In id' (id :: rest) ->
                        unloadable path_exists read_csv (path_of id')) ->
                     more = []))).
    { intros s Hs Hloop.
      destruct (IH _ _ _ _ Hloop) as (Hw & Hexn & Hout).
      split; [rewrite Hw; exact Hs|]. split.
      - intros e He. destruct (Hexn e He) as (Hne & id' & Hin & Hread).
        split; [exact Hne|]. exists id'. split; [right; exact Hin | exact Hread].
      - intros out Ho. destruct (Hout out Ho) as (more & -> & Hok & Hnone).
        exists more. split; [reflexivity|]. split; [exact Hok|].
        intros Hall. apply Hnone. intros id' Hin. apply Hall. right. exact Hin. }
    assert (Hfailed : forall e s,
               files_written s = files_written st ->
               (is_Exception e = false ->
                path_exists (path_of id) = true /\
                read_csv (path_of id) = Raise e) ->
               (if is_Exception e
                then Merge.files_loop to_datetime_format to_datetime_dayfirst
                       path_join path_exists read_csv data_dir rest dataframes
                       (s ++ [Merge.Print (Merge.ErrorReading (Merge.filename_of id) e)])
                else (Raise e, s)) = (r, st') ->
               files_written st' = files_written st /\
               (forall e', r = Raise e' ->
                  is_Exception e' = false /\
                  exists id', In id' (id :: rest) /\
                              path_exists (path_of id') = true /\
                              read_csv (path_of id') = Raise e') /\
               (forall out, r = Ret out ->
                  exists more,
                    out = dataframes ++ more /\ Forall frame_ok more /\
                    ((forall id', In id' (id :: rest) ->
                        unloadable path_exists read_csv (path_of id')) ->
                     more = []))).
    { intros e s Hs Hread H. destruct (is_Exception e) eqn:He.
      - apply (Hskip _) in H; [exact H|].
        rewrite files_written_app. cbn. rewrite app_nil_r. exact Hs.
      - injection H as <- <-. split; [exact Hs|]. split; [|discriminate].
        intros e' H. injection H as <-. split; [exact He|].
        exists id. split; [left; reflexivity | auto]. }
    destruct (path_exists (path_of id)) eqn:Hexists.
    + assert (Hw0 : files_written
                      ((st ++ [Merge.Print (Merge.Reading (Merge.filename_of id))])
                       ++ [Merge.ReadCsv (path_of id)]) = files_written st).
      { rewrite !files_written_app. cbn. rewrite !app_nil_r. reflexivity. }
      destruct (read_csv (path_of id)) as [d|e] eqn:Hread.
      * destruct (parse d _) as [[f|e] st1] eqn:Hparse;
          apply parse_date_column_outcome in Hparse
            as (Hw1 & _ & Hexn1 & Hret1).
        -- destruct (Hret1 f eq_refl) as (Hok & _ & HDate).
           destruct (IH _ _ _ _ Hrun) as (Hw & Hexn & Hout).
           split.
           { rewrite Hw, files_written_app. cbn.
             rewrite app_nil_r, Hw1. exact Hw0. }
           split.
           { intros e He. destruct (Hexn e He) as (Hne & id' & Hin & Hr).
             split; [exact Hne|]. exists id'. split; [right; exact Hin | exact Hr]. }
           intros out Ho. destruct (Hout out Ho) as (more & -> & Hmore & _).
           exists (f :: more). rewrite <- app_assoc. split; [reflexivity|].
           split; [constructor; assumption|].
           intros Hall. exfalso.
           destruct (Hall id (or_introl eq_refl)) as [H|[(e & H & _)|(d' & H & Hd')]].
           ++ congruence.
           ++ congruence.
           ++ rewrite Hread in H. injection H as <-. contradiction.
        -- destruct (Hexn1 e eq_refl) as (-> & -> & _).
           apply (Hfailed _ _ Hw0) in Hrun; [exact Hrun|]. discriminate.
      * apply (Hfailed _ _ Hw0) in Hrun; [exact Hrun | auto].
    + apply (Hskip _) in Hrun; [exact Hrun|].
      rewrite files_written_app. cbn. rewrite app_nil_r. reflexivity.
Qed.


End MergeAnyWorld.

(** X17. When none of the candidates ["E0 (4).csv"] to ["E0 (36).csv"]
    gives a frame (the file does not exist, or reading it raises an
    [Exception], or it has no [Date] column), the merger returns [None]:
    its last line says that no data file was loaded, and nothing is handed
    to [to_csv]. *)
Theorem merge_without_loadable_file :
  forall (to_datetime_format : str -> Merge.cell -> option Merge.Timestamp)
         (to_datetime_dayfirst : list Merge.cell -> Merge.cell -> option Merge.Timestamp)
         (sort_values : nat -> list (list Merge.cell) -> list (list Merge.cell))
         (listdir : str -> result (list str)) (path_join : str -> str -> str)
         (path_exists : str -> bool) (read_csv : str -> result Merge.DataFrame)
         (to_csv : str -> Merge.DataFrame -> result unit)
         (data_dir : str) (listed : list str) (st : Merge.state),
    listdir data_dir = Ret listed ->
    (forall id, 4 <= id < 37 ->
       unloadable path_exists read_csv (path_join data_dir (Merge.filename_of id))) ->
    exists before,
      Merge.merge_premier_league_data to_datetime_format to_datetime_dayfirst
        sort_values listdir path_join path_exists read_csv to_csv data_dir st
        = (Ret None, before ++ [Merge.Print Merge.NoDataFilesLoaded]) /\
      files_written before = files_written st.
Proof.
  intros tdf tdd sort_values listdir path_join path_exists read_csv to_csv
    data_dir listed st Hlist Hnone.
  unfold Merge.merge_premier_league_data.
  unfold bind at 1, lift. rewrite Hlist.
  unfold bind at 1. cbn [Merge.print Merge.emit].
  unfold bind at 1.
  destruct (Merge.files_loop tdf tdd path_join path_exists read_csv data_dir
              (range2 4 37) [] _) as [r st1] eqn:Hloop.
  apply files_loop_outcome in Hloop as (Hw & Hexn & Hout).
  rewrite files_written_app in Hw. cbn in Hw. rewrite app_nil_r in Hw.
  assert (Hall : forall id, In id (range2 4 37) ->
            unloadable path_exists read_csv
              (path_join data_dir (Merge.filename_of id))).
  { intros id Hid. apply Hnone, In_range2, Hid. }
  destruct r as [frames|e].
  - destruct (Hout frames eq_refl) as (more & -> & _ & Hmore).
    rewrite (Hmore Hall). cbn [app].
    unfold bind at 1. cbn [Merge.print Merge.emit ret].
    exists st1. auto.
  - exfalso. destruct (Hexn e eq_refl) as (He & id & Hid & Hexists & Hread).
    destruct (Hall id Hid) as [H|[(e' & H & He')|(d & H & _)]]; congruence.
Qed.

Lemma merge_without_loadable_file_witness :
  fst (Merge.merge_premier_league_data read_dmy infer_dmy sort_by_date
         sample_listdir slash_join (fun _ => false) sample_read_csv
         sample_to_csv sample_dir []) = Ret None.
Proof.
  destruct (merge_without_loadable_file read_dmy infer_dmy sort_by_date
              sample_listdir slash_join (fun _ => false) sample_read_csv
              sample_to_csv sample_dir
              [Merge.filename_of 7; lit "notes.txt"; Merge.filename_of 15;
               Merge.filename_of 30] [])
    as (before & Hrun & _).
  - reflexivity.
  - intros id _. left. reflexivity.
  - rewrite Hrun. reflexivity.
Defined.



(** ** The fallback of the date normalizer *)

Lemma formats_loop_none
    (to_datetime_format : str -> Merge.cell -> option Merge.Timestamp)
    (df : Merge.DataFrame) (dates : list Merge.cell) (fmts : list str) :
  (forall fmt, In fmt fmts ->
     accepts to_datetime_format fmt dates (Merge.len df) = false) ->
  Merge.formats_loop to_datetime_format df dates fmts = Ret None.
Proof.
  induction fmts as [|f fmts IH]; intros Hnone; [reflexivity|].
  cbn [Merge.formats_loop].
  fold (parsed_with to_datetime_format f dates).
  fold (successes to_datetime_format f dates).
  fold (accepts to_datetime_format f dates (Merge.len df)).
  rewrite (Hnone f) by (left; reflexivity).
  apply IH. intros fmt Hfmt. apply Hnone. right. exact Hfmt.
Qed.

(** X19. When no pattern of its list reaches the threshold,
    [parse_date_column] falls back on the inference of pandas: the [Date]
    column becomes what the inference reads, and the warning with the
    first five original entries is printed exactly when the inference
    reads none of them. A table without rows always takes this path: it
    comes back as it is, and the warning is printed with an empty
    sample. *)
Theorem parse_date_column_falls_back :
  forall (to_datetime_format : str -> Merge.cell -> option Merge.Timestamp)
         (to_datetime_dayfirst : list Merge.cell -> Merge.cell -> option Merge.Timestamp)
         (df : Merge.DataFrame) (i : nat) (st : Merge.state),
    Merge.index_of Merge.Date (Merge.columns df) = Some i ->
    let dates := map (Merge.cell_at i) (Merge.rows df) in
    let inferred := map (fun x => Merge.stamp (to_datetime_dayfirst dates x)) dates in
    ((forall fmt, In fmt Merge.formats_to_try ->
        accepts to_datetime_format fmt dates (Merge.len df) = false) ->
     Merge.parse_date_column to_datetime_format to_datetime_dayfirst df st
       = (Ret (with_dates df i inferred),
          if forallb Merge.isna inferred
          then st ++ [Merge.Print (Merge.DateParsingFailed (firstn 5 dates))]
          else st)) /\
    (Merge.rows df = [] ->
     Merge.parse_date_column to_datetime_format to_datetime_dayfirst df st
       = (Ret df, st ++ [Merge.Print (Merge.DateParsingFailed [])])).
Proof.
  intros tdf tdd df i st Hi dates inferred.
  assert (Hfall : (forall fmt, In fmt Merge.formats_to_try ->
                     accepts tdf fmt dates (Merge.len df) = false) ->
                  Merge.parse_date_column tdf tdd df st
                    = (Ret (with_dates df i inferred),
                       if forallb Merge.isna inferred
                       then st ++ [Merge.Print (Merge.DateParsingFailed (firstn 5 dates))]
                       else st)).
  { intros Hnone. unfold Merge.parse_date_column.
    unfold bind at 1, lift. rewrite (getitem_Date df i Hi). fold dates.
    unfold bind at 1. rewrite (formats_loop_none tdf df dates _ Hnone).
    unfold bind at 1. fold inferred.
    rewrite (setitem_existing df Merge.Date i inferred Hi)
      by (unfold inferred, dates; rewrite !length_map; reflexivity).
    fold (with_dates df i inferred).
    destruct (forallb Merge.isna inferred); reflexivity. }
  split; [exact Hfall|].
  intros Hrows.
  assert (Hdates : dates = []) by (unfold dates; rewrite Hrows; reflexivity).
  rewrite Hfall.
  - unfold inferred. rewrite Hdates. cbn [map forallb firstn].
    unfold with_dates. rewrite Hrows. cbn [Merge.zip_rows].
    destruct df as [cols rows]. cbn in Hrows. subst rows. reflexivity.
  - intros fmt _. unfold accepts, successes, parsed_with. rewrite Hdates.
    reflexivity.
Qed.

Lemma parse_date_column_falls_back_witness :
  Merge.parse_date_column read_dmy infer_dmy
    {| Merge.columns := [lit "Date"]; Merge.rows := [] |} []
    = (Ret {| Merge.columns := [lit "Date"]; Merge.rows := [] |},
       [Merge.Print (Merge.DateParsingFailed [])]) /\
  snd (Merge.parse_date_column read_dmy infer_dmy
         {| Merge.columns := [lit "Date"];
            Merge.rows := [[Merge.Obj (lit "postponed")]] |} [])
    = [Merge.Print (Merge.DateParsingFailed [Merge.Obj (lit "postponed")])].
Proof.
  split.
  - apply (parse_date_column_falls_back read_dmy infer_dmy
             {| Merge.columns := [lit "Date"]; Merge.rows := [] |} 0 []);
      reflexivity.
  - destruct (parse_date_column_falls_back read_dmy infer_dmy
                {| Merge.columns := [lit "Date"];
                   Merge.rows := [[Merge.Obj (lit "postponed")]] |} 0 []
                eq_refl) as [H _].
    rewrite H; [reflexivity|].
    intros fmt [<-|[<-|[<-|[<-|[<-|[]]]]]]; reflexivity.
Defined.

(** ** The links of a year page *)



